(** * Educational RAG platform: ingestion pipeline and answer strategy engine

    A shallow embedding of [main.py], [src/rag_system.py] and
    [src/document_processor.py], and the properties of the specification
    checked against it.

    Conventions of the embedding.
    - A Python [str] is a [string] of code points below 256; [lower] and
      [strip] follow [str.lower] and [str.strip] on that range.
    - A Python [dict] with string keys is a [gmap string pyval].
    - A relevance score is the rational denoted by the (finite) float.
    - Wall-clock measurements ([time.time()], timestamps) are not tracked:
      the fields holding them carry the placeholder [VElapsed].
    - Exceptions are values of [exn]; code that can raise lives in the
      monad [M], which threads the process state [World] and keeps the
      state changes made before a raise, as Python does.
    - Everything outside the repository (the LLM endpoint, the vector
      index, the parsing libraries, the text splitter) is an oracle in
      [Environment]. *)

From Stdlib Require Import ZArith QArith Ascii String.
From stdpp Require Import gmap strings list pretty sorting.

Close Scope Q_scope.
Local Open Scope Z_scope.

(** ** Python strings *)

Module Py.

Definition nl : string := String "010"%char "".

(** [str.isspace] on code points below 256. *)
Definition isspace (c : ascii) : bool :=
let n := N_of_ascii c in
((9 <=? n) && (n <=? 13) || (28 <=? n) && (n <=? 32)
 || (n =? 133) || (n =? 160))%N.

Fixpoint lstrip (s : string) : string :=
match s with
| EmptyString => EmptyString
| String c s' => if isspace c then lstrip s' else s
end.

Fixpoint rstrip (s : string) : string :=
match s with
| EmptyString => EmptyString
| String c s' =>
    match rstrip s' with
    | EmptyString => if isspace c then EmptyString else String c EmptyString
    | r => String c r
    end
end.

(** [s.strip()] *)
Definition strip (s : string) : string := rstrip (lstrip s).

(** [str.lower] on one code point below 256: A-Z, and the Latin-1
  capitals U+00C0..U+00DE except the multiplication sign U+00D7. *)
Definition lower_char (c : ascii) : ascii :=
let n := N_of_ascii c in
if ((65 <=? n) && (n <=? 90)
    || (192 <=? n) && (n <=? 222) && negb (n =? 215))%N
then ascii_of_N (n + 32) else c.

Fixpoint lower (s : string) : string :=
match s with
| EmptyString => EmptyString
| String c s' => String (lower_char c) (lower s')
end.

Fixpoint startswith (s p : string) : bool :=
match p, s with
| EmptyString, _ => true
| String a p', String b s' => if Ascii.eqb a b then startswith s' p' else false
| String _ _, EmptyString => false
end.

(** [needle in hay] *)
Fixpoint contains (needle hay : string) : bool :=
startswith hay needle ||
match hay with
| EmptyString => false
| String _ hay' => contains needle hay'
end.

(** [s[:n]] *)
Fixpoint take (n : nat) (s : string) : string :=
match n, s with
| S n', String c s' => String c (take n' s')
| _, _ => EmptyString
end.

(** [sep.join(parts)] *)
Fixpoint join (sep : string) (parts : list string) : string :=
match parts with
| [] => EmptyString
| [p] => p
| p :: ps => p +:+ sep +:+ join sep ps
end.

(** [s.split(sep)] for a one-character separator, with the piece being
  read kept in [cur]. *)
Fixpoint split_go (sep : ascii) (cur : string) (s : string) : list string :=
match s with
| EmptyString => [cur]
| String c s' =>
    if Ascii.eqb c sep then cur :: split_go sep EmptyString s'
    else split_go sep (cur +:+ String c EmptyString) s'
end.

Definition split (sep : ascii) (s : string) : list string :=
split_go sep EmptyString s.

(** [len(s) > n] *)
Definition longer_than (n : nat) (s : string) : bool :=
Nat.ltb n (String.length s).

(** [s[:n] + "..." if len(s) > n else s] *)
Definition abbreviate (n : nat) (s : string) : string :=
if longer_than n s then take n s +:+ "..." else s.

End Py.

(** ** Python values and exceptions *)

Inductive pyval :=
| VNone
| VStr (s : string)
| VInt (z : Z)
| VBool (b : bool)
| VElapsed.

#[global] Instance pyval_eq_dec : EqDecision pyval.
Proof. solve_decision. Defined.

(** [bool(v)] *)
Definition truthy (v : pyval) : bool :=
  match v with
  | VNone => false
  | VStr s => negb (String.eqb s "")
  | VInt z => negb (z =? 0)
  | VBool b => b
  | VElapsed => true
  end.

(** [d.get(k)]: a missing key reads as [None]. *)
Definition dict_get (d : gmap string pyval) (k : string) : pyval :=
  default VNone (d !! k).

(** [str(v)] inside an f-string. *)
Definition py_str (v : pyval) : string :=
  match v with
  | VNone => "None"
  | VStr s => s
  | VInt z => pretty z
  | VBool true => "True"
  | VBool false => "False"
  | VElapsed => "0.0"
  end.

Inductive exn :=
| HTTPException (status_code : Z) (detail : string)
| Error (class : string) (message : string).

(** [str(e)]; for [HTTPException] this is Starlette's
    [f"{status_code}: {detail}"]. *)
Definition exn_str (e : exn) : string :=
  match e with
  | HTTPException code detail => pretty code +:+ ": " +:+ detail
  | Error _ msg => msg
  end.

Inductive result (A : Type) :=
| Ok (a : A)
| Raise (e : exn).
Arguments Ok {A} a.
Arguments Raise {A} e.

(** ** Data model *)

(** A retrieved chunk: LangChain's [Document], with the optional [score]
    attribute that [getattr(doc, 'score', 1.0)] probes. *)
Record Document := {
  page_content : string;
  metadata : gmap string pyval;
  score : option Q;
}.

(** The three [LLMChain]s built by [EnhancedRAGSystem.__init__]. *)
Inductive chain := doc_chain | general_chain | hybrid_chain.

#[global] Instance chain_eq_dec : EqDecision chain.
Proof. solve_decision. Defined.

(** One request to the generation provider: [LLMChain.arun] with its keyword arguments,
    or the direct POST of the Railway fallback. *)
Inductive generation_call :=
| ChainRun (c : chain) (kwargs : gmap string string)
| DirectPost (prompt : string).

(** What [response.json()["choices"][0]["message"]["content"]] gives. *)
Inductive json_body :=
| Completion (content : string)
| Malformed (message : string).

(** What [client.post(...)] does: it raises (connection error, timeout),
    or returns a response. *)
Inductive http_reply :=
| PostRaises (message : string)
| Response (status_code : Z) (body : json_body).

(** An entry of [progress_store]; the timestamp is not tracked. *)
Record ProgressRecord := {
  progress : Z;
  status : string;
  filename : option string;
  error : option string;
}.

(** A row of the [documents] table.  The two JSON text columns hold the
    value that [json.dumps] was given. *)
Record DocumentModel := {
  doc_filename : string;
  original_name : string;
  file_type : string;
  file_size : Z;
  processing_status : string;
  chunk_count : Z;
  vector_ids : option (list string);
  doc_metadata : option (gmap string pyval);
}.

Record QueryLog := {
  query : string;
  response : string;
  sources_used : list pyval;
  session_id : option string;
}.

(** What happens at the vector index: an [add_documents] attempt with its
    outcome, and the assignment [self.vectorstore = None]. *)
Inductive index_event :=
| AddDocuments (ids : list string) (ok : bool)
| IndexDisabled.

Definition bytes := list Byte.byte.

(** A scheduled [process_document_background] call. *)
Record BackgroundTask := {
  task_content : bytes;
  task_filename : string;
  task_file_type : string;
  task_doc_id : Z;
}.

(** ** The world outside the repository *)

Record Environment := {
  (** the reply of the chat-completion endpoint to the [n]-th generation
      request of the process (counted from 0) carrying [prompt] *)
  deepseek_api : nat → string → http_reply;
  (** [PromptTemplate.format] of the chain's template *)
  format_prompt : chain → gmap string string → string;
  (** [os.getenv("DEEPSEEK_API_KEY")] *)
  DEEPSEEK_API_KEY : option string;
  (** [str(e)] of the error that httpx's [raise_for_status] raises *)
  status_error_message : Z → string;
  (** whether the [n]-th [add_documents] attempt of the process returns
      (rather than raises) *)
  add_documents_ok : nat → list string → bool;
  (** [vectorstore.similarity_search(query, k, filter)] *)
  similarity_search : string → option (list Z) → nat → result (list Document);
  (** the text extraction libraries *)
  pdf_text : bytes → result string;
  docx_text : bytes → result string;
  decode_utf8 : bytes → result string;
  structured_text : bytes → string → result string;
  (** [RecursiveCharacterTextSplitter.split_text] *)
  split_text : string → list string;
  (** [int((current_batch / total_batches) * 40)] in binary64 arithmetic *)
  batch_share : nat → nat → Z;
  (** [int(time.time())] *)
  time_time : Z;
  (** [str(e)] of the error that [db.commit()] raises for a [QueryLog]
      without [response] *)
  null_response_error : string;
  (** [str(e)] of the error that pydantic raises for a [QueryResponse]
      without [session_id] *)
  null_session_error : string;
}.

(** ** Process state *)

Record World := {
  generation_calls : list generation_call;
  index_events : list index_event;
  (** [DocumentProcessor]: whether [self.vectorstore] and
      [self.embeddings] are set, and the ids with a registered callback
      (the callback of [doc_id] is main's
      [lambda progress: update_document_progress(doc_id, progress)]) *)
  vectorstore : bool;
  embeddings : bool;
  progress_callbacks : gset Z;
  (** main's global [progress_store], and every write made to it *)
  progress_store : gmap Z ProgressRecord;
  progress_writes : list (Z * ProgressRecord);
  (** the database *)
  documents_table : gmap Z DocumentModel;
  query_logs : list QueryLog;
  background_tasks : list BackgroundTask;
}.

Definition set_generation_calls (f : list generation_call → list generation_call) (w : World) : World :=
  {| generation_calls := f (generation_calls w); index_events := index_events w;
     vectorstore := vectorstore w; embeddings := embeddings w;
     progress_callbacks := progress_callbacks w;
     progress_store := progress_store w; progress_writes := progress_writes w;
     documents_table := documents_table w; query_logs := query_logs w;
     background_tasks := background_tasks w |}.

Definition set_index_events (f : list index_event → list index_event) (w : World) : World :=
  {| generation_calls := generation_calls w; index_events := f (index_events w);
     vectorstore := vectorstore w; embeddings := embeddings w;
     progress_callbacks := progress_callbacks w;
     progress_store := progress_store w; progress_writes := progress_writes w;
     documents_table := documents_table w; query_logs := query_logs w;
     background_tasks := background_tasks w |}.

Definition set_vectorstore (b : bool) (w : World) : World :=
  {| generation_calls := generation_calls w; index_events := index_events w;
     vectorstore := b; embeddings := embeddings w;
     progress_callbacks := progress_callbacks w;
     progress_store := progress_store w; progress_writes := progress_writes w;
     documents_table := documents_table w; query_logs := query_logs w;
     background_tasks := background_tasks w |}.

Definition set_progress_callbacks (f : gset Z → gset Z) (w : World) : World :=
  {| generation_calls := generation_calls w; index_events := index_events w;
     vectorstore := vectorstore w; embeddings := embeddings w;
     progress_callbacks := f (progress_callbacks w);
     progress_store := progress_store w; progress_writes := progress_writes w;
     documents_table := documents_table w; query_logs := query_logs w;
     background_tasks := background_tasks w |}.

(** [progress_store[doc_id] = r], remembered in [progress_writes]. *)
Definition write_progress (doc_id : Z) (r : ProgressRecord) (w : World) : World :=
  {| generation_calls := generation_calls w; index_events := index_events w;
     vectorstore := vectorstore w; embeddings := embeddings w;
     progress_callbacks := progress_callbacks w;
     progress_store := <[doc_id := r]> (progress_store w);
     progress_writes := progress_writes w ++ [(doc_id, r)];
     documents_table := documents_table w; query_logs := query_logs w;
     background_tasks := background_tasks w |}.

Definition set_documents_table (f : gmap Z DocumentModel → gmap Z DocumentModel) (w : World) : World :=
  {| generation_calls := generation_calls w; index_events := index_events w;
     vectorstore := vectorstore w; embeddings := embeddings w;
     progress_callbacks := progress_callbacks w;
     progress_store := progress_store w; progress_writes := progress_writes w;
     documents_table := f (documents_table w); query_logs := query_logs w;
     background_tasks := background_tasks w |}.

Definition set_query_logs (f : list QueryLog → list QueryLog) (w : World) : World :=
  {| generation_calls := generation_calls w; index_events := index_events w;
     vectorstore := vectorstore w; embeddings := embeddings w;
     progress_callbacks := progress_callbacks w;
     progress_store := progress_store w; progress_writes := progress_writes w;
     documents_table := documents_table w; query_logs := f (query_logs w);
     background_tasks := background_tasks w |}.

Definition set_background_tasks (f : list BackgroundTask → list BackgroundTask) (w : World) : World :=
  {| generation_calls := generation_calls w; index_events := index_events w;
     vectorstore := vectorstore w; embeddings := embeddings w;
     progress_callbacks := progress_callbacks w;
     progress_store := progress_store w; progress_writes := progress_writes w;
     documents_table := documents_table w; query_logs := query_logs w;
     background_tasks := f (background_tasks w) |}.

(** ** The monad of effectful code *)

Definition M (A : Type) : Type := World → result A * World.

#[global] Instance M_ret : MRet M := λ A a w, (Ok a, w).

#[global] Instance M_bind : MBind M := λ A B f m w,
  match m w with
  | (Ok a, w') => f a w'
  | (Raise e, w') => (Raise e, w')
  end.

(** [raise e] *)
Definition raise {A} (e : exn) : M A := λ w, (Raise e, w).

(** [try: body  except Exception as e: handler(e)] *)
Definition try_except {A} (body : M A) (handler : exn → M A) : M A := λ w,
  match body w with
  | (Ok a, w') => (Ok a, w')
  | (Raise e, w') => handler e w'
  end.

Definition get_world : M World := λ w, (Ok w, w).
Definition modify_world (f : World → World) : M unit := λ w, (Ok tt, f w).

(** Lift a library call that either returns or raises. *)
Definition of_result {A} (r : result A) : M A := λ w, (r, w).

(** ** src/rag_system.py *)

Abbreviation dict := (gmap string pyval).

(** The instance attributes of [EnhancedRAGSystem] that the methods read. *)
Record EnhancedRAGSystem := {
  railway_mode : bool;
}.

(** [response.raise_for_status()]: httpx raises unless the status is 2xx. *)
Definition is_success (status_code : Z) : bool :=
  (200 <=? status_code) && (status_code <=? 299).

(** [response.json()["choices"][0]["message"]["content"]] *)
Definition json_content (body : json_body) : M string :=
  match body with
  | Completion content => mret content
  | Malformed message => raise (Error "KeyError" message)
  end.

(** [getattr(doc, 'score', 1.0)] *)
Definition doc_score (doc : Document) : Q := default 1%Q (score doc).

(** [score >= min_relevance_score] *)
Definition is_relevant (min_relevance_score : Q) (doc : Document) : bool :=
  Qle_bool min_relevance_score (doc_score doc).

(** [doc.metadata.get("source", fallback)], as an f-string renders it. *)
Definition source_of (doc : Document) (fallback : string) : string :=
  py_str (default (VStr fallback) (metadata doc !! "source")).

(** [if documents:] on an [Optional[List[Document]]] *)
Definition supplied (documents : option (list Document)) : list Document :=
  default [] documents.

Definition has_documents (documents : option (list Document)) : bool :=
  match supplied documents with [] => false | _ => true end.

Definition markers : list string :=
  ["document"; "file"; "uploaded"; "this"; "these"; "according to"].

(** [any(word in question_lower for word in markers)] *)
Definition is_specific_query (question : string) : bool :=
  existsb (λ word, Py.contains word (Py.lower question)) markers.

Definition apology (e : exn) : string :=
  "I apologize, but I encountered an error while processing your request: "
  +:+ exn_str e.

Definition railway_docs_prompt (context question : string) : string :=
"You are an educational AI assistant. Answer the question based on the provided context from uploaded documents.

Context from documents:
" +:+ context +:+ "

Question: " +:+ question +:+ "

Instructions:
- Provide a clear, educational answer based on the context
- If the context doesn't fully answer the question, say so and provide what you can
- Use examples from the context when possible
- Be concise but comprehensive

Answer:".

Definition railway_general_prompt (question : string) : string :=
"You are an educational AI assistant. Answer this question using your general knowledge.

Question: " +:+ question +:+ "

Instructions:
- Provide a clear, educational explanation
- Use examples when helpful
- Be encouraging and supportive

Answer:".

Section RagSystem.

Context (env : Environment).

(** [client.post(...)]: the request is logged, and the endpoint replies. *)
Definition post (call : generation_call) (prompt : string) : M (Z * json_body) :=
λ w,
  let w' := set_generation_calls (λ calls, calls ++ [call]) w in
  match deepseek_api env (length (generation_calls w)) prompt with
  | PostRaises message => (Raise (Error "httpx.RequestError" message), w')
  | Response status_code body => (Ok (status_code, body), w')
  end.

Definition raise_for_status (status_code : Z) : M unit :=
if is_success status_code then mret tt
else raise (Error "httpx.HTTPStatusError" (status_error_message env status_code)).

(** [DeepSeekLLM._acall] (and [_call], which has the same body); [call]
  only labels the request in the log. *)
Definition _acall (call : generation_call) (prompt : string) : M string :=
try_except
  ('(status_code, body) ← post call prompt;
   raise_for_status status_code;;
   content ← json_content body;
   mret (Py.strip content))
  (λ e, mret (apology e)).

(** [LLMChain.arun]: the template is formatted and sent through the LLM. *)
Definition arun (c : chain) (kwargs : gmap string string) : M string :=
_acall (ChainRun c kwargs) (format_prompt env c kwargs).

Definition docs_context (relevant_docs : list Document) : string :=
Py.join (Py.nl +:+ "---" +:+ Py.nl)
  (imap (λ i doc,
           "Source: " +:+ source_of doc ("Document " +:+ pretty (i + 1)%nat)
           +:+ Py.nl +:+ "Content: " +:+ page_content doc +:+ Py.nl)
        relevant_docs).

Definition generate_answer_from_docs (question : string)
  (documents : list Document) (min_relevance_score : Q) : M dict :=
try_except
  (let relevant_docs := List.filter (is_relevant min_relevance_score) documents in
   match relevant_docs with
   | [] =>
       mret {[ "answer" := VNone; "relevance" := VStr "low";
               "sources_used" := VInt 0; "processing_time" := VElapsed ]}
   | _ =>
       let context := docs_context relevant_docs in
       result ← arun doc_chain {[ "question" := question; "context" := context ]};
       mret {[ "answer" := VStr (Py.strip result);
               "relevance" :=
                 VStr (if (2 <=? length relevant_docs)%nat then "high" else "medium");
               "sources_used" := VInt (Z.of_nat (length relevant_docs));
               "processing_time" := VElapsed ]}
   end)
  (λ e,
     mret {[ "answer" := VNone; "error" := VStr (exn_str e);
             "relevance" := VStr "error"; "sources_used" := VInt 0;
             "processing_time" := VInt 0 ]}).

Definition generate_general_answer (question : string) : M dict :=
try_except
  (result ← arun general_chain {[ "question" := question ]};
   mret {[ "answer" := VStr (Py.strip result);
           "source_type" := VStr "general_knowledge";
           "processing_time" := VElapsed ]})
  (λ e,
     mret {[ "answer" :=
               VStr ("Sorry, I encountered an error while answering your question: "
                     +:+ exn_str e);
             "source_type" := VStr "error"; "processing_time" := VInt 0 ]}).

Definition hybrid_context (documents : list Document) : string :=
Py.join (Py.nl +:+ Py.nl)
  (map (λ doc, "Document: " +:+ source_of doc "Unknown" +:+ Py.nl +:+ page_content doc)
       (take 3 documents)).

(** [general_result["answer"]] is always a string; another value would
  raise at the slice. *)
Definition answer_text (d : dict) : M string :=
match d !! "answer" with
| Some (VStr s) => mret s
| Some _ => raise (Error "TypeError" "object is not subscriptable")
| None => raise (Error "KeyError" "'answer'")
end.

Definition generate_hybrid_answer (question : string) (documents : list Document) : M dict :=
try_except
  (let doc_context := hybrid_context documents in
   general_result ← generate_general_answer question;
   general_answer ← answer_text general_result;
   let general_knowledge := Py.abbreviate 500 general_answer in
   result ← arun hybrid_chain {[ "question" := question; "context" := doc_context;
                                 "general_knowledge" := general_knowledge ]};
   mret {[ "answer" := VStr (Py.strip result); "source_type" := VStr "hybrid";
           "sources_used" := VInt (Z.of_nat (length documents));
           "processing_time" := VElapsed ]})
  (λ e,
     mret {[ "answer" :=
               VStr ("Sorry, I encountered an error while processing your question: "
                     +:+ exn_str e);
             "source_type" := VStr "error"; "processing_time" := VInt 0 ]}).

Definition railway_context (documents : option (list Document)) : string :=
if has_documents documents then
  Py.join "\n\n---\n\n"
    (imap (λ i doc,
             "Source: " +:+ source_of doc ("Document " +:+ pretty (i + 1)%nat)
             +:+ "\nContent: " +:+ Py.abbreviate 500 (page_content doc))
          (take 3 (supplied documents)))
else "".

Definition _railway_fallback_answer (question : string)
  (documents : option (list Document)) : M dict :=
try_except
  (let context := railway_context documents in
   let prompt :=
     if negb (String.eqb context "") then railway_docs_prompt context question
     else railway_general_prompt question in
   if negb (truthy (from_option VStr VNone (DEEPSEEK_API_KEY env))) then
     mret {[ "answer" := VStr "DeepSeek API key not configured. Please check your Railway environment variables.";
             "source_type" := VStr "error"; "strategy_used" := VStr "railway_error" ]}
   else
     '(status_code, body) ← post (DirectPost prompt) prompt;
     if status_code =? 200 then
       content ← json_content body;
       mret {[ "answer" := VStr (Py.strip content);
               "source_type" :=
                 VStr (if negb (String.eqb context "") then "documents"
                       else "general_knowledge");
               "strategy_used" := VStr "railway_fallback";
               "mode" := VStr "railway_compatible" ]}
     else
       mret {[ "answer" := VStr ("DeepSeek API error: " +:+ pretty status_code
                                 +:+ ". Please check your API key configuration.");
               "source_type" := VStr "error"; "strategy_used" := VStr "railway_error" ]})
  (λ e,
     mret {[ "answer" := VStr ("Railway fallback error: " +:+ exn_str e
                               +:+ ". Please check your environment configuration.");
             "source_type" := VStr "error"; "strategy_used" := VStr "railway_error" ]}).

(** The [auto] branch: the strategy it settles on, and [final_result]
  when the first document attempt is kept. *)
Definition select_strategy (question : string) (documents : option (list Document))
  (strategy : string) : M (string * option dict) :=
if String.eqb strategy "auto" then
  if has_documents documents then
    if is_specific_query question then mret ("docs_only", None)
    else
      doc_result ← generate_answer_from_docs question (supplied documents) (1 # 2)%Q;
      if bool_decide (dict_get doc_result "relevance" ∈ [VStr "high"; VStr "medium"])
      then mret ("docs_only", Some doc_result)
      else mret ("hybrid", None)
  else mret ("general_only", None)
else mret (strategy, None).

Definition execute_strategy (question : string) (documents : option (list Document))
  (strategy : string) (final_result : option dict) : M dict :=
if String.eqb strategy "docs_only" && has_documents documents then
  final_result ←
    match final_result with
    | None => generate_answer_from_docs question (supplied documents) (1 # 2)%Q
    | Some r => mret r
    end;
  if negb (truthy (dict_get final_result "answer")) then
    final_result ← generate_general_answer question;
    mret (<["fallback_reason" := VStr "low_document_relevance"]> final_result)
  else mret final_result
else if String.eqb strategy "hybrid" && has_documents documents then
  generate_hybrid_answer question (supplied documents)
else
  generate_general_answer question.

Definition intelligent_answer (self : EnhancedRAGSystem) (question : string)
  (documents : option (list Document)) (strategy : string) : M dict :=
if railway_mode self then _railway_fallback_answer question documents
else
  try_except
    ('(strategy, final_result) ← select_strategy question documents strategy;
     final_result ← execute_strategy question documents strategy final_result;
     mret (<["total_processing_time" := VElapsed]>
             (<["strategy_used" := VStr strategy]> final_result)))
    (λ e,
       mret {[ "answer" :=
                 VStr ("I apologize, but I encountered an error processing your question: "
                       +:+ exn_str e);
               "source_type" := VStr "error"; "strategy_used" := VStr "error";
               "processing_time" := VInt 0 ]}).

End RagSystem.

(** ** src/document_processor.py *)

(** [DocumentProcessor.__init__]: embeddings and vector store are left
    unset (the index and the embedding model disagree on the dimension),
    and no callback is registered. *)
Definition DocumentProcessor_init : M unit :=
  modify_world (λ w, set_progress_callbacks (λ _, ∅) (set_vectorstore false
    {| generation_calls := generation_calls w; index_events := index_events w;
       vectorstore := vectorstore w; embeddings := false;
       progress_callbacks := progress_callbacks w;
       progress_store := progress_store w; progress_writes := progress_writes w;
       documents_table := documents_table w; query_logs := query_logs w;
       background_tasks := background_tasks w |})).

Definition register_progress_callback (doc_id : Z) : M unit :=
  modify_world (set_progress_callbacks (λ cbs, {[doc_id]} ∪ cbs)).

(** main's [update_document_progress] *)
Definition update_document_progress (doc_id : Z) (progress : Z) : M unit :=
  modify_world (write_progress doc_id
    {| progress := progress;
       status := if progress <? 100 then "processing" else "completed";
       filename := None; error := None |}).

(** [DocumentProcessor.update_progress]: the registered callback, if any. *)
Definition update_progress (doc_id : Z) (progress : Z) : M unit :=
  w ← get_world;
  if bool_decide (doc_id ∈ progress_callbacks w)
  then update_document_progress doc_id progress
  else mret tt.

(** The result dictionary of [process_document]; it has one of two
    shapes, told apart by [success]. *)
Record ProcessingResult := {
  success : bool;
  result_error : option string;
  result_chunk_count : Z;
  result_vector_ids : list string;
  text_length : option Z;
}.

Definition batch_size : nat := 5.
Definition max_retries : nat := 2.

(** [self.vectorstore = None] *)
Definition disable_vectorstore : M unit :=
  modify_world (λ w, set_index_events (λ evs, evs ++ [IndexDisabled]) (set_vectorstore false w)).

Definition is_add (ev : index_event) : bool :=
  match ev with AddDocuments _ _ => true | IndexDisabled => false end.

Section DocumentProcessor.

Context (env : Environment).

Definition extract_text (file_content : bytes) (file_type filename : string) : M string :=
let t := Py.lower file_type in
if String.eqb t "pdf" then of_result (pdf_text env file_content)
else if bool_decide (t ∈ ["docx"; "doc"]) then of_result (docx_text env file_content)
else if String.eqb t "txt" then of_result (decode_utf8 env file_content)
else if bool_decide (t ∈ ["csv"; "xlsx"])
     then of_result (structured_text env file_content file_type)
else raise (Error "ValueError" ("Unsupported file type: " +:+ file_type)).

(** [self.vectorstore.add_documents(batch, ids=batch_ids)]; on an unset
  vector store the attribute access raises before any request. *)
Definition add_documents (batch_ids : list string) : M unit :=
λ w,
  if vectorstore w then
    let ok := add_documents_ok env (length (List.filter is_add (index_events w))) batch_ids in
    let w' := set_index_events (λ evs, evs ++ [AddDocuments batch_ids ok]) w in
    if ok then (Ok tt, w') else (Raise (Error "PineconeException" "add_documents failed"), w')
  else (Raise (Error "AttributeError" "'NoneType' object has no attribute 'add_documents'"), w).

(** [for attempt in range(max_retries)], from [attempt] on, with
  [remaining] rounds left; returns [success]. *)
Fixpoint attempt_batch (batch_ids : list string) (attempt remaining : nat) : M bool :=
match remaining with
| O => mret false
| S remaining' =>
    try_except
      (add_documents batch_ids;; mret true)
      (λ e,
         if (attempt =? max_retries - 1)%nat
         then disable_vectorstore;; mret false
         else attempt_batch batch_ids (S attempt) remaining')
end.

(** [[f"{doc_id}_{j}" for j in range(batch_idx, min(batch_idx + batch_size, n))]] *)
Definition batch_ids_of (doc_id : Z) (n batch_idx : nat) : list string :=
map (λ j, pretty doc_id +:+ "_" +:+ pretty j)
    (seq batch_idx (Nat.min (batch_idx + batch_size) n - batch_idx)).

(** [for batch_idx in range(0, len(documents), batch_size)] over the
  batch starts still to do; returns [vector_ids]. *)
Fixpoint index_batches (doc_id : Z) (n total_batches : nat) (starts : list nat)
  (vector_ids : list string) : M (list string) :=
match starts with
| [] => mret vector_ids
| batch_idx :: starts' =>
    let batch_ids := batch_ids_of doc_id n batch_idx in
    attempt_batch batch_ids 0 max_retries ≫= λ success : bool,
    let vector_ids := if success then vector_ids ++ batch_ids else vector_ids in
    w ← get_world;
    if negb success && negb (vectorstore w) then mret vector_ids
    else
      let current_batch := (batch_idx / batch_size + 1)%nat in
      update_progress doc_id (50 + batch_share env current_batch total_batches);;
      index_batches doc_id n total_batches starts' vector_ids
end.

(** [range(0, n, batch_size)] *)
Definition batch_starts (n : nat) : list nat :=
map (λ k, k * batch_size)%nat (seq 0 ((n + batch_size - 1) / batch_size)).

(** Step 4 of [process_document]: the [n] chunks are embedded and stored
  batch by batch when a vector store is available; returns
  [vector_ids]. *)
Definition store_embeddings (doc_id : Z) (n : nat) : M (list string) :=
w ← get_world;
if vectorstore w && embeddings w then
  let total_batches := ((n + batch_size - 1) / batch_size)%nat in
  try_except
    (index_batches doc_id n total_batches (batch_starts n) [])
    (λ vectorization_error, disable_vectorstore;; mret [])
else mret [].

Definition process_document (file_content : bytes) (filename file_type : string)
  (doc_id : Z) : M ProcessingResult :=
try_except
  (update_progress doc_id 5;;
   text_content ← extract_text file_content file_type filename;
   update_progress doc_id 25;;
   (if String.eqb (Py.strip text_content) ""
    then raise (Error "ValueError" "No text content extracted from file")
    else mret tt);;
   update_progress doc_id 30;;
   let chunks := split_text env text_content in
   update_progress doc_id 40;;
   (match chunks with
    | [] => raise (Error "ValueError" "No chunks created from text content")
    | _ => mret tt
    end);;
   update_progress doc_id 50;;
   vector_ids ← store_embeddings doc_id (length chunks);
   update_progress doc_id 95;;
   update_progress doc_id 100;;
   mret {| success := true; result_error := None;
           result_chunk_count := Z.of_nat (length chunks);
           result_vector_ids := vector_ids;
           text_length := Some (Z.of_nat (String.length text_content)) |})
  (λ e,
     mret {| success := false; result_error := Some (exn_str e);
             result_chunk_count := 0; result_vector_ids := [];
             text_length := None |}).

Definition search_documents (query : string) (doc_ids : list Z) (k : nat) : M (list Document) :=
try_except
  (w ← get_world;
   if negb (vectorstore w) then mret []
   else
     match doc_ids with
     | [] => of_result (similarity_search env query None k)
     | _ => of_result (similarity_search env query (Some doc_ids) k)
     end)
  (λ e, mret []).

End DocumentProcessor.

(** ** main.py *)

Record UploadFile := {
  upload_filename : option string;
  upload_content : bytes;
}.

Record UploadResponse := {
  message : string;
  document_id : Z;
  response_filename : string;
  size : Z;
  type : string;
  response_status : string;
  progress_url : string;
  estimated_time : string;
}.

Record QueryRequest := {
  question : string;
  request_session_id : option string;
  use_uploaded_docs_only : option bool;
}.

Record Source := {
  content : string;
  source_metadata : gmap string pyval;
  source_score : Q;
  source_document_id : pyval;
  source_file : pyval;
}.

Record QueryResponse := {
  answer : string;
  sources : list Source;
  is_from_uploaded_docs : bool;
  response_session_id : string;
}.

Definition allowed_types : list string := ["pdf"; "docx"; "doc"; "txt"; "csv"; "xlsx"].

(** [str(allowed_types)] *)
Definition allowed_types_repr : string := "['pdf', 'docx', 'doc', 'txt', 'csv', 'xlsx']".

Definition max_size : Z := 10 * 1024 * 1024.

(** [estimate_processing_time]; with [file_size] below 2^24 the float
    products are exact, so the comparisons are those of the integers
    scaled by 2^20. *)
Definition estimate_processing_time (file_size : Z) (file_type : string) : string :=
  let base_time :=
    if String.eqb file_type "pdf" then 30
    else if String.eqb file_type "docx" then 20
    else if String.eqb file_type "txt" then 10
    else if String.eqb file_type "csv" then 25
    else if String.eqb file_type "xlsx" then 35
    else 20 in
  let scaled_seconds := base_time * file_size in
  if scaled_seconds <? 10 * 1048576 then "< 10 seconds"
  else if scaled_seconds <? 60 * 1048576
       then "~" +:+ pretty (scaled_seconds / 1048576) +:+ " seconds"
  else "~" +:+ pretty (scaled_seconds / (60 * 1048576)) +:+ " minutes".

(** The primary key given to a new row. *)
Definition fresh_id (table : gmap Z DocumentModel) : Z :=
  1 + foldr Z.max 0 (elements (dom table)).

(** [db.add(row); db.commit(); db.refresh(row)] *)
Definition db_add (row : DocumentModel) : M Z :=
  w ← get_world;
  let doc_id := fresh_id (documents_table w) in
  modify_world (set_documents_table (λ t, <[doc_id := row]> t));;
  mret doc_id.

(** Attribute assignments on the ORM object [doc_record] of [doc_id],
    followed by [db.commit()]; with no such row [doc_record] is [None]
    and the assignment raises. *)
Definition update_doc_record (doc_id : Z) (f : DocumentModel → DocumentModel) : M unit :=
  w ← get_world;
  match documents_table w !! doc_id with
  | Some row => modify_world (set_documents_table (λ t, <[doc_id := f row]> t))
  | None => raise (Error "AttributeError" "'NoneType' object has no attribute 'processing_status'")
  end.

Definition set_processing (status : string) (row : DocumentModel) : DocumentModel :=
  {| doc_filename := doc_filename row; original_name := original_name row;
     file_type := file_type row; file_size := file_size row;
     processing_status := status; chunk_count := chunk_count row;
     vector_ids := vector_ids row; doc_metadata := doc_metadata row |}.

Definition set_completed (r : ProcessingResult) (row : DocumentModel) : DocumentModel :=
  {| doc_filename := doc_filename row; original_name := original_name row;
     file_type := file_type row; file_size := file_size row;
     processing_status := "completed";
     chunk_count := result_chunk_count r;
     vector_ids := Some (result_vector_ids r);
     doc_metadata :=
       Some {[ "text_length" := from_option VInt VNone (text_length r);
               "processed_at" := VElapsed; "processing_time" := VElapsed ]} |}.

Definition set_failed (error : string) (row : DocumentModel) : DocumentModel :=
  {| doc_filename := doc_filename row; original_name := original_name row;
     file_type := file_type row; file_size := file_size row;
     processing_status := "failed"; chunk_count := chunk_count row;
     vector_ids := vector_ids row;
     doc_metadata := Some {[ "error" := VStr error; "failed_at" := VElapsed ]} |}.

Definition failed_record (error : string) : ProgressRecord :=
  {| progress := 0; status := "failed"; filename := None; error := Some error |}.

Section Main.

Context (env : Environment).

Definition upload_file (file : UploadFile) : M UploadResponse :=
try_except
  (match upload_filename file with
   | None | Some EmptyString => raise (HTTPException 400 "No file provided")
   | Some filename =>
       let file_extension := Py.lower (List.last (Py.split "." filename) "") in
       if negb (bool_decide (file_extension ∈ allowed_types)) then
         raise (HTTPException 400
                  ("File type '" +:+ file_extension +:+ "' not supported. Allowed: "
                   +:+ allowed_types_repr))
       else
         let file_content := upload_content file in
         let file_size := Z.of_nat (length file_content) in
         if max_size <? file_size then
           raise (HTTPException 400
                    ("File too large. Maximum size is "
                     +:+ pretty (max_size / (1024 * 1024)) +:+ "MB"))
         else
           doc_id ← db_add
             {| doc_filename := pretty (time_time env) +:+ "_" +:+ filename;
                original_name := filename; file_type := file_extension;
                file_size := file_size; processing_status := "pending";
                chunk_count := 0; vector_ids := None; doc_metadata := None |};
           modify_world (write_progress doc_id
             {| progress := 0; status := "pending";
                filename := Some filename; error := None |});;
           register_progress_callback doc_id;;
           modify_world (set_background_tasks (λ tasks, tasks ++
             [{| task_content := file_content; task_filename := filename;
                 task_file_type := file_extension; task_doc_id := doc_id |}]));;
           mret {| message := "File uploaded successfully"; document_id := doc_id;
                   response_filename := filename; size := file_size;
                   type := file_extension; response_status := "processing";
                   progress_url := "/documents/" +:+ pretty doc_id +:+ "/progress";
                   estimated_time := estimate_processing_time file_size file_extension |}
   end)
  (λ e, raise (HTTPException 500 (exn_str e))).

Definition process_document_background (file_content : bytes)
  (filename file_type : string) (doc_id : Z) : M unit :=
try_except
  (update_doc_record doc_id (set_processing "processing");;
   update_document_progress doc_id 1;;
   result ← process_document env file_content filename file_type doc_id;
   if success result then
     update_doc_record doc_id (set_completed result);;
     update_document_progress doc_id 100
   else
     let error := default "" (result_error result) in
     update_doc_record doc_id (set_failed error);;
     modify_world (write_progress doc_id (failed_record error)))
  (λ e,
     update_doc_record doc_id (set_failed (exn_str e));;
     modify_world (write_progress doc_id (failed_record (exn_str e)))).

Definition source_of_document (doc : Document) : Source :=
{| content := Py.abbreviate 300 (page_content doc);
   source_metadata := metadata doc;
   source_score := doc_score doc;
   source_document_id := dict_get (metadata doc) "doc_id";
   source_file := default (VStr "Unknown") (metadata doc !! "source") |}.

(** [result.get("source_type") != "general_knowledge"] *)
Definition from_uploaded_docs (result : dict) : bool :=
negb (bool_decide (dict_get result "source_type" = VStr "general_knowledge")).

Definition query_documents (rag_system : EnhancedRAGSystem) (request : QueryRequest)
  : M QueryResponse :=
try_except
  (w ← get_world;
   let completed_docs :=
     map fst (List.filter (λ kv, String.eqb (processing_status (snd kv)) "completed")
                (map_to_list (documents_table w))) in
   let docs_only := default false (use_uploaded_docs_only request) in
   (match completed_docs with
    | [] => if docs_only
            then raise (HTTPException 400
                   "No processed documents available. Please upload and process documents first.")
            else mret tt
    | _ => mret tt
    end);;
   relevant_docs ←
     match completed_docs with
     | [] => mret []
     | doc_ids => search_documents env (question request) doc_ids 5
     end;
   let strategy := if docs_only then "docs_only" else "auto" in
   result ← intelligent_answer env rag_system (question request)
              (Some relevant_docs) strategy;
   let sources := map source_of_document (take 3 relevant_docs) in
   answer ←
     match result !! "answer" with
     | Some (VStr s) => mret s
     | Some _ => raise (Error "IntegrityError" (null_response_error env))
     | None => raise (Error "KeyError" "'answer'")
     end;
   modify_world (set_query_logs (λ logs, logs ++
     [{| query := question request; response := answer;
         sources_used := map source_document_id sources;
         session_id := request_session_id request |}]));;
   match request_session_id request with
   | Some sid =>
       mret {| answer := answer; sources := sources;
               is_from_uploaded_docs := from_uploaded_docs result;
               response_session_id := sid |}
   | None => raise (Error "ValidationError" (null_session_error env))
   end)
  (λ e, raise (HTTPException 500 (exn_str e))).

End Main.

(** *** The endpoints that read or remove a job *)








(** ** Vocabulary of the properties *)

(** The log after one more generation request. *)
Definition log_call (call : generation_call) (w : World) : World :=
  set_generation_calls (λ calls, calls ++ [call]) w.

Section RagVocabulary.

Context (env : Environment).

(** The text [_acall] returns for a reply of the endpoint. *)
Definition reply_text (r : http_reply) : string :=
match r with
| PostRaises message => apology (Error "httpx.RequestError" message)
| Response status_code body =>
    if is_success status_code then
      match body with
      | Completion content => Py.strip content
      | Malformed message => apology (Error "KeyError" message)
      end
    else apology (Error "httpx.HTTPStatusError" (status_error_message env status_code))
end.

(** The text the chain [c] produces when run with [kwargs] in [w]. *)
Definition chain_text (c : chain) (kwargs : gmap string string) (w : World) : string :=
reply_text (deepseek_api env (length (generation_calls w)) (format_prompt env c kwargs)).

Definition general_kwargs (question : string) : gmap string string :=
{[ "question" := question ]}.

Definition docs_kwargs (question : string) (relevant_docs : list Document)
  : gmap string string :=
{[ "question" := question; "context" := docs_context relevant_docs ]}.

Definition hybrid_kwargs (question : string) (documents : list Document)
  (general_answer : string) : gmap string string :=
{[ "question" := question; "context" := hybrid_context documents;
   "general_knowledge" := Py.abbreviate 500 general_answer ]}.

(** The dictionaries the three strategies return when generation
  returns [text]. *)
Definition general_result (text : string) : dict :=
{[ "answer" := VStr (Py.strip text); "source_type" := VStr "general_knowledge";
   "processing_time" := VElapsed ]}.

Definition docs_result (relevant_docs : list Document) (text : string) : dict :=
{[ "answer" := VStr (Py.strip text);
   "relevance" := VStr (if (2 <=? length relevant_docs)%nat then "high" else "medium");
   "sources_used" := VInt (Z.of_nat (length relevant_docs));
   "processing_time" := VElapsed ]}.

Definition no_answer_result : dict :=
{[ "answer" := VNone; "relevance" := VStr "low";
   "sources_used" := VInt 0; "processing_time" := VElapsed ]}.

Definition hybrid_result (documents : list Document) (text : string) : dict :=
{[ "answer" := VStr (Py.strip text); "source_type" := VStr "hybrid";
   "sources_used" := VInt (Z.of_nat (length documents));
   "processing_time" := VElapsed ]}.

(** The general-knowledge result, marked as a fallback. *)
Definition fallback_result (text : string) : dict :=
<["fallback_reason" := VStr "low_document_relevance"]> (general_result text).

(** The metadata [intelligent_answer] adds before returning. *)
Definition with_strategy (strategy : string) (d : dict) : dict :=
<["total_processing_time" := VElapsed]> (<["strategy_used" := VStr strategy]> d).

(** In chain mode every answer is the stripped text of a chain run. *)
Definition chain_answer (result : dict) : Prop :=
∃ c kwargs w0, result !! "answer" = Some (VStr (Py.strip (chain_text c kwargs w0))).

End RagVocabulary.

(** The specification's relevance classes, from the number of documents
    that meet the threshold. *)
Definition classify_relevance (qualifying : nat) : string :=
  match qualifying with
  | O => "low"
  | 1%nat => "medium"
  | _ => "high"
  end.

(** How every answer derived from [apology] begins. *)
Definition apology_prefix : string :=
  "I apologize, but I encountered an error while processing your request:".

(** A reply that is a generation failure: no response at all (transport
    error, timeout), or a non-success status. *)
Definition failed_reply (r : http_reply) : Prop :=
  match r with
  | PostRaises _ => True
  | Response status_code _ => is_success status_code = false
  end.

(** [m] run from [w] returns (does not raise), and its value and final
    state satisfy [P]. *)
Definition returned {A} (outcome : result A * World) (P : A → World → Prop) : Prop :=
  match outcome with
  | (Ok a, w') => P a w'
  | (Raise _, _) => False
  end.

(** How the answers that report a generation failure begin. *)
Definition describes_failure (answer : string) : Prop :=
  Py.startswith answer apology_prefix = true
  ∨ Py.startswith answer "DeepSeek API error: " = true
  ∨ Py.startswith answer "Railway fallback error: " = true
  ∨ answer = "DeepSeek API key not configured. Please check your Railway environment variables.".

(** ** Concrete scenarios *)

(** A process that has just started: nothing logged, nothing stored, the
    document processor as its constructor leaves it. *)
Definition initial_world : World :=
  {| generation_calls := []; index_events := [];
     vectorstore := false; embeddings := false; progress_callbacks := ∅;
     progress_store := ∅; progress_writes := [];
     documents_table := ∅; query_logs := []; background_tasks := [] |}.

(** An environment whose generation endpoint follows [api], whose index
    follows [add_ok], and whose extraction yields [text], split into
    [chunks]. *)
Definition scenario (api : nat → string → http_reply)
    (add_ok : nat → list string → bool) (text : result string)
    (chunks : list string) : Environment :=
  {| deepseek_api := api;
     format_prompt := λ c kwargs,
       default "" (kwargs !! "context") +:+ default "" (kwargs !! "general_knowledge")
       +:+ default "" (kwargs !! "question");
     DEEPSEEK_API_KEY := Some "sk-test";
     status_error_message := λ status_code, "status " +:+ pretty status_code;
     add_documents_ok := add_ok;
     similarity_search := λ _ _ _, Ok [];
     pdf_text := λ _, text; docx_text := λ _, text;
     decode_utf8 := λ _, text; structured_text := λ _ _, text;
     split_text := λ _, chunks;
     batch_share := λ current_batch total_batches,
       40 * Z.of_nat current_batch / Z.of_nat total_batches;
     time_time := 1724800000;
     null_response_error := "NOT NULL constraint failed: query_logs.response";
     null_session_error := "1 validation error for QueryResponse" |}.

(** The endpoint answers every request with [content]. *)
Definition answering (content : string) : Environment :=
  scenario (λ _ _, Response 200 (Completion content)) (λ _ _, true) (Ok "text") ["text"].

(** The endpoint answers the first request with [first] and the later
    ones with [later]. *)
Definition answering_first (first later : string) : Environment :=
  scenario (λ n _, Response 200 (Completion (match n with O => first | _ => later end)))
           (λ _ _, true) (Ok "text") ["text"].

(** The endpoint is unreachable. *)
Definition unreachable : Environment :=
  scenario (λ _ _, PostRaises "All connection attempts failed")
           (λ _ _, true) (Ok "text") ["text"].

Definition chain_system : EnhancedRAGSystem := {| railway_mode := false |}.
Definition railway_system : EnhancedRAGSystem := {| railway_mode := true |}.

Definition scored_doc (content : string) (s : Q) : Document :=
  {| page_content := content; metadata := {[ "source" := VStr "notes.txt" ]};
     score := Some s |}.

Fixpoint repeat_string (n : nat) (c : ascii) : string :=
  match n with
  | O => EmptyString
  | S n' => String c (repeat_string n' c)
  end.

(** *** Inputs of the answer strategy scenarios *)

Definition exam_question : string := "According to the syllabus, when is the exam?".
Definition plain_question : string := "What is photosynthesis?".

Definition exam_doc : Document := scored_doc "The exam is on Friday." (9 # 10).
Definition weak_doc : Document := scored_doc "Unrelated notes." (3 # 10).
Definition leaf_doc : Document := scored_doc "Leaves turn light into sugar." (6 # 10).
Definition root_doc : Document := scored_doc "Roots take up water." (7 # 10).

(** A general answer of 501 characters. *)
Definition long_answer : string := repeat_string 501 "a".

(** A world with one completed document and no vector store. *)
Definition world_with_completed_doc : World :=
  set_documents_table
    (λ _, {[ 1 := {| doc_filename := "1724800000_notes.txt"; original_name := "notes.txt";
                     file_type := "txt"; file_size := 4; processing_status := "completed";
                     chunk_count := 1; vector_ids := Some []; doc_metadata := None |} ]})
    initial_world.

(** ** Vocabulary of the ingestion properties *)

(** From a state satisfying [P], [m] ends, returning or raising, in an
    outcome satisfying [Q]. *)
Definition hoare {A} (P : World → Prop) (m : M A) (Q : result A → World → Prop) : Prop :=
  ∀ w, P w → Q (m w).1 (m w).2.

(** [m] leaves the part [proj] of the state alone. *)
Definition unchanged {A B} (proj : World → B) (m : M A) : Prop :=
  ∀ w, proj (m w).2 = proj w.

(** [m] never raises. *)
Definition returns {A} (m : M A) : Prop := ∀ w, ∃ a, (m w).1 = Ok a.

(** [I] is an invariant of [m], whether it returns or raises. *)
Definition preserves {A} (I : World → Prop) (m : M A) : Prop :=
  hoare I m (λ _ w, I w).

(** The record [update_document_progress] writes for a percentage. *)
Definition progress_record (p : Z) : ProgressRecord :=
  {| progress := p; status := if p <? 100 then "processing" else "completed";
     filename := None; error := None |}.

(** The record [upload_file] writes. *)
Definition pending_record (name : string) : ProgressRecord :=
  {| progress := 0; status := "pending"; filename := Some name; error := None |}.

(** Since [w0], the progress store received exactly the percentages [ps]
    for [doc_id], in this order, through [update_document_progress]. *)
Definition after_updates (doc_id : Z) (w0 : World) (ps : list Z) (w : World) : Prop :=
  progress_callbacks w = progress_callbacks w0
  ∧ progress_writes w = progress_writes w0 ++ map (λ p, (doc_id, progress_record p)) ps
  ∧ progress_store w !! doc_id
    = from_option (λ p, Some (progress_record p)) (progress_store w0 !! doc_id) (last ps).

(** The percentages written since [w0] never decreased and lie between
    1 and [hi]. *)
Definition climbing (doc_id : Z) (w0 : World) (hi : Z) (w : World) : Prop :=
  ∃ ps, after_updates doc_id w0 ps w
        ∧ StronglySorted Z.le ps
        ∧ Forall (λ p, 1 ≤ p ≤ hi) ps.

(** The state after [update_progress doc_id p]. *)
Definition progress_step (doc_id p : Z) (w : World) : World :=
  if bool_decide (doc_id ∈ progress_callbacks w)
  then write_progress doc_id (progress_record p) w else w.

(** The part of the state the progress tracking lives in. *)
Definition progress_part (w : World) : gset Z * gmap Z ProgressRecord * list (Z * ProgressRecord) :=
  (progress_callbacks w, progress_store w, progress_writes w).

(** The two shapes of [process_document]'s result. *)
Definition failure_result (e : exn) : ProcessingResult :=
  {| success := false; result_error := Some (exn_str e);
     result_chunk_count := 0; result_vector_ids := []; text_length := None |}.

Definition success_result (text_content : string) (chunks vector_ids : list string)
    : ProcessingResult :=
  {| success := true; result_error := None;
     result_chunk_count := Z.of_nat (length chunks);
     result_vector_ids := vector_ids;
     text_length := Some (Z.of_nat (String.length text_content)) |}.

(** A later record that is still processing shows no lower percentage
    than an earlier one. *)
Definition keeps_climbing (earlier later : ProgressRecord) : Prop :=
  status later = "processing" → progress earlier ≤ progress later.

(** The index events since [w0]: add attempts, all made while the vector
    store was set, and after them nothing but its unsetting. *)
Definition indexing_history (w0 w : World) : Prop :=
  ∃ adds rest,
    index_events w = index_events w0 ++ adds ++ rest
    ∧ Forall (λ ev, is_add ev = true) adds
    ∧ Forall (λ ev, ev = IndexDisabled) rest
    ∧ (vectorstore w0 = false → adds = [])
    ∧ (vectorstore w = true → vectorstore w0 = true ∧ rest = []).

Section IngestionVocabulary.

Context (env : Environment).

(** What [extract_text] returns or raises. *)
Definition extracted (file_content : bytes) (file_type : string) : result string :=
let t := Py.lower file_type in
if String.eqb t "pdf" then pdf_text env file_content
else if bool_decide (t ∈ ["docx"; "doc"]) then docx_text env file_content
else if String.eqb t "txt" then decode_utf8 env file_content
else if bool_decide (t ∈ ["csv"; "xlsx"]) then structured_text env file_content file_type
else Raise (Error "ValueError" ("Unsupported file type: " +:+ file_type)).

(** The jobs of one process, handled one after the other. *)
Fixpoint process_all (tasks : list BackgroundTask) : M (list ProcessingResult) :=
match tasks with
| [] => mret []
| task :: tasks' =>
    r ← process_document env (task_content task) (task_filename task)
          (task_file_type task) (task_doc_id task);
    rs ← process_all tasks';
    mret (r :: rs)
end.

(** One job from upload to its terminal state: the upload, then the
  background task it scheduled. *)
Definition job_lifecycle (file : UploadFile) : M Z :=
response ← upload_file env file;
process_document_background env (upload_content file) (response_filename response)
  (type response) (document_id response);;
mret (document_id response).

(** The float expression behind [batch_share] is monotone and stays
  within the 40 points of the embedding stage. *)
Definition batch_share_bounded : Prop :=
∀ current_batch total_batches,
  (1 ≤ current_batch ≤ total_batches)%nat →
  0 ≤ batch_share env current_batch total_batches ≤ 40.

Definition batch_share_monotone : Prop :=
∀ current_batch later_batch total_batches,
  (1 ≤ current_batch ≤ later_batch)%nat → (later_batch ≤ total_batches)%nat →
  batch_share env current_batch total_batches ≤ batch_share env later_batch total_batches.

End IngestionVocabulary.

(** *** Inputs of the ingestion scenarios *)

Definition exe_upload : UploadFile :=
  {| upload_filename := Some "malware.exe"; upload_content := [] |}.

Definition notes_upload : UploadFile :=
  {| upload_filename := Some "notes.txt";
     upload_content := [Byte.x6e; Byte.x6f; Byte.x74; Byte.x65; Byte.x73] |}.

Definition six_chunks : list string := ["c0"; "c1"; "c2"; "c3"; "c4"; "c5"].

(** The index accepts the first add of the process and rejects the
    later ones. *)
Definition index_failing_after_first : Environment :=
  scenario (λ _ _, Response 200 (Completion "ok")) (λ n _, Nat.eqb n 0)
           (Ok "some text") six_chunks.

(** The index rejects every add, as with vectors of the wrong dimension. *)
Definition index_rejecting : Environment :=
  scenario (λ _ _, Response 200 (Completion "ok")) (λ _ _, false)
           (Ok "some text") six_chunks.

Definition pending_row : DocumentModel :=
  {| doc_filename := "1724800000_notes.txt"; original_name := "notes.txt";
     file_type := "txt"; file_size := 5; processing_status := "pending";
     chunk_count := 0; vector_ids := None; doc_metadata := None |}.

(** A process whose document processor has a vector store and an
    embedding model, with job 7 uploaded and registered. *)
Definition indexing_world : World :=
  {| generation_calls := []; index_events := [];
     vectorstore := true; embeddings := true; progress_callbacks := {[ 7 ]};
     progress_store := {[ 7 := pending_record "notes.txt" ]};
     progress_writes := [(7, pending_record "notes.txt")];
     documents_table := {[ 7 := pending_row ]}; query_logs := [];
     background_tasks := [] |}.

(** ** Vocabulary of the index trace *)

(** The identifiers of the accepted adds among [evs], in the order of
    the adds. *)
Definition accepted_ids (evs : list index_event) : list string :=
  flat_map (λ ev, match ev with AddDocuments ids true => ids | _ => [] end) evs.

(** Every batch attempted in [evs] was indexed: at its first attempt,
    or at its second after the first was rejected. *)
Inductive batches_indexed : list index_event → Prop :=
| indexed_none : batches_indexed []
| indexed_at_first ids evs :
    batches_indexed evs → batches_indexed (AddDocuments ids true :: evs)
| indexed_at_second ids evs :
    batches_indexed evs →
    batches_indexed (AddDocuments ids false :: AddDocuments ids true :: evs).

(** The batch [ids] is rejected at both of its attempts, and the vector
    store is unset right after. *)
Definition retries_exhausted (ids : list string) : list index_event :=
  [AddDocuments ids false; AddDocuments ids false; IndexDisabled].

(** What a run does at the index, from a vector store that is set
    ([on0]) or not, to one that is set ([on]) or not: with no vector
    store nothing; with one, every attempted batch is indexed and the
    store stays set, or the first batch rejected twice is followed by
    the unsetting of the store and by nothing else. *)
Definition index_trace (on0 : bool) (new : list index_event) (on : bool) : Prop :=
  if on0 then
    batches_indexed new ∧ on = true
    ∨ ∃ earlier ids,
        batches_indexed earlier ∧ new = earlier ++ retries_exhausted ids ∧ on = false
  else new = [] ∧ on = false.

(** *** Further inputs of the ingestion scenarios *)

(** The index rejects the first two adds of the process and accepts the
    later ones. *)
Definition index_accepting_late : Environment :=
  scenario (λ _ _, Response 200 (Completion "ok")) (λ n _, (2 <=? n)%nat)
           (Ok "some text") six_chunks.

(** The index rejects the first attempt at every batch and accepts the
    second. *)
Definition index_accepting_retries : Environment :=
  scenario (λ _ _, Response 200 (Completion "ok")) (λ n _, Nat.odd n)
           (Ok "some text") six_chunks.

(** ** Vocabulary of the generation trace *)

(** The log after the requests [calls], in this order. *)
Definition add_calls (calls : list generation_call) (w : World) : World :=
  foldl (λ w call, log_call call w) w calls.

(** The text of the error behind a reply that is a generation failure:
    no response at all (transport error, timeout), or a response whose
    status is not a success (2xx) status. *)
Definition failure_text (env : Environment) (r : http_reply) : option string :=
  match r with
  | PostRaises message => Some message
  | Response status_code _ =>
      if (200 <=? status_code) && (status_code <=? 299) then None
      else Some (status_error_message env status_code)
  end.

(** The apology that stands for the completion of a failed request. *)
Definition apology_text (error_text : string) : string :=
  "I apologize, but I encountered an error while processing your request: "
  +:+ error_text.

(** The answers of the Railway fallback that report a failure. *)
Definition railway_error_answer (error_text : string) : string :=
  "Railway fallback error: " +:+ error_text
  +:+ ". Please check your environment configuration.".

Definition railway_status_answer (status_code : Z) : string :=
  "DeepSeek API error: " +:+ pretty status_code
  +:+ ". Please check your API key configuration.".

Definition missing_key_answer : string :=
  "DeepSeek API key not configured. Please check your Railway environment variables.".

(** The general request fails with a transport error; the later
    requests are answered. *)
Definition general_request_failing : Environment :=
  scenario (λ n _, match n with
                   | O => PostRaises "All connection attempts failed"
                   | _ => Response 200 (Completion "Mixed.")
                   end)
           (λ _ _, true) (Ok "text") ["text"].

(** ** Vocabulary of the further properties *)








(** *** Inputs of the further scenarios *)













(** * Properties *)

(** ** The monad *)

Lemma bind_ok {A B} (m : M A) (f : A → M B) w a w' :
  m w = (Ok a, w') → (m ≫= f) w = f a w'.
Proof. intros H. unfold mbind, M_bind. by rewrite H. Qed.

Lemma bind_raise {A B} (m : M A) (f : A → M B) w e w' :
  m w = (Raise e, w') → (m ≫= f) w = (Raise e, w').
Proof. intros H. unfold mbind, M_bind. by rewrite H. Qed.

Lemma try_ok {A} (m : M A) h w a w' :
  m w = (Ok a, w') → try_except m h w = (Ok a, w').
Proof. intros H. unfold try_except. by rewrite H. Qed.

Lemma try_raise {A} (m : M A) h w e w' :
  m w = (Raise e, w') → try_except m h w = h e w'.
Proof. intros H. unfold try_except. by rewrite H. Qed.

(** ** Python strings *)

Lemma append_cons c p s : String c p +:+ s = String c (p +:+ s).
Proof. done. Qed.

Lemma rstrip_keeps_prefix q d s :
  Py.isspace d = false →
  ∃ t, Py.rstrip ((q +:+ String d "") +:+ s) = (q +:+ String d "") +:+ t.
Proof.
  intros Hd. induction q as [|c q [t IH]].
  - exists (Py.rstrip s).
    change (Py.rstrip (String d s) = String d (Py.rstrip s)).
    cbn [Py.rstrip]. destruct (Py.rstrip s); [by rewrite Hd|done].
  - exists t. rewrite !append_cons. cbn [Py.rstrip]. rewrite IH.
    by destruct q.
Qed.

Lemma strip_keeps_prefix c q d s :
  Py.isspace c = false → Py.isspace d = false →
  ∃ t, Py.strip ((String c q +:+ String d "") +:+ s) = (String c q +:+ String d "") +:+ t.
Proof.
  intros Hc Hd. unfold Py.strip. rewrite !append_cons. cbn [Py.lstrip].
  rewrite Hc, <- !append_cons. by apply rstrip_keeps_prefix.
Qed.

Lemma startswith_app p t : Py.startswith (p +:+ t) p = true.
Proof.
  induction p as [|c p IH]; [by destruct t|].
  rewrite append_cons. cbn [Py.startswith]. by rewrite Ascii.eqb_refl.
Qed.

(** ** The generation client *)

Section RagFacts.

Context (env : Environment).

Lemma acall_spec call prompt w :
_acall env call prompt w
= (Ok (reply_text env (deepseek_api env (length (generation_calls w)) prompt)),
   log_call call w).
Proof.
unfold _acall, try_except, mbind, M_bind, post, reply_text, raise_for_status.
destruct (deepseek_api env _ prompt) as [msg|code body]; [done|].
destruct (is_success code); [|done].
by destruct body.
Qed.

Lemma arun_spec c kwargs w :
arun env c kwargs w = (Ok (chain_text env c kwargs w), log_call (ChainRun c kwargs) w).
Proof. apply acall_spec. Qed.

End RagFacts.

(** ** The strategies *)

Section RagFacts2.
Context (env : Environment).

Lemma strip_apology e : ∃ t, Py.strip (apology e) = apology_prefix +:+ t.
Proof.
unfold apology.
pose proof (strip_keeps_prefix "I"
  " apologize, but I encountered an error while processing your request" ":"
  (" " +:+ exn_str e) eq_refl eq_refl) as [t Ht].
exists t. exact Ht.
Qed.

Lemma generate_general_answer_spec question w :
generate_general_answer env question w
= (Ok (general_result (chain_text env general_chain (general_kwargs question) w)),
   log_call (ChainRun general_chain (general_kwargs question)) w).
Proof.
unfold generate_general_answer.
erewrite try_ok; [done|]. by erewrite bind_ok by apply arun_spec.
Qed.

Lemma generate_answer_from_docs_none question documents min w :
List.filter (is_relevant min) documents = [] →
generate_answer_from_docs env question documents min w = (Ok no_answer_result, w).
Proof. intros H. unfold generate_answer_from_docs. by rewrite H. Qed.

Lemma generate_answer_from_docs_some question documents min w :
let relevant_docs := List.filter (is_relevant min) documents in
relevant_docs ≠ [] →
generate_answer_from_docs env question documents min w
= (Ok (docs_result relevant_docs
         (chain_text env doc_chain (docs_kwargs question relevant_docs) w)),
   log_call (ChainRun doc_chain (docs_kwargs question relevant_docs)) w).
Proof.
intros rel H. unfold generate_answer_from_docs. fold rel.
destruct rel as [|d rel'] eqn:E; [done|].
erewrite try_ok; [done|]. by erewrite bind_ok by apply arun_spec.
Qed.

Lemma generate_hybrid_answer_spec question documents w :
let general_answer :=
  Py.strip (chain_text env general_chain (general_kwargs question) w) in
let w1 := log_call (ChainRun general_chain (general_kwargs question)) w in
let kwargs := hybrid_kwargs question documents general_answer in
generate_hybrid_answer env question documents w
= (Ok (hybrid_result documents (chain_text env hybrid_chain kwargs w1)),
   log_call (ChainRun hybrid_chain kwargs) w1).
Proof.
intros g w1 kw. unfold generate_hybrid_answer.
erewrite try_ok; [done|].
erewrite bind_ok by apply generate_general_answer_spec.
erewrite bind_ok; [|done].
by erewrite bind_ok by apply arun_spec.
Qed.
End RagFacts2.

Section RagFacts3.
Context (env : Environment).

Lemma docs_result_answer rel text :
dict_get (docs_result rel text) "answer" = VStr (Py.strip text).
Proof. done. Qed.

Lemma docs_result_relevance rel text :
dict_get (docs_result rel text) "relevance"
= VStr (if (2 <=? length rel)%nat then "high" else "medium").
Proof. done. Qed.

Lemma truthy_str s : truthy (VStr s) = negb (String.eqb s "").
Proof. done. Qed.


(** *** The [auto] branch *)

Lemma select_not_auto question documents strategy w :
strategy ≠ "auto" →
select_strategy env question documents strategy w = (Ok (strategy, None), w).
Proof.
intros H. unfold select_strategy.
by rewrite (proj2 (String.eqb_neq _ _) H).
Qed.

Lemma select_auto_no_documents question documents w :
has_documents documents = false →
select_strategy env question documents "auto" w = (Ok ("general_only", None), w).
Proof. intros H. unfold select_strategy. cbn [String.eqb]. simpl. by rewrite H. Qed.

Lemma select_auto_specific question documents w :
has_documents documents = true → is_specific_query question = true →
select_strategy env question documents "auto" w = (Ok ("docs_only", None), w).
Proof. intros H1 H2. unfold select_strategy. simpl. by rewrite H1, H2. Qed.

Lemma select_auto_low question documents w :
has_documents documents = true → is_specific_query question = false →
List.filter (is_relevant (1 # 2)%Q) (supplied documents) = [] →
select_strategy env question documents "auto" w = (Ok ("hybrid", None), w).
Proof.
intros H1 H2 H3. unfold select_strategy. simpl. rewrite H1, H2.
by erewrite bind_ok by (by apply generate_answer_from_docs_none).
Qed.

Lemma select_auto_relevant question documents w :
let relevant_docs := List.filter (is_relevant (1 # 2)%Q) (supplied documents) in
has_documents documents = true → is_specific_query question = false →
relevant_docs ≠ [] →
select_strategy env question documents "auto" w
= (Ok ("docs_only",
       Some (docs_result relevant_docs
               (chain_text env doc_chain (docs_kwargs question relevant_docs) w))),
   log_call (ChainRun doc_chain (docs_kwargs question relevant_docs)) w).
Proof.
intros rel H1 H2 H3. unfold select_strategy. simpl. rewrite H1, H2.
erewrite bind_ok by (by apply generate_answer_from_docs_some).
rewrite docs_result_relevance. fold rel. by destruct (2 <=? length rel)%nat.
Qed.
End RagFacts3.

Section RagFacts4.
Context (env : Environment).

(** *** The execution of the chosen strategy *)

Lemma execute_no_documents question documents strategy final_result w :
has_documents documents = false →
(final_result = None ∨ strategy ≠ "docs_only") →
execute_strategy env question documents strategy final_result w
= generate_general_answer env question w.
Proof.
intros H _. unfold execute_strategy. by rewrite H, !andb_false_r.
Qed.

Lemma execute_other question documents strategy final_result w :
strategy ≠ "docs_only" → strategy ≠ "hybrid" →
execute_strategy env question documents strategy final_result w
= generate_general_answer env question w.
Proof.
intros H1 H2. unfold execute_strategy.
by rewrite (proj2 (String.eqb_neq _ _) H1), (proj2 (String.eqb_neq _ _) H2).
Qed.

Lemma execute_hybrid question documents final_result w :
has_documents documents = true →
execute_strategy env question documents "hybrid" final_result w
= generate_hybrid_answer env question (supplied documents) w.
Proof. intros H. unfold execute_strategy. by rewrite H. Qed.

Lemma execute_docs_only_given question documents r w :
has_documents documents = true →
execute_strategy env question documents "docs_only" (Some r) w
= if truthy (dict_get r "answer") then (Ok r, w)
  else (Ok (fallback_result (chain_text env general_chain (general_kwargs question) w)),
        log_call (ChainRun general_chain (general_kwargs question)) w).
Proof.
intros H. unfold execute_strategy. rewrite H. simpl.
erewrite bind_ok by done.
destruct (truthy (dict_get r "answer")); [done|]. simpl.
by erewrite bind_ok by apply generate_general_answer_spec.
Qed.

Lemma execute_docs_only_fresh question documents w :
has_documents documents = true →
execute_strategy env question documents "docs_only" None w
= match generate_answer_from_docs env question (supplied documents) (1 # 2)%Q w with
  | (Ok r, w1) =>
      execute_strategy env question documents "docs_only" (Some r) w1
  | (Raise e, w1) => (Raise e, w1)
  end.
Proof.
intros H. unfold execute_strategy. rewrite H. simpl.
unfold mbind at 1, M_bind at 1.
destruct (generate_answer_from_docs _ _ _ _ w) as [[r|e] w1]; [|done].
by erewrite (bind_ok (mret r)) by done.
Qed.
End RagFacts4.
Section Claims_C1.
Context (env : Environment).

Lemma execute_docs_only_spec question documents w :
has_documents documents = true →
let relevant_docs := List.filter (is_relevant (1 # 2)%Q) (supplied documents) in
let docs_call := ChainRun doc_chain (docs_kwargs question relevant_docs) in
let general_call := ChainRun general_chain (general_kwargs question) in
let text := chain_text env doc_chain (docs_kwargs question relevant_docs) w in
execute_strategy env question documents "docs_only" None w
= match relevant_docs with
  | [] => (Ok (fallback_result (chain_text env general_chain (general_kwargs question) w)),
           log_call general_call w)
  | _ =>
      if String.eqb (Py.strip text) ""
      then (Ok (fallback_result
                  (chain_text env general_chain (general_kwargs question)
                     (log_call docs_call w))),
            log_call general_call (log_call docs_call w))
      else (Ok (docs_result relevant_docs text), log_call docs_call w)
  end.
Proof.
intros Hdocs. cbv zeta.
rewrite execute_docs_only_fresh by done.
destruct (List.filter (is_relevant (1 # 2)%Q) (supplied documents)) as [|d rel] eqn:E.
- rewrite generate_answer_from_docs_none by done.
  by rewrite execute_docs_only_given.
- rewrite generate_answer_from_docs_some by (by rewrite E).
  rewrite execute_docs_only_given by done.
  rewrite docs_result_answer, truthy_str, E.
  by destruct (String.eqb _ "").
Qed.

Lemma intelligent_answer_chain self question documents strategy w :
railway_mode self = false →
intelligent_answer env self question documents strategy w
= try_except
    ('(strategy, final_result) ← select_strategy env question documents strategy;
     final_result ← execute_strategy env question documents strategy final_result;
     mret (with_strategy strategy final_result))
    (λ e,
       mret {[ "answer" :=
                 VStr ("I apologize, but I encountered an error processing your question: "
                       +:+ exn_str e);
               "source_type" := VStr "error"; "strategy_used" := VStr "error";
               "processing_time" := VInt 0 ]}) w.
Proof. intros H. unfold intelligent_answer. by rewrite H. Qed.

(** The run of [intelligent_answer] once both phases are known. *)
Lemma intelligent_answer_steps self question documents strategy w
  chosen final_result w1 result w2 :
railway_mode self = false →
select_strategy env question documents strategy w = (Ok (chosen, final_result), w1) →
execute_strategy env question documents chosen final_result w1 = (Ok result, w2) →
intelligent_answer env self question documents strategy w
= (Ok (with_strategy chosen result), w2).
Proof.
intros H Hs He. rewrite intelligent_answer_chain by done.
erewrite try_ok; [done|].
erewrite bind_ok by exact Hs. simpl.
by erewrite bind_ok by exact He.
Qed.

Lemma with_strategy_used strategy d :
with_strategy strategy d !! "strategy_used" = Some (VStr strategy).
Proof. unfold with_strategy. by simplify_map_eq. Qed.

Lemma with_strategy_source strategy d :
dict_get (with_strategy strategy d) "source_type" = dict_get d "source_type".
Proof. unfold with_strategy, dict_get. by simplify_map_eq. Qed.

Lemma from_uploaded_docs_with_strategy strategy d :
from_uploaded_docs (with_strategy strategy d) = from_uploaded_docs d.
Proof. unfold from_uploaded_docs. by rewrite with_strategy_source. Qed.

(** C1 (amended): outside the Railway fallback mode, [auto] with no
  documents resolves to [general_only] and the answer does not count
  as coming from the uploaded documents; [auto] with documents and a
  question containing a marker resolves to [docs_only], and the
  answer counts as coming from the uploaded documents exactly when
  some document meets the 0.5 threshold and the generated answer is
  not blank (otherwise the general-knowledge fallback answers). *)
Theorem C1_auto_resolution self question documents w :
railway_mode self = false →
returned (intelligent_answer env self question documents "auto" w) (λ result _,
  (has_documents documents = false →
     result !! "strategy_used" = Some (VStr "general_only")
     ∧ from_uploaded_docs result = false)
  ∧ (has_documents documents = true → is_specific_query question = true →
       let relevant_docs := List.filter (is_relevant (1 # 2)%Q) (supplied documents) in
       let text := chain_text env doc_chain (docs_kwargs question relevant_docs) w in
       result !! "strategy_used" = Some (VStr "docs_only")
       ∧ (from_uploaded_docs result = true ↔ relevant_docs ≠ [] ∧ Py.strip text ≠ ""))).
Proof.
intros Hmode.
destruct (has_documents documents) eqn:Hdocs.
- destruct (is_specific_query question) eqn:Hspec.
  + (* documents and a marker *)
    pose proof (select_auto_specific env question documents w Hdocs Hspec) as Hs.
    pose proof (execute_docs_only_spec question documents w Hdocs) as He.
    cbv zeta in He.
    destruct (List.filter _ (supplied documents)) as [|d rel] eqn:E.
    * rewrite (intelligent_answer_steps _ _ _ _ _ _ _ _ _ _ Hmode Hs He).
      simpl. split; [done|]. intros _ _.
      split; [apply with_strategy_used|].
      rewrite from_uploaded_docs_with_strategy.
      split; [done|]. by intros [? _].
    * destruct (String.eqb (Py.strip _) "") eqn:Hblank.
      -- rewrite (intelligent_answer_steps _ _ _ _ _ _ _ _ _ _ Hmode Hs He).
         simpl. split; [done|]. intros _ _.
         split; [apply with_strategy_used|].
         rewrite from_uploaded_docs_with_strategy.
         apply String.eqb_eq in Hblank.
         split; [done|]. by intros [_ ?].
      -- rewrite (intelligent_answer_steps _ _ _ _ _ _ _ _ _ _ Hmode Hs He).
         simpl. split; [done|]. intros _ _.
         split; [apply with_strategy_used|].
         rewrite from_uploaded_docs_with_strategy.
         apply String.eqb_neq in Hblank.
         split; [done|]. by intros _.
  + (* the outcome is not constrained, but the call returns *)
    destruct (List.filter (is_relevant (1 # 2)%Q) (supplied documents)) as [|d rel] eqn:E.
    * pose proof (select_auto_low env question documents w Hdocs Hspec E) as Hs.
      pose proof (execute_hybrid env question documents None w Hdocs) as He.
      rewrite generate_hybrid_answer_spec in He.
      rewrite (intelligent_answer_steps _ _ _ _ _ _ _ _ _ _ Hmode Hs He).
      simpl. by split.
    * assert (List.filter (is_relevant (1 # 2)%Q) (supplied documents) ≠ []) as Hne
        by (by rewrite E).
      pose proof (select_auto_relevant env question documents w Hdocs Hspec Hne) as Hs.
      match type of Hs with
      | _ = (Ok (_, Some ?r), ?w1) =>
          pose proof (execute_docs_only_given env question documents r w1 Hdocs) as He
      end.
      destruct (truthy _) in He;
        rewrite (intelligent_answer_steps _ _ _ _ _ _ _ _ _ _ Hmode Hs He);
        simpl; by split.
- pose proof (select_auto_no_documents env question documents w Hdocs) as Hs.
  pose proof (execute_no_documents env question documents "general_only" None w
                Hdocs (or_introl eq_refl)) as He.
  rewrite generate_general_answer_spec in He.
  rewrite (intelligent_answer_steps _ _ _ _ _ _ _ _ _ _ Hmode Hs He).
  simpl. split; [|done]. intros _.
  split; [apply with_strategy_used|].
  by rewrite from_uploaded_docs_with_strategy.
Qed.
End Claims_C1.
Section Claims_C2.
Context (env : Environment).

Lemma classify_relevance_docs d rel text :
dict_get (docs_result (d :: rel) text) "relevance"
= VStr (classify_relevance (length (d :: rel))).
Proof. rewrite docs_result_relevance. by destruct rel as [|? [|? ?]]. Qed.

(** C2 (amended): outside the Railway fallback mode, [auto] with
  documents and a question without marker first attempts the
  documents; the attempt's relevance is "low", "medium" or "high" for
  zero, one, or at least two documents meeting the 0.5 threshold.
  With none, the strategy becomes [hybrid] (a general and a hybrid
  request).  Otherwise the strategy is [docs_only]: when the
  attempt's answer is not blank the attempt itself is returned and
  its request is the only one; when it is blank the general-knowledge
  fallback is generated as a second request. *)
Theorem C2_auto_documents_first self question documents w :
railway_mode self = false →
has_documents documents = true →
is_specific_query question = false →
let relevant_docs := List.filter (is_relevant (1 # 2)%Q) (supplied documents) in
let docs_call := ChainRun doc_chain (docs_kwargs question relevant_docs) in
let general_call := ChainRun general_chain (general_kwargs question) in
returned (generate_answer_from_docs env question (supplied documents) (1 # 2)%Q w)
  (λ attempt w1,
     dict_get attempt "relevance" = VStr (classify_relevance (length relevant_docs))
     ∧ returned (intelligent_answer env self question documents "auto" w)
         (λ result w',
            (relevant_docs = [] →
               w1 = w
               ∧ result !! "strategy_used" = Some (VStr "hybrid")
               ∧ result !! "source_type" = Some (VStr "hybrid")
               ∧ ∃ kwargs, generation_calls w'
                   = generation_calls w ++ [general_call; ChainRun hybrid_chain kwargs])
            ∧ (relevant_docs ≠ [] →
                 result !! "strategy_used" = Some (VStr "docs_only")
                 ∧ (truthy (dict_get attempt "answer") = true →
                      result = with_strategy "docs_only" attempt
                      ∧ generation_calls w' = generation_calls w ++ [docs_call])
                 ∧ (truthy (dict_get attempt "answer") = false →
                      result !! "fallback_reason" = Some (VStr "low_document_relevance")
                      ∧ generation_calls w'
                        = generation_calls w ++ [docs_call; general_call])))).
Proof.
intros Hmode Hdocs Hspec. cbv zeta.
destruct (List.filter (is_relevant (1 # 2)%Q) (supplied documents)) as [|d rel] eqn:E.
- rewrite generate_answer_from_docs_none by done. simpl. split; [done|].
  pose proof (select_auto_low env question documents w Hdocs Hspec E) as Hs.
  pose proof (execute_hybrid env question documents None w Hdocs) as He.
  rewrite generate_hybrid_answer_spec in He.
  rewrite (intelligent_answer_steps env _ _ _ _ _ _ _ _ _ _ Hmode Hs He).
  simpl. split; [|done]. intros _.
  split; [done|]. split; [apply with_strategy_used|].
  split; [unfold with_strategy; by simplify_map_eq|].
  eexists. by rewrite <- app_assoc.
- assert (List.filter (is_relevant (1 # 2)%Q) (supplied documents) ≠ []) as Hne
    by (by rewrite E).
  rewrite generate_answer_from_docs_some by done. rewrite E. simpl.
  split; [apply classify_relevance_docs|].
  pose proof (select_auto_relevant env question documents w Hdocs Hspec Hne) as Hs.
  rewrite E in Hs.
  match type of Hs with
  | _ = (Ok (_, Some ?r), ?w1) =>
      pose proof (execute_docs_only_given env question documents r w1 Hdocs) as He
  end.
  destruct (truthy _) eqn:Htruthy in He;
    rewrite (intelligent_answer_steps env _ _ _ _ _ _ _ _ _ _ Hmode Hs He);
    simpl; (split; [done|]); intros _;
    (split; [apply with_strategy_used|]).
  + split; [done|]. intros Hf. congruence.
  + split; [intros Hf; congruence|]. intros _.
    split; [unfold with_strategy, fallback_result; by simplify_map_eq|].
    by rewrite <- app_assoc.
Qed.

(** C10 (amended): outside the Railway fallback mode,
  [intelligent_answer] called with strategy [docs_only] and no
  document runs the general-knowledge path: one request to the
  general chain, carrying the question alone, no fallback marker,
  while [strategy_used] reports [docs_only]; [/query] reaches this
  with [use_uploaded_docs_only] set when retrieval returns nothing. *)
Theorem C10_docs_only_without_documents self question w :
railway_mode self = false →
(∀ documents, has_documents documents = false →
   returned (intelligent_answer env self question documents "docs_only" w)
     (λ result w',
        result = with_strategy "docs_only"
                   (general_result
                      (chain_text env general_chain (general_kwargs question) w))
        ∧ result !! "strategy_used" = Some (VStr "docs_only")
        ∧ result !! "source_type" = Some (VStr "general_knowledge")
        ∧ result !! "fallback_reason" = None
        ∧ result !! "relevance" = None
        ∧ generation_calls w'
          = generation_calls w ++ [ChainRun general_chain (general_kwargs question)]))
∧ (∀ session,
     (∃ doc_id row, documents_table w !! doc_id = Some row
                    ∧ processing_status row = "completed") →
     (∀ doc_ids, search_documents env question doc_ids 5 w = (Ok [], w)) →
     returned (query_documents env self
                 {| question := question; request_session_id := Some session;
                    use_uploaded_docs_only := Some true |} w)
       (λ response w',
          answer response
          = Py.strip (chain_text env general_chain (general_kwargs question) w)
          ∧ sources response = []
          ∧ is_from_uploaded_docs response = false
          ∧ generation_calls w'
            = generation_calls w ++ [ChainRun general_chain (general_kwargs question)])).
Proof.
intros Hmode.
assert (∀ documents, has_documents documents = false →
          intelligent_answer env self question documents "docs_only" w
          = (Ok (with_strategy "docs_only"
                   (general_result
                      (chain_text env general_chain (general_kwargs question) w))),
             log_call (ChainRun general_chain (general_kwargs question)) w)) as Hrun.
{ intros documents Hdocs.
  pose proof (select_not_auto env question documents "docs_only" w
                ltac:(discriminate)) as Hs.
  pose proof (execute_no_documents env question documents "docs_only" None w
                Hdocs (or_introl eq_refl)) as He.
  rewrite generate_general_answer_spec in He.
  apply (intelligent_answer_steps env _ _ _ _ _ _ _ _ _ _ Hmode Hs He). }
split.
- intros documents Hdocs. rewrite Hrun by done. simpl.
  split; [done|].
  unfold with_strategy, general_result. repeat split; by simplify_map_eq.
- intros session (doc_id & row & Hrow & Hcompleted) Hsearch.
  unfold query_documents, try_except.
  erewrite (bind_ok get_world) by done. cbv beta.
  assert (List.filter (λ kv : Z * DocumentModel,
                         String.eqb (processing_status kv.2) "completed")
            (map_to_list (documents_table w)) ≠ []) as Hne.
  { intros Hnil.
    assert (In (doc_id, row)
              (List.filter (λ kv : Z * DocumentModel,
                              String.eqb (processing_status kv.2) "completed")
                 (map_to_list (documents_table w)))) as Hin.
    { apply List.filter_In. split.
      - by apply list_elem_of_In, elem_of_map_to_list.
      - simpl. rewrite Hcompleted. done. }
    by rewrite Hnil in Hin. }
  destruct (List.filter _ (map_to_list (documents_table w))) as [|kv rest]; [done|].
  cbn [map default].
  erewrite bind_ok by done.
  erewrite bind_ok by apply Hsearch.
  erewrite bind_ok by (by apply Hrun).
  erewrite bind_ok by done.
  erewrite bind_ok by done. simpl.
  split; [done|]. split; [done|]. split; done.
Qed.
End Claims_C2.
Section Claims_C7.
Context (env : Environment).

Lemma take_length n s : (String.length (Py.take n s) ≤ n)%nat.
Proof.
revert s. induction n as [|n IH]; intros [|c s]; simpl; try lia.
specialize (IH s). lia.
Qed.

(** C7 (amended): every hybrid execution sends exactly two requests,
  the general one and then the hybrid one; the hybrid request's
  document context is built from the first three supplied documents
  at most; its general-knowledge context is the general answer when
  that has at most 500 characters, and otherwise the first 500
  characters of it followed by "..." (503 characters); the result
  carries source type "hybrid". *)
Theorem C7_hybrid_execution question documents w :
let general_call := ChainRun general_chain (general_kwargs question) in
let general_answer :=
  Py.strip (chain_text env general_chain (general_kwargs question) w) in
returned (generate_hybrid_answer env question documents w) (λ result w',
  ∃ kwargs general_knowledge,
    generation_calls w'
    = generation_calls w ++ [general_call; ChainRun hybrid_chain kwargs]
    ∧ kwargs !! "context"
      = Some (Py.join (Py.nl +:+ Py.nl)
                (map (λ doc, "Document: " +:+ source_of doc "Unknown"
                             +:+ Py.nl +:+ page_content doc)
                     (take 3 documents)))
    ∧ (length (take 3 documents) ≤ 3)%nat
    ∧ kwargs !! "general_knowledge" = Some general_knowledge
    ∧ ((String.length general_answer ≤ 500)%nat → general_knowledge = general_answer)
    ∧ ((500 < String.length general_answer)%nat →
         general_knowledge = Py.take 500 general_answer +:+ "..."
         ∧ (String.length (Py.take 500 general_answer) ≤ 500)%nat)
    ∧ result !! "source_type" = Some (VStr "hybrid")).
Proof.
cbv zeta. rewrite generate_hybrid_answer_spec. unfold returned.
eexists _, _. split; [unfold log_call; simpl; by rewrite <- app_assoc|].
split; [done|]. split; [rewrite length_take; lia|].
split; [done|].
unfold Py.abbreviate, Py.longer_than.
split; [|split; [|done]].
- intros Hle. apply Nat.ltb_ge in Hle. by rewrite Hle.
- intros Hlt. pose proof Hlt as Hlt'. apply Nat.ltb_lt in Hlt. rewrite Hlt.
  split; [done|]. apply take_length.
Qed.
End Claims_C7.
Section FailureFacts.
Context (env : Environment).

Lemma chain_answer_with_strategy strategy d :
chain_answer env d → chain_answer env (with_strategy strategy d).
Proof.
intros (c & kw & w0 & H). exists c, kw, w0.
unfold with_strategy. by simplify_map_eq.
Qed.

Lemma chain_answer_general text c kw w0 :
text = chain_text env c kw w0 → chain_answer env (general_result text).
Proof. intros ->. by exists c, kw, w0. Qed.

Lemma chain_answer_fallback c kw w0 :
chain_answer env (fallback_result (chain_text env c kw w0)).
Proof. by exists c, kw, w0. Qed.

Lemma chain_answer_docs rel c kw w0 :
chain_answer env (docs_result rel (chain_text env c kw w0)).
Proof. by exists c, kw, w0. Qed.

Lemma chain_answer_hybrid docs c kw w0 :
chain_answer env (hybrid_result docs (chain_text env c kw w0)).
Proof. by exists c, kw, w0. Qed.

Lemma execute_strategy_answer question documents strategy w :
returned (execute_strategy env question documents strategy None w)
  (λ result _, chain_answer env result).
Proof.
destruct (has_documents documents) eqn:Hdocs.
- destruct (decide (strategy = "docs_only")) as [->|Hd].
  { rewrite execute_docs_only_spec by done.
    destruct (List.filter _ _); [apply chain_answer_fallback|].
    destruct (String.eqb _ _); [apply chain_answer_fallback|apply chain_answer_docs]. }
  destruct (decide (strategy = "hybrid")) as [->|Hh].
  { rewrite execute_hybrid, generate_hybrid_answer_spec by done.
    apply chain_answer_hybrid. }
  rewrite execute_other, generate_general_answer_spec by done.
  by eapply chain_answer_general.
- rewrite execute_no_documents, generate_general_answer_spec by auto.
  by eapply chain_answer_general.
Qed.

Lemma intelligent_answer_chain_answer self question documents strategy w :
railway_mode self = false →
returned (intelligent_answer env self question documents strategy w)
  (λ result _, chain_answer env result).
Proof.
intros Hmode.
assert (∀ chosen w1,
          select_strategy env question documents strategy w = (Ok (chosen, None), w1) →
          returned (intelligent_answer env self question documents strategy w)
            (λ result _, chain_answer env result)) as Hfresh.
{ intros chosen w1 Hs.
  pose proof (execute_strategy_answer question documents chosen w1) as He.
  destruct (execute_strategy env question documents chosen None w1)
    as [[result|e] w2] eqn:Hexec; [|done].
  rewrite (intelligent_answer_steps env _ _ _ _ _ _ _ _ _ _ Hmode Hs Hexec).
  by apply chain_answer_with_strategy. }
destruct (decide (strategy = "auto")) as [->|Hauto];
  [|by eapply Hfresh, select_not_auto].
destruct (has_documents documents) eqn:Hdocs;
  [|by eapply Hfresh, select_auto_no_documents].
destruct (is_specific_query question) eqn:Hspec;
  [by eapply Hfresh, select_auto_specific|].
destruct (List.filter (is_relevant (1 # 2)%Q) (supplied documents)) as [|d rel] eqn:E;
  [by eapply Hfresh, select_auto_low|].
assert (List.filter (is_relevant (1 # 2)%Q) (supplied documents) ≠ []) as Hne
  by (by rewrite E).
pose proof (select_auto_relevant env question documents w Hdocs Hspec Hne) as Hs.
match type of Hs with
| _ = (Ok (_, Some ?r), ?w1) =>
    pose proof (execute_docs_only_given env question documents r w1 Hdocs) as He
end.
destruct (truthy _) in He;
  rewrite (intelligent_answer_steps env _ _ _ _ _ _ _ _ _ _ Hmode Hs He);
  apply chain_answer_with_strategy;
  [apply chain_answer_docs|apply chain_answer_fallback].
Qed.

Lemma failed_reply_text r :
failed_reply r → ∃ e, reply_text env r = apology e.
Proof.
destruct r as [msg|code body]; simpl; [by eexists|].
intros ->. by eexists.
Qed.

Lemma railway_answer question documents w :
returned (_railway_fallback_answer env question documents w) (λ result _,
  ∃ answer, result !! "answer" = Some (VStr answer)
    ∧ ((∀ n prompt, failed_reply (deepseek_api env n prompt)) →
         describes_failure answer)).
Proof.
unfold _railway_fallback_answer, try_except.
destruct (negb (truthy _)).
{ simpl. eexists. split; [done|]. intros _. by do 3 right. }
unfold mbind, M_bind, post.
specialize (startswith_app "DeepSeek API error: ") as Hapi.
specialize (startswith_app "Railway fallback error: ") as Hrail.
destruct (deepseek_api env _ _) as [msg|code body] eqn:Hreply.
- simpl. eexists. split; [done|]. intros _. right; right; left. apply Hrail.
- destruct (code =? 200) eqn:Hcode.
  + apply Z.eqb_eq in Hcode as ->.
    destruct body as [content|msg]; simpl.
    * eexists. split; [done|]. intros Hfail.
      specialize (Hfail (length (generation_calls w))). 
      match type of Hreply with deepseek_api _ _ ?p = _ => specialize (Hfail p) end.
      by rewrite Hreply in Hfail.
    * eexists. split; [done|]. intros _. right; right; left. apply Hrail.
  + simpl. eexists. split; [done|]. intros _. right; left. apply Hapi.
Qed.

End FailureFacts.
(** ** Scenarios of the answer strategy engine *)

(** C1 at the specification's example: a question containing "according
    to" and one document scoring 0.9. *)
Lemma C1_witness :
  railway_mode chain_system = false
  ∧ returned (intelligent_answer (answering "On Friday.") chain_system exam_question
                (Some [exam_doc]) "auto" initial_world) (λ result _,
      (has_documents (Some [exam_doc]) = false →
         result !! "strategy_used" = Some (VStr "general_only")
         ∧ from_uploaded_docs result = false)
      ∧ (has_documents (Some [exam_doc]) = true → is_specific_query exam_question = true →
           let relevant_docs := List.filter (is_relevant (1 # 2)%Q) (supplied (Some [exam_doc])) in
           let text := chain_text (answering "On Friday.") doc_chain
                         (docs_kwargs exam_question relevant_docs) initial_world in
           result !! "strategy_used" = Some (VStr "docs_only")
           ∧ (from_uploaded_docs result = true ↔ relevant_docs ≠ [] ∧ Py.strip text ≠ ""))).
Proof.
  split; [reflexivity|].
  apply (C1_auto_resolution (answering "On Friday.") chain_system exam_question
           (Some [exam_doc]) initial_world).
  reflexivity.
Defined.

(** C1 as stated fails: the question contains "according to" and a
    document is supplied, the strategy resolves to [docs_only], yet the
    document scores 0.3, the general-knowledge fallback answers, and the
    answer does not count as coming from the uploaded documents. *)
Lemma C1_counterexample :
  has_documents (Some [weak_doc]) = true
  ∧ is_specific_query exam_question = true
  ∧ returned (intelligent_answer (answering "On Friday.") chain_system exam_question
                (Some [weak_doc]) "auto" initial_world) (λ result _,
      result !! "strategy_used" = Some (VStr "docs_only")
      ∧ from_uploaded_docs result = false).
Proof. vm_compute. done. Qed.

(** C2 at the specification's example: two documents scoring 0.6 and
    0.7 and a question without marker. *)
Lemma C2_witness :
  railway_mode chain_system = false
  ∧ has_documents (Some [leaf_doc; root_doc]) = true
  ∧ is_specific_query plain_question = false
  ∧ let env := answering "Plants make sugar from light." in
    let documents := Some [leaf_doc; root_doc] in
    let relevant_docs := List.filter (is_relevant (1 # 2)%Q) (supplied documents) in
    let docs_call := ChainRun doc_chain (docs_kwargs plain_question relevant_docs) in
    let general_call := ChainRun general_chain (general_kwargs plain_question) in
    returned (generate_answer_from_docs env plain_question (supplied documents) (1 # 2)%Q
                initial_world)
      (λ attempt w1,
         dict_get attempt "relevance" = VStr (classify_relevance (length relevant_docs))
         ∧ returned (intelligent_answer env chain_system plain_question documents "auto"
                       initial_world)
             (λ result w',
                (relevant_docs = [] →
                   w1 = initial_world
                   ∧ result !! "strategy_used" = Some (VStr "hybrid")
                   ∧ result !! "source_type" = Some (VStr "hybrid")
                   ∧ ∃ kwargs, generation_calls w'
                       = generation_calls initial_world
                         ++ [general_call; ChainRun hybrid_chain kwargs])
                ∧ (relevant_docs ≠ [] →
                     result !! "strategy_used" = Some (VStr "docs_only")
                     ∧ (truthy (dict_get attempt "answer") = true →
                          result = with_strategy "docs_only" attempt
                          ∧ generation_calls w' = generation_calls initial_world ++ [docs_call])
                     ∧ (truthy (dict_get attempt "answer") = false →
                          result !! "fallback_reason" = Some (VStr "low_document_relevance")
                          ∧ generation_calls w'
                            = generation_calls initial_world ++ [docs_call; general_call])))).
Proof.
  split; [reflexivity|]. split; [reflexivity|]. split; [vm_compute; reflexivity|].
  apply (C2_auto_documents_first (answering "Plants make sugar from light.") chain_system
           plain_question (Some [leaf_doc; root_doc]) initial_world);
    [reflexivity|reflexivity|vm_compute; reflexivity].
Defined.

(** C2 as stated fails: two documents meet the threshold (relevance
    "high"), but the model's answer to the document request is blank, so
    a second request is issued and the general-knowledge fallback is
    returned instead of the attempt. *)
Lemma C2_counterexample :
  has_documents (Some [leaf_doc; root_doc]) = true
  ∧ is_specific_query plain_question = false
  ∧ returned (generate_answer_from_docs (answering_first "  " "Plants make sugar.")
                plain_question [leaf_doc; root_doc] (1 # 2)%Q initial_world)
      (λ attempt _, attempt !! "relevance" = Some (VStr "high"))
  ∧ returned (intelligent_answer (answering_first "  " "Plants make sugar.") chain_system
                plain_question (Some [leaf_doc; root_doc]) "auto" initial_world)
      (λ result w',
         length (generation_calls w') = 2%nat
         ∧ result !! "fallback_reason" = Some (VStr "low_document_relevance")
         ∧ result !! "source_type" = Some (VStr "general_knowledge")
         ∧ result !! "relevance" = None).
Proof. vm_compute. done. Qed.

(** C7 as stated fails: a general answer of 501 characters reaches the
    hybrid request as 503 characters (500 of the answer and "..."), not
    as 500. *)
Lemma C7_counterexample :
  String.length long_answer = 501%nat
  ∧ returned (generate_hybrid_answer (answering long_answer) plain_question [leaf_doc]
                initial_world)
      (λ _ w',
         match generation_calls w' with
         | [ChainRun general_chain _; ChainRun hybrid_chain kwargs] =>
             String.length <$> kwargs !! "general_knowledge" = Some 503%nat
         | _ => False
         end).
Proof. vm_compute. done. Qed.

(** C10 on the process as it starts (no vector store, so retrieval
    returns nothing) with one completed document. *)
Lemma C10_witness :
  railway_mode chain_system = false
  ∧ let env := answering "Plants make sugar from light." in
    let w := world_with_completed_doc in
    (∀ documents, has_documents documents = false →
       returned (intelligent_answer env chain_system plain_question documents "docs_only" w)
         (λ result w',
            result = with_strategy "docs_only"
                       (general_result
                          (chain_text env general_chain (general_kwargs plain_question) w))
            ∧ result !! "strategy_used" = Some (VStr "docs_only")
            ∧ result !! "source_type" = Some (VStr "general_knowledge")
            ∧ result !! "fallback_reason" = None
            ∧ result !! "relevance" = None
            ∧ generation_calls w'
              = generation_calls w ++ [ChainRun general_chain (general_kwargs plain_question)]))
    ∧ (∀ session,
         (∃ doc_id row, documents_table w !! doc_id = Some row
                        ∧ processing_status row = "completed") →
         (∀ doc_ids, search_documents env plain_question doc_ids 5 w = (Ok [], w)) →
         returned (query_documents env chain_system
                     {| question := plain_question; request_session_id := Some session;
                        use_uploaded_docs_only := Some true |} w)
           (λ response w',
              answer response
              = Py.strip (chain_text env general_chain (general_kwargs plain_question) w)
              ∧ sources response = []
              ∧ is_from_uploaded_docs response = false
              ∧ generation_calls w'
                = generation_calls w
                  ++ [ChainRun general_chain (general_kwargs plain_question)])).
Proof.
  split; [reflexivity|].
  apply (C10_docs_only_without_documents (answering "Plants make sugar from light.")
           chain_system plain_question world_with_completed_doc).
  reflexivity.
Defined.

(** C10 as stated fails in the Railway fallback mode: the general prompt
    is sent, but [strategy_used] reports [railway_fallback]. *)
Lemma C10_counterexample :
  has_documents (Some []) = false
  ∧ returned (intelligent_answer (answering "Plants make sugar from light.") railway_system
                plain_question (Some []) "docs_only" initial_world)
      (λ result w',
         result !! "strategy_used" = Some (VStr "railway_fallback")
         ∧ result !! "strategy_used" ≠ Some (VStr "docs_only")
         ∧ generation_calls w' = [DirectPost (railway_general_prompt plain_question)]).
Proof. vm_compute. split; [done|]. split; [done|]. split; done. Qed.

(** The same run of [/query] ends as C10 describes: the response comes
    from general knowledge. *)
Example query_docs_only_without_retrieval :
  returned (query_documents (answering "Plants make sugar from light.") chain_system
              {| question := plain_question; request_session_id := Some "default";
                 use_uploaded_docs_only := Some true |} world_with_completed_doc)
    (λ response w',
       answer response = "Plants make sugar from light."
       ∧ is_from_uploaded_docs response = false
       ∧ length (query_logs w') = 1%nat).
Proof. vm_compute. done. Qed.

(** With the endpoint unreachable, every strategy still answers. *)
Example unreachable_endpoint_is_absorbed :
  returned (intelligent_answer unreachable chain_system plain_question
              (Some [leaf_doc; root_doc]) "hybrid" initial_world)
    (λ result w',
       result !! "answer"
       = Some (VStr "I apologize, but I encountered an error while processing your request: All connection attempts failed")
       ∧ result !! "source_type" = Some (VStr "hybrid")
       ∧ length (generation_calls w') = 2%nat)
  ∧ returned (intelligent_answer unreachable railway_system plain_question
                (Some [leaf_doc]) "auto" initial_world)
      (λ result _,
         result !! "answer"
         = Some (VStr "Railway fallback error: All connection attempts failed. Please check your environment configuration.")
         ∧ result !! "strategy_used" = Some (VStr "railway_error")).
Proof. vm_compute. done. Qed.

(** ** The requests behind an answer *)

Section AnswerTrace.

Context (env : Environment).

Lemma add_calls_cons call calls w :
add_calls (call :: calls) w = add_calls calls (log_call call w).
Proof. done. Qed.

Lemma add_calls_generation calls :
∀ w, generation_calls (add_calls calls w) = generation_calls w ++ calls.
Proof.
induction calls as [|call calls IH]; intros w.
- by rewrite app_nil_r.
- rewrite add_calls_cons, IH. cbn [log_call set_generation_calls generation_calls].
  by rewrite <- app_assoc.
Qed.

Lemma failure_text_reply r error_text :
failure_text env r = Some error_text → reply_text env r = apology_text error_text.
Proof.
destruct r as [message|status_code body]; simpl.
- by intros [= <-].
- unfold is_success. destruct ((200 <=? status_code) && (status_code <=? 299)); [done|].
  by intros [= <-].
Qed.

Lemma strip_apology_not_empty error_text : Py.strip (apology_text error_text) ≠ "".
Proof.
destruct (strip_apology (Error "" error_text)) as [t Ht].
change (apology (Error "" error_text)) with (apology_text error_text) in Ht.
by rewrite Ht.
Qed.

Lemma with_strategy_answer strategy d :
with_strategy strategy d !! "answer" = d !! "answer".
Proof. unfold with_strategy. by simplify_map_eq. Qed.

Lemma filter_by_score documents :
List.filter (is_relevant (1 # 2)%Q) documents
= List.filter (λ doc, match score doc with
                      | Some s => Qle_bool (1 # 2) s
                      | None => true
                      end) documents.
Proof.
apply List.filter_ext. intros doc. unfold is_relevant, doc_score.
by destruct (score doc).
Qed.

(** The requests of a strategy executed without a kept first attempt:
  the last one gives the answer; before it there is nothing, or the
  general request of a hybrid execution, or a document request whose
  completion was blank. *)
Lemma execute_strategy_trace question documents strategy w :
∃ result earlier c kwargs,
  execute_strategy env question documents strategy None w
  = (Ok result, add_calls (earlier ++ [ChainRun c kwargs]) w)
  ∧ result !! "answer"
    = Some (VStr (Py.strip (chain_text env c kwargs (add_calls earlier w))))
  ∧ (earlier = []
     ∨ earlier = [ChainRun general_chain (general_kwargs question)]
       ∧ c = hybrid_chain
       ∧ kwargs = hybrid_kwargs question (supplied documents)
                    (Py.strip (chain_text env general_chain (general_kwargs question) w))
     ∨ ∃ kwargs0, earlier = [ChainRun doc_chain kwargs0]
                  ∧ Py.strip (chain_text env doc_chain kwargs0 w) = "").
Proof.
assert (∃ result earlier c kwargs,
          generate_general_answer env question w
          = (Ok result, add_calls (earlier ++ [ChainRun c kwargs]) w)
          ∧ result !! "answer"
            = Some (VStr (Py.strip (chain_text env c kwargs (add_calls earlier w))))
          ∧ (earlier = []
             ∨ earlier = [ChainRun general_chain (general_kwargs question)]
               ∧ c = hybrid_chain
               ∧ kwargs = hybrid_kwargs question (supplied documents)
                            (Py.strip (chain_text env general_chain
                                         (general_kwargs question) w))
             ∨ ∃ kwargs0, earlier = [ChainRun doc_chain kwargs0]
                          ∧ Py.strip (chain_text env doc_chain kwargs0 w) = ""))
  as Hgeneral.
{ rewrite generate_general_answer_spec.
  eexists _, [], _, _. split; [reflexivity|].
  split; [unfold general_result; by simplify_map_eq|]. by left. }
destruct (decide (strategy = "docs_only")) as [->|Hd].
{ destruct (has_documents documents) eqn:Hdocs;
    [|by rewrite execute_no_documents by auto].
  rewrite (execute_docs_only_spec env question documents w Hdocs). cbv zeta.
  destruct (List.filter _ (supplied documents)) as [|doc rel].
  - eexists _, [], _, _. split; [reflexivity|].
    split; [unfold fallback_result, general_result; by simplify_map_eq|]. by left.
  - destruct (String.eqb _ "") eqn:Hblank.
    + apply String.eqb_eq in Hblank.
      eexists _, [_], _, _. split; [reflexivity|].
      split; [unfold fallback_result, general_result; by simplify_map_eq|].
      right; right. by eexists.
    + eexists _, [], _, _. split; [reflexivity|].
      split; [unfold docs_result; by simplify_map_eq|]. by left. }
destruct (decide (strategy = "hybrid")) as [->|Hh]; [|by rewrite execute_other by done].
destruct (has_documents documents) eqn:Hdocs; [|by rewrite execute_no_documents by auto].
rewrite execute_hybrid by done. rewrite generate_hybrid_answer_spec. cbv zeta.
eexists _, [_], _, _. split; [reflexivity|].
split; [unfold hybrid_result; by simplify_map_eq|]. right; left. done.
Qed.

(** The same for [intelligent_answer] outside the Railway fallback
  mode. *)
Lemma chain_mode_trace self question documents strategy w :
railway_mode self = false →
∃ result earlier c kwargs,
  intelligent_answer env self question documents strategy w
  = (Ok result, add_calls (earlier ++ [ChainRun c kwargs]) w)
  ∧ result !! "answer"
    = Some (VStr (Py.strip (chain_text env c kwargs (add_calls earlier w))))
  ∧ (earlier = []
     ∨ earlier = [ChainRun general_chain (general_kwargs question)]
       ∧ c = hybrid_chain
       ∧ kwargs = hybrid_kwargs question (supplied documents)
                    (Py.strip (chain_text env general_chain (general_kwargs question) w))
     ∨ ∃ kwargs0, earlier = [ChainRun doc_chain kwargs0]
                  ∧ Py.strip (chain_text env doc_chain kwargs0 w) = "").
Proof.
intros Hmode.
assert (∀ chosen,
          select_strategy env question documents strategy w = (Ok (chosen, None), w) →
          ∃ result earlier c kwargs,
            intelligent_answer env self question documents strategy w
            = (Ok result, add_calls (earlier ++ [ChainRun c kwargs]) w)
            ∧ result !! "answer"
              = Some (VStr (Py.strip (chain_text env c kwargs (add_calls earlier w))))
            ∧ (earlier = []
               ∨ earlier = [ChainRun general_chain (general_kwargs question)]
                 ∧ c = hybrid_chain
                 ∧ kwargs = hybrid_kwargs question (supplied documents)
                              (Py.strip (chain_text env general_chain
                                           (general_kwargs question) w))
               ∨ ∃ kwargs0, earlier = [ChainRun doc_chain kwargs0]
                            ∧ Py.strip (chain_text env doc_chain kwargs0 w) = ""))
  as Hfresh.
{ intros chosen Hs.
  destruct (execute_strategy_trace question documents chosen w)
    as (result & earlier & c & kwargs & He & Ha & Hshape).
  rewrite (intelligent_answer_steps env _ _ _ _ _ _ _ _ _ _ Hmode Hs He).
  eexists _, earlier, c, kwargs. split; [reflexivity|].
  split; [by rewrite with_strategy_answer|done]. }
destruct (decide (strategy = "auto")) as [->|Hauto];
  [|by eapply Hfresh, select_not_auto].
destruct (has_documents documents) eqn:Hdocs;
  [|by eapply Hfresh, select_auto_no_documents].
destruct (is_specific_query question) eqn:Hspec;
  [by eapply Hfresh, select_auto_specific|].
destruct (List.filter (is_relevant (1 # 2)%Q) (supplied documents)) as [|d rel] eqn:E;
  [by eapply Hfresh, select_auto_low|].
assert (List.filter (is_relevant (1 # 2)%Q) (supplied documents) ≠ []) as Hne
  by (by rewrite E).
pose proof (select_auto_relevant env question documents w Hdocs Hspec Hne) as Hs.
match type of Hs with
| _ = (Ok (_, Some ?r), ?w1) =>
    pose proof (execute_docs_only_given env question documents r w1 Hdocs) as He
end.
rewrite docs_result_answer, truthy_str in He.
destruct (String.eqb _ "") eqn:Hblank in He; cbn [negb] in He;
  rewrite (intelligent_answer_steps env _ _ _ _ _ _ _ _ _ _ Hmode Hs He).
- apply String.eqb_eq in Hblank.
  eexists _, [_], _, _. split; [reflexivity|].
  split.
  { rewrite with_strategy_answer. unfold fallback_result, general_result.
    by simplify_map_eq. }
  right; right. by eexists.
- eexists _, [], _, _. split; [reflexivity|].
  split; [|by left].
  rewrite with_strategy_answer. unfold docs_result. by simplify_map_eq.
Qed.

End AnswerTrace.

Section Claims_C3.

Context (env : Environment).

(** C3 (amended): the document generation keeps the documents whose
  score is at least 0.5, a document without score counting as 1.0,
  and generates from them alone; when none qualifies it returns the
  no-answer result (answer [None], relevance "low") without any
  request.  What the caller does then depends on the strategy: outside
  the Railway fallback mode, with [docs_only] (requested, or chosen by
  [auto] for a question with a marker) it answers from general
  knowledge and records [fallback_reason] on the result it returns;
  with [auto] and a question without marker it escalates to [hybrid]
  and records no [fallback_reason]. *)
Theorem C3_docs_only_filter_and_fallback self question documents w :
let qualifies (doc : Document) :=
  match score doc with Some s => Qle_bool (1 # 2) s | None => true end in
let relevant_docs := List.filter qualifies (supplied documents) in
let general_call := ChainRun general_chain (general_kwargs question) in
(∀ doc, doc ∈ relevant_docs
        ↔ doc ∈ supplied documents ∧ ∀ s, score doc = Some s → (1 # 2 <= s)%Q)
∧ (relevant_docs ≠ [] →
     generate_answer_from_docs env question (supplied documents) (1 # 2)%Q w
     = (Ok (docs_result relevant_docs
              (chain_text env doc_chain (docs_kwargs question relevant_docs) w)),
        log_call (ChainRun doc_chain (docs_kwargs question relevant_docs)) w))
∧ (relevant_docs = [] →
     generate_answer_from_docs env question (supplied documents) (1 # 2)%Q w
     = (Ok no_answer_result, w)
     ∧ no_answer_result !! "answer" = Some VNone
     ∧ no_answer_result !! "relevance" = Some (VStr "low"))
∧ (railway_mode self = false → has_documents documents = true → relevant_docs = [] →
     (∀ strategy,
        strategy = "docs_only" ∨ strategy = "auto" ∧ is_specific_query question = true →
        returned (intelligent_answer env self question documents strategy w)
          (λ result w',
             result = with_strategy "docs_only"
                        (fallback_result
                           (chain_text env general_chain (general_kwargs question) w))
             ∧ result !! "fallback_reason" = Some (VStr "low_document_relevance")
             ∧ result !! "source_type" = Some (VStr "general_knowledge")
             ∧ result !! "strategy_used" = Some (VStr "docs_only")
             ∧ generation_calls w' = generation_calls w ++ [general_call]))
     ∧ (is_specific_query question = false →
        returned (intelligent_answer env self question documents "auto" w)
          (λ result w',
             result !! "fallback_reason" = None
             ∧ result !! "source_type" = Some (VStr "hybrid")
             ∧ result !! "strategy_used" = Some (VStr "hybrid")
             ∧ ∃ kwargs,
                 generation_calls w'
                 = generation_calls w ++ [general_call; ChainRun hybrid_chain kwargs]))).
Proof.
cbv zeta. rewrite <- filter_by_score.
split.
{ intros doc. rewrite list_elem_of_In, List.filter_In, <- list_elem_of_In.
  unfold is_relevant, doc_score.
  split; intros [Hin Hq]; (split; [done|]).
  - intros s Hs. rewrite Hs in Hq. by apply Qle_bool_iff.
  - destruct (score doc) as [s|]; [|done]. by apply Qle_bool_iff, Hq. }
split; [intros Hne; by apply generate_answer_from_docs_some|].
split.
{ intros E. split; [by apply generate_answer_from_docs_none|]. done. }
intros Hmode Hdocs E. split.
- intros strategy Hstrategy.
  assert (select_strategy env question documents strategy w = (Ok ("docs_only", None), w))
    as Hs.
  { destruct Hstrategy as [->|[-> Hspec]].
    - by apply select_not_auto.
    - by apply select_auto_specific. }
  pose proof (execute_docs_only_spec env question documents w Hdocs) as He.
  cbv zeta in He. rewrite E in He.
  rewrite (intelligent_answer_steps env _ _ _ _ _ _ _ _ _ _ Hmode Hs He).
  cbn [returned]. split; [done|].
  unfold with_strategy, fallback_result, general_result.
  repeat split; by simplify_map_eq.
- intros Hspec.
  pose proof (select_auto_low env question documents w Hdocs Hspec E) as Hs.
  pose proof (execute_hybrid env question documents None w Hdocs) as He.
  rewrite generate_hybrid_answer_spec in He. cbv zeta in He.
  rewrite (intelligent_answer_steps env _ _ _ _ _ _ _ _ _ _ Hmode Hs He).
  cbn [returned]. unfold with_strategy, hybrid_result.
  split; [by simplify_map_eq|]. split; [by simplify_map_eq|].
  split; [by simplify_map_eq|]. eexists.
  cbn [log_call set_generation_calls generation_calls]. by rewrite <- app_assoc.
Qed.

End Claims_C3.

Section Claims_C8.

Context (env : Environment).

(** C8 (amended): [intelligent_answer] never raises, whatever the
  generation endpoint does; its result has a string in the answer
  field.  Outside the Railway fallback mode at least one request is
  sent, and the answer is the stripped text that the client returns
  for the last request: when that request fails (no response, or a
  non-success status) it is the apology with the text of the error.
  A request before the last that fails is the general request of a
  hybrid execution: its apology is not the answer, it is passed to
  the hybrid request as general knowledge.  In the Railway fallback
  mode no request is sent without an API key; otherwise the one
  request's failure gives the answer that names the error or the
  status. *)
Theorem C8_generation_failure_absorbed self question documents strategy w :
returned (intelligent_answer env self question documents strategy w) (λ result w',
  ∃ answer new,
    result !! "answer" = Some (VStr answer)
    ∧ generation_calls w' = generation_calls w ++ new
    ∧ (railway_mode self = false →
         ∃ earlier c kwargs,
           new = earlier ++ [ChainRun c kwargs]
           ∧ answer
             = Py.strip (reply_text env
                           (deepseek_api env (length (generation_calls w ++ earlier))
                              (format_prompt env c kwargs)))
           ∧ (∀ error_text,
                failure_text env
                  (deepseek_api env (length (generation_calls w ++ earlier))
                     (format_prompt env c kwargs)) = Some error_text →
                answer = Py.strip (apology_text error_text))
           ∧ (∀ c0 kwargs0 error_text,
                ChainRun c0 kwargs0 ∈ earlier →
                failure_text env
                  (deepseek_api env (length (generation_calls w))
                     (format_prompt env c0 kwargs0)) = Some error_text →
                c0 = general_chain ∧ c = hybrid_chain
                ∧ kwargs !! "general_knowledge"
                  = Some (Py.abbreviate 500 (Py.strip (apology_text error_text)))))
    ∧ (railway_mode self = true →
         new = [] ∧ answer = missing_key_answer
         ∨ ∃ prompt,
             new = [DirectPost prompt]
             ∧ match deepseek_api env (length (generation_calls w)) prompt with
               | PostRaises message => answer = railway_error_answer message
               | Response status_code body =>
                   if status_code =? 200 then
                     match body with
                     | Completion content => answer = Py.strip content
                     | Malformed message => answer = railway_error_answer message
                     end
                   else answer = railway_status_answer status_code
               end)).
Proof.
destruct (railway_mode self) eqn:Hmode.
- unfold intelligent_answer. rewrite Hmode.
  unfold _railway_fallback_answer, try_except.
  destruct (negb (truthy _)).
  { cbn [returned]. eexists _, []. split; [by simplify_map_eq|].
    split; [by rewrite app_nil_r|]. split; [by intros [=]|]. intros _. by left. }
  unfold mbind, M_bind, post.
  destruct (deepseek_api env _ _) as [message|status_code body] eqn:Hreply.
  { cbn [returned]. eexists _, [_]. split; [by simplify_map_eq|].
    split; [reflexivity|]. split; [by intros [=]|]. intros _. right.
    eexists. split; [reflexivity|]. by rewrite Hreply. }
  destruct (status_code =? 200) eqn:Hcode.
  + destruct body as [content|message]; cbn [json_content returned].
    * eexists _, [_]. split; [by simplify_map_eq|].
      split; [reflexivity|]. split; [by intros [=]|]. intros _. right.
      eexists. split; [reflexivity|]. by rewrite Hreply, Hcode.
    * eexists _, [_]. split; [by simplify_map_eq|].
      split; [reflexivity|]. split; [by intros [=]|]. intros _. right.
      eexists. split; [reflexivity|]. by rewrite Hreply, Hcode.
  + cbn [returned]. eexists _, [_]. split; [by simplify_map_eq|].
    split; [reflexivity|]. split; [by intros [=]|]. intros _. right.
    eexists. split; [reflexivity|]. by rewrite Hreply, Hcode.
- destruct (chain_mode_trace env self question documents strategy w Hmode)
    as (result & earlier & c & kwargs & -> & Ha & Hshape).
  cbn [returned]. eexists _, (earlier ++ [ChainRun c kwargs]).
  split; [exact Ha|]. split; [apply add_calls_generation|].
  split; [|by intros [=]]. intros _.
  exists earlier, c, kwargs. split; [done|].
  unfold chain_text. rewrite add_calls_generation.
  split; [done|]. split.
  { intros error_text He. by rewrite (failure_text_reply env _ error_text He). }
  intros c0 kwargs0 error_text Hin He.
  destruct Hshape as [->|[(-> & -> & ->)|(kw & -> & Hblank)]].
  + by apply elem_of_nil in Hin.
  + apply list_elem_of_singleton in Hin as [= -> ->].
    split; [done|]. split; [done|].
    unfold chain_text. rewrite (failure_text_reply env _ error_text He).
    unfold hybrid_kwargs. by simplify_map_eq.
  + apply list_elem_of_singleton in Hin as [= -> ->].
    unfold chain_text in Hblank.
    rewrite (failure_text_reply env _ error_text He) in Hblank.
    by destruct (strip_apology_not_empty error_text).
Qed.

End Claims_C8.

(** C3 as stated fails: [auto] attempts the document generation for a
    question without marker and one document scoring 0.3; the attempt
    returns the no-answer result without a request, and the caller
    does not fall back to general knowledge: it runs the hybrid
    strategy, and the result carries no [fallback_reason]. *)
Lemma C3_counterexample :
  returned (generate_answer_from_docs (answering "Mixed.") plain_question [weak_doc]
              (1 # 2)%Q initial_world)
    (λ result w',
       result !! "answer" = Some VNone
       ∧ result !! "relevance" = Some (VStr "low")
       ∧ generation_calls w' = [])
  ∧ returned (intelligent_answer (answering "Mixed.") chain_system plain_question
                (Some [weak_doc]) "auto" initial_world)
      (λ result w',
         result !! "answer" = Some (VStr "Mixed.")
         ∧ result !! "fallback_reason" = None
         ∧ result !! "strategy_used" = Some (VStr "hybrid")
         ∧ result !! "source_type" = Some (VStr "hybrid")
         ∧ length (generation_calls w') = 2%nat).
Proof. vm_compute. done. Qed.

(** C8 as stated fails: in a hybrid execution whose general request
    meets a transport error while the hybrid request is answered, the
    answer is the completion of the hybrid request; the apology is not
    in the answer field, it is the general knowledge sent with the
    hybrid request. *)
Lemma C8_counterexample :
  returned (intelligent_answer general_request_failing chain_system plain_question
              (Some [leaf_doc; root_doc]) "hybrid" initial_world)
    (λ result w',
       result !! "answer" = Some (VStr "Mixed.")
       ∧ match generation_calls w' with
         | [ChainRun c0 _; ChainRun c kwargs] =>
             c0 = general_chain ∧ c = hybrid_chain
             ∧ kwargs !! "general_knowledge"
               = Some "I apologize, but I encountered an error while processing your request: All connection attempts failed"
         | _ => False
         end).
Proof. vm_compute. done. Qed.
(** ** A program logic for [M] *)

Lemma hoare_consequence {A} (P P' : World → Prop) (Q Q' : result A → World → Prop) (m : M A) :
  hoare P' m Q' → (∀ w, P w → P' w) → (∀ r w, Q' r w → Q r w) → hoare P m Q.
Proof. unfold hoare. eauto. Qed.

Lemma hoare_ret {A} (P : World → Prop) (Q : result A → World → Prop) (a : A) :
  (∀ w, P w → Q (Ok a) w) → hoare P (mret a) Q.
Proof. unfold hoare. eauto. Qed.

Lemma hoare_raise {A} (P : World → Prop) (Q : result A → World → Prop) (e : exn) :
  (∀ w, P w → Q (Raise e) w) → hoare P (raise e) Q.
Proof. unfold hoare. eauto. Qed.

Lemma hoare_bind {A B} (P : World → Prop) (R : A → World → Prop)
    (Q : result B → World → Prop) (m : M A) (f : A → M B) :
  hoare P m (λ r w, match r with Ok a => R a w | Raise e => Q (Raise e) w end) →
  (∀ a, hoare (R a) (f a) Q) →
  hoare P (m ≫= f) Q.
Proof.
  intros Hm Hf w HP. specialize (Hm w HP).
  unfold mbind, M_bind. destruct (m w) as [[a|e] w']; simpl in *; [by apply Hf|done].
Qed.

Lemma hoare_try {A} (P : World → Prop) (R : exn → World → Prop)
    (Q : result A → World → Prop) (m : M A) (h : exn → M A) :
  hoare P m (λ r w, match r with Ok a => Q (Ok a) w | Raise e => R e w end) →
  (∀ e, hoare (R e) (h e) Q) →
  hoare P (try_except m h) Q.
Proof.
  intros Hm Hh w HP. specialize (Hm w HP).
  unfold try_except. destruct (m w) as [[a|e] w']; simpl in *; [done|by apply Hh].
Qed.

Lemma hoare_get_world (P : World → Prop) (Q : result World → World → Prop) :
  (∀ w, P w → Q (Ok w) w) → hoare P get_world Q.
Proof. unfold hoare. eauto. Qed.

Lemma hoare_modify_world (P : World → Prop) (Q : result unit → World → Prop) f :
  (∀ w, P w → Q (Ok tt) (f w)) → hoare P (modify_world f) Q.
Proof. unfold hoare. eauto. Qed.

Lemma hoare_of_result {A} (P : World → Prop) (Q : result A → World → Prop) (r : result A) :
  (∀ w, P w → Q r w) → hoare P (of_result r) Q.
Proof. unfold hoare. eauto. Qed.

Lemma preserves_bind {A B} (I : World → Prop) (m : M A) (f : A → M B) :
  preserves I m → (∀ a, preserves I (f a)) → preserves I (m ≫= f).
Proof.
  intros Hm Hf. eapply hoare_bind; [|exact Hf].
  intros w HI. specialize (Hm w HI). by destruct (m w).1.
Qed.

Lemma preserves_try {A} (I : World → Prop) (m : M A) (h : exn → M A) :
  preserves I m → (∀ e, preserves I (h e)) → preserves I (try_except m h).
Proof.
  intros Hm Hh. eapply hoare_try; [|exact Hh].
  intros w HI. specialize (Hm w HI). by destruct (m w).1.
Qed.

Lemma preserves_ret {A} (I : World → Prop) (a : A) : preserves I (mret a).
Proof. by apply hoare_ret. Qed.

Lemma preserves_raise {A} (I : World → Prop) (e : exn) : preserves I (raise (A:=A) e).
Proof. by apply hoare_raise. Qed.

Lemma preserves_get_world (I : World → Prop) : preserves I get_world.
Proof. by apply hoare_get_world. Qed.

Lemma preserves_of_result {A} (I : World → Prop) (r : result A) : preserves I (of_result r).
Proof. by apply hoare_of_result. Qed.

Lemma preserves_modify_world (I : World → Prop) f :
  (∀ w, I w → I (f w)) → preserves I (modify_world f).
Proof. intros H. by apply hoare_modify_world. Qed.

Create HintDb preserve discriminated.
#[export] Hint Resolve preserves_ret preserves_raise preserves_get_world
  preserves_of_result : preserve.

(** Splits a [preserves] goal along the structure of the program. *)
Ltac preserve_step :=
  lazymatch goal with
  | |- preserves _ (_ ≫= _) => apply preserves_bind; [|intros ?]
  | |- preserves _ (try_except _ _) => apply preserves_try; [|intros ?]
  | |- preserves _ (if ?b then _ else _) => destruct b
  | |- preserves _ (match ?x with _ => _ end) => destruct x
  | |- preserves _ (mret _) => apply preserves_ret
  | |- preserves _ (raise _) => apply preserves_raise
  | |- preserves _ get_world => apply preserves_get_world
  | |- preserves _ (of_result _) => apply preserves_of_result
  end.

(** ** The vector index *)

Section IndexFacts.

Context (env : Environment).

Lemma indexing_history_refl w : indexing_history w w.
Proof.
exists [], []. rewrite !app_nil_r. repeat split; auto.
Qed.

Lemma indexing_history_frame w0 w w' :
indexing_history w0 w →
index_events w' = index_events w → vectorstore w' = vectorstore w →
indexing_history w0 w'.
Proof.
intros (adds & rest & ? & ? & ? & ? & ?) He Hv.
exists adds, rest. rewrite He, Hv. done.
Qed.

Lemma preserves_update_document_progress w0 doc_id p :
preserves (indexing_history w0) (update_document_progress doc_id p).
Proof.
apply preserves_modify_world. intros w H. by eapply indexing_history_frame.
Qed.

Lemma preserves_update_progress w0 doc_id p :
preserves (indexing_history w0) (update_progress doc_id p).
Proof.
unfold update_progress. repeat preserve_step.
apply preserves_update_document_progress.
Qed.

Lemma preserves_disable_vectorstore w0 :
preserves (indexing_history w0) disable_vectorstore.
Proof.
apply preserves_modify_world.
intros w (adds & rest & He & Hadds & Hrest & H0 & Hv).
exists adds, (rest ++ [IndexDisabled]). simpl. rewrite He.
split; [by rewrite <- !app_assoc|].
split; [done|]. split; [apply Forall_app; by split; [|constructor]|].
split; [done|]. intros ?. done.
Qed.

Lemma preserves_add_documents w0 batch_ids :
preserves (indexing_history w0) (add_documents env batch_ids).
Proof.
intros w (adds & rest & He & Hadds & Hrest & H0 & Hv).
unfold add_documents. destruct (vectorstore w) eqn:Hvs.
- destruct (Hv eq_refl) as [Hv0 ->]. rewrite app_nil_r in He.
  assert (indexing_history w0
            (set_index_events
               (λ evs, evs ++ [AddDocuments batch_ids
                                 (add_documents_ok env
                                    (length (List.filter is_add (index_events w)))
                                    batch_ids)]) w)) as Hnew.
  { eexists (adds ++ [_]), []. simpl. rewrite He, app_nil_r, <- app_assoc.
    split; [done|]. split; [apply Forall_app; split; [done|by constructor]|].
    split; [done|]. split; [congruence|]. by rewrite Hvs. }
  by destruct (add_documents_ok env _ batch_ids).
- simpl. exists adds, rest. by rewrite Hvs.
Qed.

Lemma preserves_attempt_batch w0 batch_ids attempt remaining :
preserves (indexing_history w0) (attempt_batch env batch_ids attempt remaining).
Proof.
revert attempt. induction remaining as [|remaining IH]; intros attempt; simpl.
- apply preserves_ret.
- repeat preserve_step;
    auto using preserves_add_documents, preserves_disable_vectorstore.
Qed.

Lemma preserves_index_batches w0 doc_id n total starts vector_ids :
preserves (indexing_history w0) (index_batches env doc_id n total starts vector_ids).
Proof.
revert vector_ids. induction starts as [|batch_idx starts IH]; intros vector_ids; simpl.
- apply preserves_ret.
- repeat preserve_step;
    auto using preserves_add_documents, preserves_disable_vectorstore,
      preserves_update_progress.
Qed.

Lemma preserves_extract_text w0 file_content file_type filename :
preserves (indexing_history w0) (extract_text env file_content file_type filename).
Proof. unfold extract_text. repeat preserve_step. Qed.

Lemma preserves_store_embeddings w0 doc_id n :
preserves (indexing_history w0) (store_embeddings env doc_id n).
Proof.
unfold store_embeddings.
repeat preserve_step;
  auto using preserves_index_batches, preserves_disable_vectorstore.
Qed.

Lemma preserves_process_document w0 file_content filename file_type doc_id :
preserves (indexing_history w0)
  (process_document env file_content filename file_type doc_id).
Proof.
unfold process_document.
repeat preserve_step;
  auto using preserves_update_progress, preserves_extract_text,
    preserves_store_embeddings.
Qed.

End IndexFacts.
Section JobsReturn.

Context (env : Environment).

Lemma process_document_returns file_content filename file_type doc_id w :
∃ r, (process_document env file_content filename file_type doc_id w).1 = Ok r.
Proof.
unfold process_document, try_except.
match goal with |- context [match ?m w with _ => _ end] => destruct (m w) as [[r|e] w'] end;
  by eexists.
Qed.

End JobsReturn.

(** A process whose index rejects every add: the first job exhausts its
    retries on its first batch, the second job attempts nothing. *)
Example rejecting_index_is_tried_once :
  let env := scenario (λ _ _, Response 200 (Completion "ok")) (λ _ _, false)
               (Ok "some text") ["c0"; "c1"; "c2"; "c3"; "c4"; "c5"] in
  let task id := {| task_content := []; task_filename := "notes.txt";
                    task_file_type := "txt"; task_doc_id := id |} in
  let w0 := set_vectorstore true
              {| generation_calls := []; index_events := [];
                 vectorstore := true; embeddings := true; progress_callbacks := ∅;
                 progress_store := ∅; progress_writes := [];
                 documents_table := ∅; query_logs := []; background_tasks := [] |} in
  returned (process_all env [task 7; task 8] w0) (λ results w,
    map success results = [true; true]
    ∧ map result_vector_ids results = [[]; []]
    ∧ index_events w
      = [AddDocuments ["7_0"; "7_1"; "7_2"; "7_3"; "7_4"] false;
         AddDocuments ["7_0"; "7_1"; "7_2"; "7_3"; "7_4"] false;
         IndexDisabled]).
Proof. vm_compute. done. Qed.
(** ** Parts of the state a program leaves alone *)

Lemma unchanged_preserves {A B} (proj : World → B) (m : M A) :
  (∀ x, preserves (λ w, proj w = x) m) → unchanged proj m.
Proof. intros H w. by apply (H (proj w) w). Qed.

Lemma preserves_unchanged {A B} (proj : World → B) (m : M A) x :
  unchanged proj m → preserves (λ w, proj w = x) m.
Proof. intros H w <-. apply H. Qed.

(** Proves [unchanged proj m] for a program built from the monad's
    operations and from state changes that compute away under [proj]. *)
Ltac unchanged_auto :=
  apply unchanged_preserves; intros ?;
  repeat first
    [ preserve_step
    | apply preserves_modify_world; by intros ? <-
    | apply preserves_unchanged; solve [auto with preserve] ].

Section StepFacts.

Context (env : Environment).

Lemma update_document_progress_eq doc_id p w :
update_document_progress doc_id p w = (Ok tt, write_progress doc_id (progress_record p) w).
Proof. done. Qed.

Lemma update_progress_eq doc_id p w :
update_progress doc_id p w = (Ok tt, progress_step doc_id p w).
Proof.
unfold update_progress, progress_step.
erewrite bind_ok by done. by destruct (bool_decide _).
Qed.

Lemma extract_text_eq file_content file_type filename w :
extract_text env file_content file_type filename w = (extracted env file_content file_type, w).
Proof.
unfold extract_text, extracted.
repeat (match goal with |- context [if ?b then _ else _] => destruct b end); done.
Qed.

(** *** What the indexing steps leave alone *)

Lemma update_progress_documents_table doc_id p :
unchanged documents_table (update_progress doc_id p).
Proof. unfold update_progress, update_document_progress. unchanged_auto. Qed.

Lemma add_documents_documents_table batch_ids :
unchanged documents_table (add_documents env batch_ids).
Proof.
intros w. unfold add_documents.
destruct (vectorstore w); [|done]. by destruct (add_documents_ok env _ _).
Qed.

Lemma add_documents_progress_part batch_ids :
unchanged progress_part (add_documents env batch_ids).
Proof.
intros w. unfold add_documents.
destruct (vectorstore w); [|done]. by destruct (add_documents_ok env _ _).
Qed.

Lemma disable_vectorstore_documents_table : unchanged documents_table disable_vectorstore.
Proof. done. Qed.

Lemma disable_vectorstore_progress_part : unchanged progress_part disable_vectorstore.
Proof. done. Qed.

#[local] Hint Resolve update_progress_documents_table add_documents_documents_table
add_documents_progress_part disable_vectorstore_documents_table
disable_vectorstore_progress_part : preserve.

Lemma attempt_batch_documents_table batch_ids attempt remaining :
unchanged documents_table (attempt_batch env batch_ids attempt remaining).
Proof.
revert attempt. induction remaining as [|remaining IH]; intros attempt; simpl;
  unchanged_auto.
Qed.

Lemma attempt_batch_progress_part batch_ids attempt remaining :
unchanged progress_part (attempt_batch env batch_ids attempt remaining).
Proof.
revert attempt. induction remaining as [|remaining IH]; intros attempt; simpl;
  unchanged_auto.
Qed.

#[local] Hint Resolve attempt_batch_documents_table attempt_batch_progress_part : preserve.

Lemma index_batches_documents_table doc_id n total starts vector_ids :
unchanged documents_table (index_batches env doc_id n total starts vector_ids).
Proof.
revert vector_ids. induction starts as [|batch_idx starts IH]; intros vector_ids;
  cbn [index_batches]; unchanged_auto.
Qed.

#[local] Hint Resolve index_batches_documents_table : preserve.

Lemma store_embeddings_documents_table doc_id n :
unchanged documents_table (store_embeddings env doc_id n).
Proof. unfold store_embeddings. unchanged_auto. Qed.

End StepFacts.
(** ** Programs that never raise *)

Lemma returns_ret {A} (a : A) : returns (mret a).
Proof. intros w. by exists a. Qed.

Lemma returns_bind {A B} (m : M A) (f : A → M B) :
  returns m → (∀ a, returns (f a)) → returns (m ≫= f).
Proof.
  intros Hm Hf w. destruct (Hm w) as [a Ha].
  unfold mbind, M_bind. destruct (m w) as [r w']. simpl in Ha. subst r. apply Hf.
Qed.

Lemma returns_try {A} (m : M A) (h : exn → M A) :
  (∀ e, returns (h e)) → returns (try_except m h).
Proof.
  intros Hh w. unfold try_except. destruct (m w) as [[a|e] w']; [by exists a|apply Hh].
Qed.

Lemma returns_get_world : returns get_world.
Proof. intros w. by exists w. Qed.

Lemma returns_modify_world f : returns (modify_world f).
Proof. intros w. by exists tt. Qed.

#[export] Hint Resolve returns_ret returns_get_world returns_modify_world : preserve.

Ltac returns_step :=
  lazymatch goal with
  | |- returns (try_except _ _) => apply returns_try; intros ?
  | |- returns (_ ≫= _) => apply returns_bind; [|intros ?]
  | |- returns (if ?b then _ else _) => destruct b
  | |- returns (match ?x with _ => _ end) => destruct x
  | |- returns (mret _) => apply returns_ret
  | |- returns get_world => apply returns_get_world
  | |- returns (modify_world _) => apply returns_modify_world
  end.

Section EmbeddingFacts.

Context (env : Environment).

Lemma update_progress_returns doc_id p : returns (update_progress doc_id p).
Proof. intros w. rewrite update_progress_eq. by eexists. Qed.

Lemma attempt_batch_returns batch_ids attempt remaining :
returns (attempt_batch env batch_ids attempt remaining).
Proof.
revert attempt. induction remaining as [|remaining IH]; intros attempt; simpl;
  repeat returns_step; auto with preserve.
apply returns_modify_world.
Qed.

Lemma index_batches_returns doc_id n total starts vector_ids :
returns (index_batches env doc_id n total starts vector_ids).
Proof.
revert vector_ids. induction starts as [|batch_idx starts IH]; intros vector_ids;
  cbn [index_batches]; [apply returns_ret|].
apply returns_bind; [apply attempt_batch_returns|intros success].
repeat returns_step; auto using update_progress_returns.
Qed.

Lemma store_embeddings_returns doc_id n : returns (store_embeddings env doc_id n).
Proof.
unfold store_embeddings. repeat returns_step; apply returns_modify_world.
Qed.

Lemma store_embeddings_off doc_id n w :
vectorstore w && embeddings w = false →
store_embeddings env doc_id n w = (Ok [], w).
Proof.
intros H. unfold store_embeddings. erewrite bind_ok by done. by rewrite H.
Qed.

(** *** An index that rejects every add *)

Lemma attempt_batch_rejected batch_ids w :
(∀ k ids, add_documents_ok env k ids = false) →
vectorstore w = true →
∃ w', attempt_batch env batch_ids 0 max_retries w = (Ok false, w')
      ∧ vectorstore w' = false.
Proof.
intros Hrej Hvs. eexists. split.
- simpl. unfold try_except, mbind, M_bind, add_documents.
  rewrite Hvs, Hrej. simpl. rewrite Hvs, Hrej. simpl. reflexivity.
- done.
Qed.

Lemma store_embeddings_rejected doc_id n w :
(∀ k ids, add_documents_ok env k ids = false) →
(store_embeddings env doc_id n w).1 = Ok [].
Proof.
intros Hrej. destruct (vectorstore w && embeddings w) eqn:Hon;
  [|by rewrite store_embeddings_off].
apply andb_true_iff in Hon as [Hvs _].
unfold store_embeddings. erewrite bind_ok by done. rewrite Hvs. simpl.
destruct (embeddings w); [|done].
unfold try_except. destruct (batch_starts n) as [|batch_idx starts]; [done|].
cbn [index_batches].
destruct (attempt_batch_rejected (batch_ids_of doc_id n batch_idx) w Hrej Hvs)
  as (w' & Ha & Hvs').
erewrite bind_ok by exact Ha. erewrite bind_ok by done. by rewrite Hvs'.
Qed.

(** *** An index that accepts every add *)

Lemma progress_step_vectorstore doc_id p w :
vectorstore (progress_step doc_id p w) = vectorstore w.
Proof. unfold progress_step. by destruct (bool_decide _). Qed.

Lemma index_batches_accepted doc_id n total starts vector_ids w :
(∀ k ids, add_documents_ok env k ids = true) →
vectorstore w = true →
∃ w', index_batches env doc_id n total starts vector_ids w
      = (Ok (vector_ids ++ concat (map (batch_ids_of doc_id n) starts)), w')
      ∧ vectorstore w' = true.
Proof.
intros Hacc. revert vector_ids w.
induction starts as [|batch_idx starts IH]; intros vector_ids w Hvs.
- exists w. simpl. by rewrite app_nil_r.
- cbn [index_batches].
  assert (attempt_batch env (batch_ids_of doc_id n batch_idx) 0 max_retries w
          = (Ok true, set_index_events
                        (λ evs, evs ++ [AddDocuments (batch_ids_of doc_id n batch_idx) true])
                        w)) as Ha.
  { simpl. unfold try_except, mbind, M_bind, add_documents. by rewrite Hvs, Hacc. }
  erewrite bind_ok by exact Ha. erewrite bind_ok by done.
  cbn [negb andb]. erewrite bind_ok by apply update_progress_eq.
  edestruct IH as (w' & -> & Hvs').
  { rewrite progress_step_vectorstore. exact Hvs. }
  exists w'. split; [|done]. simpl. by rewrite <- app_assoc.
Qed.

Lemma batch_ids_length doc_id n k m :
length (concat (map (batch_ids_of doc_id n) (map (λ k, k * batch_size)%nat (seq k m))))
= (Nat.min ((k + m) * batch_size) n - Nat.min (k * batch_size) n)%nat.
Proof.
revert k. induction m as [|m IH]; intros k; simpl.
- rewrite Nat.add_0_r. lia.
- rewrite length_app, IH. unfold batch_ids_of.
  rewrite length_map, length_seq. unfold batch_size. lia.
Qed.

Lemma all_batch_ids_length doc_id n :
length (concat (map (batch_ids_of doc_id n) (batch_starts n))) = n.
Proof.
unfold batch_starts. rewrite batch_ids_length. unfold batch_size.
pose proof (Nat.div_mod_eq (n + 5 - 1) 5) as Hd.
pose proof (Nat.mod_upper_bound (n + 5 - 1) 5). lia.
Qed.

Lemma store_embeddings_accepted doc_id n w :
(∀ k ids, add_documents_ok env k ids = true) →
vectorstore w && embeddings w = true →
∃ vector_ids, (store_embeddings env doc_id n w).1 = Ok vector_ids
              ∧ length vector_ids = n.
Proof.
intros Hacc Hon. unfold store_embeddings. erewrite bind_ok by done. rewrite Hon.
apply andb_true_iff in Hon as [Hvs _].
destruct (index_batches_accepted doc_id n ((n + batch_size - 1) / batch_size)
            (batch_starts n) [] w Hacc Hvs) as (w' & Hrun & _).
unfold try_except. rewrite Hrun. eexists. split; [done|].
apply all_batch_ids_length.
Qed.

(** *** The pipeline, step by step *)

Lemma process_document_eq file_content filename file_type doc_id w :
process_document env file_content filename file_type doc_id w
= let w1 := progress_step doc_id 5 w in
  match extracted env file_content file_type with
  | Raise e => (Ok (failure_result e), w1)
  | Ok text_content =>
      let w2 := progress_step doc_id 25 w1 in
      if String.eqb (Py.strip text_content) "" then
        (Ok (failure_result (Error "ValueError" "No text content extracted from file")), w2)
      else
        let w4 := progress_step doc_id 40 (progress_step doc_id 30 w2) in
        match split_text env text_content with
        | [] =>
            (Ok (failure_result (Error "ValueError" "No chunks created from text content")),
             w4)
        | chunks =>
            match store_embeddings env doc_id (length chunks) (progress_step doc_id 50 w4) with
            | (Ok vector_ids, w6) =>
                (Ok (success_result text_content chunks vector_ids),
                 progress_step doc_id 100 (progress_step doc_id 95 w6))
            | (Raise e, w6) => (Ok (failure_result e), w6)
            end
        end
  end.
Proof.
unfold process_document, try_except. cbv zeta.
erewrite bind_ok by apply update_progress_eq.
unfold mbind at 1, M_bind at 1. rewrite extract_text_eq.
destruct (extracted env file_content file_type) as [text_content|e]; [|done].
erewrite bind_ok by apply update_progress_eq.
destruct (String.eqb (Py.strip text_content) "").
{ by erewrite bind_raise by done. }
erewrite bind_ok by done.
erewrite bind_ok by apply update_progress_eq.
erewrite bind_ok by apply update_progress_eq.
destruct (split_text env text_content) as [|chunk chunks] eqn:Hchunks.
{ by erewrite bind_raise by done. }
erewrite bind_ok by done.
erewrite bind_ok by apply update_progress_eq.
unfold mbind at 1, M_bind at 1.
destruct (store_embeddings env doc_id _ _) as [[vector_ids|e] w6]; [|done].
erewrite bind_ok by apply update_progress_eq.
by erewrite bind_ok by apply update_progress_eq.
Qed.

End EmbeddingFacts.
Section PipelineFacts.

Context (env : Environment).

Lemma progress_step_index_events doc_id p w :
index_events (progress_step doc_id p w) = index_events w.
Proof. unfold progress_step. by destruct (bool_decide _). Qed.

Lemma progress_step_embeddings doc_id p w :
embeddings (progress_step doc_id p w) = embeddings w.
Proof. unfold progress_step. by destruct (bool_decide _). Qed.

Lemma progress_step_documents_table doc_id p w :
documents_table (progress_step doc_id p w) = documents_table w.
Proof. unfold progress_step. by destruct (bool_decide _). Qed.

Lemma progress_step_callbacks doc_id p w :
progress_callbacks (progress_step doc_id p w) = progress_callbacks w.
Proof. unfold progress_step. by destruct (bool_decide _). Qed.

(** What one run of [process_document] does to the index and returns. *)
Lemma process_document_outcome file_content filename file_type doc_id w :
∃ res w' new,
  process_document env file_content filename file_type doc_id w = (Ok res, w')
  ∧ documents_table w' = documents_table w
  ∧ index_events w' = index_events w ++ new
  ∧ (success res = false → new = [] ∧ result_vector_ids res = [])
  ∧ (success res = true →
       0 < result_chunk_count res ∧ ∃ n, text_length res = Some n)
  ∧ (vectorstore w && embeddings w = false → new = [] ∧ result_vector_ids res = [])
  ∧ ((∀ k ids, add_documents_ok env k ids = false) → result_vector_ids res = [])
  ∧ ((∀ k ids, add_documents_ok env k ids = true) →
       vectorstore w && embeddings w = true → success res = true →
       Z.of_nat (length (result_vector_ids res)) = result_chunk_count res).
Proof.
rewrite process_document_eq. cbv zeta.
assert (∀ (res : ProcessingResult) w',
          success res = false → result_vector_ids res = [] →
          documents_table w' = documents_table w → index_events w' = index_events w →
          ∃ res0 w0 new,
            (Ok res, w') = (Ok res0, w0)
            ∧ documents_table w0 = documents_table w
            ∧ index_events w0 = index_events w ++ new
            ∧ (success res0 = false → new = [] ∧ result_vector_ids res0 = [])
            ∧ (success res0 = true →
                 0 < result_chunk_count res0 ∧ ∃ n, text_length res0 = Some n)
            ∧ (vectorstore w && embeddings w = false →
                 new = [] ∧ result_vector_ids res0 = [])
            ∧ ((∀ k ids, add_documents_ok env k ids = false) → result_vector_ids res0 = [])
            ∧ ((∀ k ids, add_documents_ok env k ids = true) →
                 vectorstore w && embeddings w = true → success res0 = true →
                 Z.of_nat (length (result_vector_ids res0)) = result_chunk_count res0))
  as Hfailed.
{ intros res w' Hs Hv Hd He. exists res, w', []. rewrite app_nil_r.
  repeat split; auto; congruence. }
destruct (extracted env file_content file_type) as [text_content|e].
2: { apply Hfailed; auto using progress_step_documents_table, progress_step_index_events. }
destruct (String.eqb (Py.strip text_content) "").
{ apply Hfailed; auto; by rewrite ?progress_step_documents_table, ?progress_step_index_events. }
destruct (split_text env text_content) as [|chunk chunks] eqn:Hchunks.
{ apply Hfailed; auto; by rewrite ?progress_step_documents_table, ?progress_step_index_events. }
set (n := length (chunk :: chunks)).
set (w5 := progress_step doc_id 50 _).
assert (documents_table w5 = documents_table w) as Hd5
  by (subst w5; by rewrite !progress_step_documents_table).
assert (index_events w5 = index_events w) as He5
  by (subst w5; by rewrite !progress_step_index_events).
assert (vectorstore w5 && embeddings w5 = vectorstore w && embeddings w) as Hon5
  by (subst w5; by rewrite !progress_step_vectorstore, !progress_step_embeddings).
destruct (store_embeddings_returns env doc_id n w5) as [vector_ids Hv].
destruct (preserves_store_embeddings env w5 doc_id n w5 (indexing_history_refl w5))
  as (adds & rest & He & _).
pose proof (store_embeddings_documents_table env doc_id n w5) as Hd.
pose proof (store_embeddings_off env doc_id n w5) as Hoff.
pose proof (store_embeddings_rejected env doc_id n w5) as Hrej.
pose proof (store_embeddings_accepted env doc_id n w5) as Hacc.
destruct (store_embeddings env doc_id n w5) as [r w6].
cbn [fst snd] in Hv, He, Hd, Hrej, Hacc.
subst r.
exists (success_result text_content (chunk :: chunks) vector_ids),
       (progress_step doc_id 100 (progress_step doc_id 95 w6)), (adds ++ rest).
split; [done|].
split; [by rewrite !progress_step_documents_table, Hd, Hd5|].
split; [by rewrite !progress_step_index_events, He, He5|].
split; [done|].
split. { intros _. simpl. split; [lia|by eexists]. }
split.
{ intros Hoff'. rewrite <- Hon5 in Hoff'. specialize (Hoff Hoff').
  injection Hoff as -> ->.
  split; [|done]. apply (app_inv_head (index_events w5)). by rewrite app_nil_r. }
split.
{ intros Hr. specialize (Hrej Hr). by injection Hrej as ->. }
intros Ha Hon _. rewrite <- Hon5 in Hon.
destruct (Hacc Ha Hon) as (ids & Hids & Hlen). injection Hids as ->.
simpl. by rewrite Hlen.
Qed.

End PipelineFacts.

(** ** The trace of a job at the index *)

Section IndexTrace.

Context (env : Environment).

Lemma batches_indexed_app evs evs' :
batches_indexed evs → batches_indexed evs' → batches_indexed (evs ++ evs').
Proof. induction 1; intros H'; simpl; auto using batches_indexed. Qed.

Lemma batches_indexed_not_disabled evs :
batches_indexed evs → IndexDisabled ∉ evs.
Proof.
induction 1 as [|ids evs _ IH|ids evs _ IH]; intros Hin.
- by apply elem_of_nil in Hin.
- apply elem_of_cons in Hin as [?|?]; [done|auto].
- apply elem_of_cons in Hin as [?|Hin]; [done|].
  apply elem_of_cons in Hin as [?|?]; [done|auto].
Qed.

Lemma accepted_ids_app evs evs' :
accepted_ids (evs ++ evs') = accepted_ids evs ++ accepted_ids evs'.
Proof. apply flat_map_app. Qed.

Lemma accepted_ids_exhausted ids : accepted_ids (retries_exhausted ids) = [].
Proof. done. Qed.

(** The two attempts at one batch, with the vector store set. *)
Lemma attempt_batch_trace batch_ids w :
vectorstore w = true →
∃ success new w',
  attempt_batch env batch_ids 0 max_retries w = (Ok success, w')
  ∧ index_events w' = index_events w ++ new
  ∧ embeddings w' = embeddings w
  ∧ (success = true ∧ batches_indexed new ∧ accepted_ids new = batch_ids
       ∧ vectorstore w' = true
     ∨ success = false ∧ new = retries_exhausted batch_ids ∧ vectorstore w' = false).
Proof.
intros Hvs. simpl. unfold try_except, mbind, M_bind, add_documents. rewrite Hvs.
destruct (add_documents_ok env _ batch_ids).
{ eexists true, [AddDocuments batch_ids true], _. split; [reflexivity|].
  split; [done|]. split; [done|]. left.
  split; [done|]. split; [repeat constructor|]. split; [|done].
  unfold accepted_ids. simpl. by rewrite app_nil_r. }
simpl. rewrite Hvs.
destruct (add_documents_ok env _ batch_ids).
- eexists true, [AddDocuments batch_ids false; AddDocuments batch_ids true], _.
  split; [reflexivity|]. split; [simpl; by rewrite <- app_assoc|]. split; [done|].
  left. split; [done|]. split; [repeat constructor|]. split; [|done].
  unfold accepted_ids. simpl. by rewrite app_nil_r.
- eexists false, (retries_exhausted batch_ids), _.
  split; [reflexivity|]. split; [simpl; by rewrite <- !app_assoc|]. split; [done|].
  right. done.
Qed.

(** The batch loop, entered with the vector store set: the batches are
  indexed one after the other, until one is rejected twice. *)
Lemma index_batches_trace doc_id n total :
∀ starts vector_ids w,
  vectorstore w = true →
  ∃ new w' indexed,
    index_batches env doc_id n total starts vector_ids w
    = (Ok (vector_ids ++ accepted_ids new), w')
    ∧ index_events w' = index_events w ++ new
    ∧ embeddings w' = embeddings w
    ∧ accepted_ids new = concat (map (batch_ids_of doc_id n) indexed)
    ∧ (indexed = starts ∧ batches_indexed new ∧ vectorstore w' = true
       ∨ ∃ earlier batch_idx rest,
           starts = indexed ++ batch_idx :: rest
           ∧ batches_indexed earlier
           ∧ new = earlier ++ retries_exhausted (batch_ids_of doc_id n batch_idx)
           ∧ vectorstore w' = false).
Proof.
induction starts as [|batch_idx starts IH]; intros vector_ids w Hvs.
{ exists [], w, []. cbn [index_batches]. rewrite !app_nil_r.
  split; [done|]. split; [done|]. split; [done|]. split; [done|].
  left. split; [done|]. split; [constructor|done]. }
cbn [index_batches].
destruct (attempt_batch_trace (batch_ids_of doc_id n batch_idx) w Hvs)
  as (success & new1 & w1 & Ha & He1 & Hemb1 & Hcase).
erewrite bind_ok by exact Ha. erewrite bind_ok by done.
destruct Hcase as [(-> & Hind1 & Hids1 & Hvs1)|(-> & -> & Hvs1)].
- rewrite Hvs1. cbn [negb andb]. erewrite bind_ok by apply update_progress_eq.
  match goal with
  | |- context [index_batches _ _ _ _ _ ?v ?w2] =>
      destruct (IH v w2) as (new2 & w' & indexed & -> & He2 & Hemb2 & Hids2 & Hcase)
  end.
  { by rewrite progress_step_vectorstore. }
  rewrite progress_step_index_events in He2. rewrite progress_step_embeddings in Hemb2.
  exists (new1 ++ new2), w', (batch_idx :: indexed).
  rewrite accepted_ids_app, Hids1, <- app_assoc.
  split; [done|]. split; [by rewrite He2, He1, <- app_assoc|].
  split; [congruence|]. split; [simpl; by rewrite Hids2|].
  destruct Hcase as [(-> & Hind2 & Hvs')|(earlier & b & rest & -> & Hind2 & -> & Hvs')].
  + left. split; [done|]. split; [by apply batches_indexed_app|done].
  + right. exists (new1 ++ earlier), b, rest.
    split; [done|]. split; [by apply batches_indexed_app|].
    split; [by rewrite <- app_assoc|done].
- rewrite Hvs1. cbn [negb andb].
  exists (retries_exhausted (batch_ids_of doc_id n batch_idx)), w1, [].
  rewrite accepted_ids_exhausted, app_nil_r.
  split; [done|]. split; [done|]. split; [done|]. split; [done|].
  right. exists [], batch_idx, starts. split; [done|]. split; [constructor|done].
Qed.


(** The batches before one that is not the last are full, and leave
  chunks without identifier. *)
Lemma indexed_prefix_length doc_id n indexed batch_idx rest :
batch_starts n = indexed ++ batch_idx :: rest →
length (concat (map (batch_ids_of doc_id n) indexed)) = (length indexed * batch_size)%nat
∧ (length indexed * batch_size < n)%nat.
Proof.
unfold batch_starts. intros Hstarts.
set (total := ((n + batch_size - 1) / batch_size)%nat) in *.
assert (length indexed < total)%nat as Hj.
{ apply (f_equal length) in Hstarts.
  rewrite length_map, length_seq, length_app in Hstarts. simpl in Hstarts. lia. }
assert (indexed = map (λ k, k * batch_size)%nat (seq 0 (length indexed))) as Hindexed.
{ pose proof (take_app_length indexed (batch_idx :: rest)) as Htake.
  rewrite <- Hstarts, firstn_map, take_seq, Nat.min_l in Htake by lia. done. }
assert (length indexed * batch_size < n)%nat as Hlt.
{ subst total. unfold batch_size in *.
  pose proof (Nat.div_mod_eq (n + 5 - 1) 5) as Hd.
  pose proof (Nat.mod_upper_bound (n + 5 - 1) 5). lia. }
split; [|done]. rewrite Hindexed at 1. rewrite batch_ids_length. lia.
Qed.

(** Step 4 of [process_document] at the index. *)
Lemma store_embeddings_trace doc_id n w :
∃ new w',
  store_embeddings env doc_id n w = (Ok (accepted_ids new), w')
  ∧ index_events w' = index_events w ++ new
  ∧ embeddings w' = embeddings w
  ∧ (vectorstore w && embeddings w = false → new = [] ∧ vectorstore w' = vectorstore w)
  ∧ (vectorstore w && embeddings w = true →
       batches_indexed new ∧ length (accepted_ids new) = n ∧ vectorstore w' = true
       ∨ ∃ earlier ids j,
           batches_indexed earlier
           ∧ new = earlier ++ retries_exhausted ids
           ∧ length (accepted_ids new) = (j * batch_size)%nat
           ∧ (j * batch_size < n)%nat
           ∧ vectorstore w' = false).
Proof.
unfold store_embeddings. erewrite bind_ok by done.
destruct (vectorstore w && embeddings w) eqn:Hon.
2: { exists [], w. rewrite app_nil_r. by repeat split. }
apply andb_true_iff in Hon as [Hvs _].
destruct (index_batches_trace doc_id n ((n + batch_size - 1) / batch_size)
            (batch_starts n) [] w Hvs)
  as (new & w' & indexed & Hrun & He & Hemb & Hids & Hcase).
unfold try_except. rewrite Hrun. exists new, w'.
split; [done|]. split; [done|]. split; [done|]. split; [done|]. intros _.
destruct Hcase as [(-> & Hind & Hvs')|(earlier & batch_idx & rest & Hstarts & Hind & -> & Hvs')].
- left. split; [done|]. split; [|done]. rewrite Hids. apply all_batch_ids_length.
- right. exists earlier, (batch_ids_of doc_id n batch_idx), (length indexed).
  destruct (indexed_prefix_length doc_id n indexed batch_idx rest Hstarts) as [Hlen Hlt].
  split; [done|]. split; [done|]. split; [by rewrite Hids|]. done.
Qed.

Lemma index_trace_nil on : index_trace on [] on.
Proof. destruct on; [left; split; [constructor|done]|done]. Qed.

Lemma index_trace_app on0 new1 on1 new2 on2 :
index_trace on0 new1 on1 → index_trace on1 new2 on2 →
index_trace on0 (new1 ++ new2) on2.
Proof.
unfold index_trace. destruct on0.
- intros [[Hind1 ->]|(earlier & ids & Hind1 & -> & ->)].
  + intros [[Hind2 ->]|(earlier & ids & Hind2 & -> & ->)].
    * left. split; [by apply batches_indexed_app|done].
    * right. exists (new1 ++ earlier), ids.
      split; [by apply batches_indexed_app|]. split; [by rewrite <- app_assoc|done].
  + intros [-> ->]. right. exists earlier, ids. by rewrite app_nil_r.
- intros [-> ->] [-> ->]. done.
Qed.

(** One run of [process_document]: what it returns, and its trace at
  the index. *)
Lemma process_document_trace file_content filename file_type doc_id w :
∃ res w' new,
  process_document env file_content filename file_type doc_id w = (Ok res, w')
  ∧ documents_table w' = documents_table w
  ∧ index_events w' = index_events w ++ new
  ∧ index_trace (vectorstore w) new (vectorstore w')
  ∧ (success res = false → new = [] ∧ result_vector_ids res = [])
  ∧ (success res = true →
       0 < result_chunk_count res
       ∧ (∃ n, text_length res = Some n)
       ∧ result_vector_ids res = accepted_ids new
       ∧ (vectorstore w && embeddings w = false → new = [])
       ∧ (vectorstore w && embeddings w = true →
            batches_indexed new
            ∧ Z.of_nat (length (accepted_ids new)) = result_chunk_count res
            ∨ ∃ earlier ids j,
                batches_indexed earlier
                ∧ new = earlier ++ retries_exhausted ids
                ∧ length (accepted_ids new) = (j * batch_size)%nat
                ∧ Z.of_nat (j * batch_size) < result_chunk_count res)).
Proof.
rewrite process_document_eq. cbv zeta.
assert (∀ e w',
          documents_table w' = documents_table w → index_events w' = index_events w →
          vectorstore w' = vectorstore w →
          ∃ res0 w0 new,
            (Ok (failure_result e), w') = (Ok res0, w0)
            ∧ documents_table w0 = documents_table w
            ∧ index_events w0 = index_events w ++ new
            ∧ index_trace (vectorstore w) new (vectorstore w0)
            ∧ (success res0 = false → new = [] ∧ result_vector_ids res0 = [])
            ∧ (success res0 = true →
                 0 < result_chunk_count res0
                 ∧ (∃ n, text_length res0 = Some n)
                 ∧ result_vector_ids res0 = accepted_ids new
                 ∧ (vectorstore w && embeddings w = false → new = [])
                 ∧ (vectorstore w && embeddings w = true →
                      batches_indexed new
                      ∧ Z.of_nat (length (accepted_ids new)) = result_chunk_count res0
                      ∨ ∃ earlier ids j,
                          batches_indexed earlier
                          ∧ new = earlier ++ retries_exhausted ids
                          ∧ length (accepted_ids new) = (j * batch_size)%nat
                          ∧ Z.of_nat (j * batch_size) < result_chunk_count res0)))
  as Hfailed.
{ intros e w' Hd He Hv. exists (failure_result e), w', []. rewrite app_nil_r, Hv.
  split; [done|]. split; [done|]. split; [done|]. split; [apply index_trace_nil|].
  split; [done|]. intros [=]. }
destruct (extracted env file_content file_type) as [text_content|e].
2: { apply Hfailed;
       by rewrite ?progress_step_documents_table, ?progress_step_index_events,
            ?progress_step_vectorstore. }
destruct (String.eqb (Py.strip text_content) "").
{ apply Hfailed;
    by rewrite ?progress_step_documents_table, ?progress_step_index_events,
         ?progress_step_vectorstore. }
destruct (split_text env text_content) as [|chunk chunks] eqn:Hchunks.
{ apply Hfailed;
    by rewrite ?progress_step_documents_table, ?progress_step_index_events,
         ?progress_step_vectorstore. }
set (n := length (chunk :: chunks)).
set (w5 := progress_step doc_id 50 _).
assert (documents_table w5 = documents_table w) as Hd5
  by (subst w5; by rewrite !progress_step_documents_table).
assert (index_events w5 = index_events w) as He5
  by (subst w5; by rewrite !progress_step_index_events).
assert (vectorstore w5 = vectorstore w) as Hv5
  by (subst w5; by rewrite !progress_step_vectorstore).
assert (embeddings w5 = embeddings w) as Hemb5
  by (subst w5; by rewrite !progress_step_embeddings).
destruct (store_embeddings_trace doc_id n w5)
  as (new & w6 & Hrun & He & Hemb & Hoff & Hon).
pose proof (store_embeddings_documents_table env doc_id n w5) as Hd.
rewrite Hrun in Hd |- *. cbn [snd] in Hd.
rewrite Hv5, Hemb5 in Hoff, Hon.
exists (success_result text_content (chunk :: chunks) (accepted_ids new)),
       (progress_step doc_id 100 (progress_step doc_id 95 w6)), new.
split; [done|].
split; [by rewrite !progress_step_documents_table, Hd, Hd5|].
split; [by rewrite !progress_step_index_events, He, He5|].
split.
{ rewrite !progress_step_vectorstore. unfold index_trace.
  destruct (vectorstore w) eqn:Hvs.
  - destruct (embeddings w) eqn:Hem.
    + destruct (Hon eq_refl) as [(Hind & _ & Hvs')|(earlier & ids & j & Hind & -> & _ & _ & Hvs')].
      * left. by split.
      * right. by exists earlier, ids.
    + destruct (Hoff eq_refl) as [-> ->]. left. split; [constructor|done].
  - destruct (Hoff eq_refl) as [-> ->]. done. }
split; [by intros [=]|]. intros _.
split; [simpl; lia|]. split; [by eexists|]. split; [done|].
split; [intros Hoff'; by destruct (Hoff Hoff')|].
intros Hon'.
destruct (Hon Hon') as [(Hind & Hlen & _)|(earlier & ids & j & Hind & -> & Hlen & Hlt & _)].
- left. split; [done|]. unfold success_result. cbn [result_chunk_count].
  by rewrite Hlen.
- right. exists earlier, ids, j. split; [done|]. split; [done|]. split; [done|].
  unfold success_result. cbn [result_chunk_count]. fold n. lia.
Qed.

(** The jobs of a process, one after the other. *)
Lemma process_all_trace tasks :
∀ w0, ∃ results w new,
  process_all env tasks w0 = (Ok results, w)
  ∧ length results = length tasks
  ∧ index_events w = index_events w0 ++ new
  ∧ index_trace (vectorstore w0) new (vectorstore w).
Proof.
induction tasks as [|task tasks IH]; intros w0.
{ exists [], w0, []. rewrite app_nil_r. split; [done|]. split; [done|].
  split; [done|]. apply index_trace_nil. }
cbn [process_all].
destruct (process_document_trace (task_content task) (task_filename task)
            (task_file_type task) (task_doc_id task) w0)
  as (res & w1 & new1 & Hrun & _ & He1 & Ht1 & _).
erewrite bind_ok by exact Hrun.
destruct (IH w1) as (results & w & new2 & Hall & Hlen & He2 & Ht2).
erewrite bind_ok by exact Hall.
exists (res :: results), w, (new1 ++ new2).
split; [done|]. split; [simpl; by rewrite Hlen|].
split; [by rewrite He2, He1, <- app_assoc|].
by eapply index_trace_app.
Qed.

(** C9: the constructor leaves the vector store unset (the dimension
  mismatch is detected there), so that no add is attempted at all.
  With a vector store set, in the run of any jobs of a process, either
  every attempted batch is indexed, at its first or at its second
  attempt, and the store stays set, or the first batch that is
  rejected at both attempts is followed at once by the unsetting of
  the vector store, and the log of the index ends there: no add is
  attempted again, for the remaining batches of that job or for any
  later job.  All jobs still return. *)
Theorem C9_indexing_stays_disabled tasks w0 :
returned (DocumentProcessor_init w0) (λ _ w1, vectorstore w1 = false)
∧ returned (process_all env tasks w0) (λ results w,
    length results = length tasks
    ∧ ∃ new,
        index_events w = index_events w0 ++ new
        ∧ (vectorstore w0 = false → new = [] ∧ vectorstore w = false)
        ∧ (vectorstore w0 = true →
             batches_indexed new ∧ vectorstore w = true
             ∨ ∃ earlier ids,
                 batches_indexed earlier
                 ∧ new = earlier
                         ++ [AddDocuments ids false; AddDocuments ids false; IndexDisabled]
                 ∧ vectorstore w = false)).
Proof.
split; [done|].
destruct (process_all_trace tasks w0) as (results & w & new & -> & Hlen & He & Ht).
cbn [returned]. split; [done|]. exists new. split; [done|].
unfold index_trace in Ht. split.
- intros Hoff. by rewrite Hoff in Ht.
- intros Hon. by rewrite Hon in Ht.
Qed.

End IndexTrace.
Section Claims_C4.

Context (env : Environment).

Lemma update_doc_record_eq doc_id f row w :
documents_table w !! doc_id = Some row →
update_doc_record doc_id f w
= (Ok tt, set_documents_table (λ t, <[doc_id := f row]> t) w).
Proof.
intros H. unfold update_doc_record. erewrite bind_ok by done. by rewrite H.
Qed.

(** The run of the background task on an existing row. *)
Lemma process_document_background_eq file_content filename file_type doc_id w row :
documents_table w !! doc_id = Some row →
let started := set_processing "processing" row in
let w1 := write_progress doc_id (progress_record 1)
            (set_documents_table (λ t, <[doc_id := started]> t) w) in
∃ res w2,
  process_document env file_content filename file_type doc_id w1 = (Ok res, w2)
  ∧ process_document_background env file_content filename file_type doc_id w
    = (Ok tt,
       if success res then
         write_progress doc_id (progress_record 100)
           (set_documents_table (λ t, <[doc_id := set_completed res started]> t) w2)
       else
         write_progress doc_id (failed_record (default "" (result_error res)))
           (set_documents_table
              (λ t, <[doc_id := set_failed (default "" (result_error res)) started]> t) w2)).
Proof.
intros Hrow started w1.
destruct (process_document_outcome env file_content filename file_type doc_id w1)
  as (res & w2 & new & Hrun & Hd & _).
exists res, w2. split; [done|].
unfold process_document_background.
erewrite try_ok; [done|].
erewrite bind_ok by (by apply update_doc_record_eq).
erewrite bind_ok by apply update_document_progress_eq.
erewrite bind_ok by exact Hrun.
assert (documents_table w2 !! doc_id = Some started) as Hrow2.
{ rewrite Hd. subst w1. simpl. by rewrite lookup_insert_eq. }
destruct (success res).
- erewrite bind_ok by (by apply update_doc_record_eq).
  by rewrite update_document_progress_eq.
- by erewrite bind_ok by (by apply update_doc_record_eq).
Qed.

(** C4 (amended): a job whose batch indexing fails after exhausting its
  retries does not fail.  In a terminal state the row is completed or
  failed.  A failed job attempted no add and leaves the vector ids and
  the chunk count as they were.  A completed job has a positive chunk
  count, progress 100 and a metadata that holds the text length and
  the two time stamps only; its vector ids are exactly the ids the
  index accepted, in order: none without a vector store; one for every
  chunk when every batch was indexed at its first or second attempt;
  and, when a batch was rejected at both attempts, the ids of the [j]
  full batches indexed before it, fewer than the chunks, and none
  when that batch is the first. *)
Theorem C4_degraded_completion file_content filename file_type doc_id row w :
documents_table w !! doc_id = Some row →
returned (process_document_background env file_content filename file_type doc_id w)
  (λ _ w',
     ∃ row' new,
       documents_table w' !! doc_id = Some row'
       ∧ index_events w' = index_events w ++ new
       ∧ (processing_status row' = "completed" ∨ processing_status row' = "failed")
       ∧ (IndexDisabled ∈ new → processing_status row' = "completed")
       ∧ (processing_status row' = "failed" →
            new = [] ∧ vector_ids row' = vector_ids row ∧ chunk_count row' = chunk_count row)
       ∧ (processing_status row' = "completed" →
            0 < chunk_count row'
            ∧ progress_store w' !! doc_id = Some (progress_record 100)
            ∧ (∃ n, doc_metadata row'
                    = Some {[ "text_length" := VInt n; "processed_at" := VElapsed;
                              "processing_time" := VElapsed ]})
            ∧ vector_ids row' = Some (accepted_ids new)
            ∧ (vectorstore w && embeddings w = false → new = [])
            ∧ (vectorstore w && embeddings w = true →
                 batches_indexed new
                 ∧ Z.of_nat (length (accepted_ids new)) = chunk_count row'
                 ∨ ∃ earlier ids j,
                     batches_indexed earlier
                     ∧ new = earlier
                             ++ [AddDocuments ids false; AddDocuments ids false;
                                 IndexDisabled]
                     ∧ length (accepted_ids new) = (5 * j)%nat
                     ∧ 5 * Z.of_nat j < chunk_count row'
                     ∧ (earlier = [] → vector_ids row' = Some [])))).
Proof.
intros Hrow.
destruct (process_document_background_eq file_content filename file_type doc_id w row Hrow)
  as (res & w2 & Hrun & ->).
cbv zeta in Hrun.
destruct (process_document_trace env file_content filename file_type doc_id
            (write_progress doc_id (progress_record 1)
               (set_documents_table
                  (λ t, <[doc_id := set_processing "processing" row]> t) w)))
  as (res' & w2' & new & Hrun' & Hd & He & _ & Hfail & Hok).
rewrite Hrun in Hrun'. injection Hrun' as <- <-.
cbn [index_events vectorstore embeddings write_progress set_documents_table] in He, Hok.
unfold returned. destruct (success res) eqn:Hs.
- destruct (Hok eq_refl) as (Hpos & (n & Hn) & Hids & Hoff & Hon).
  exists (set_completed res (set_processing "processing" row)), new.
  split; [apply lookup_insert_eq|]. split; [exact He|]. split; [by left|].
  split; [done|]. split; [by intros [=]|]. intros _.
  split; [exact Hpos|]. split; [apply lookup_insert_eq|].
  split. { exists n. unfold set_completed. cbn [doc_metadata]. by rewrite Hn. }
  split. { unfold set_completed. cbn [vector_ids]. by rewrite Hids. }
  split; [exact Hoff|]. intros Hon'.
  destruct (Hon Hon') as [[Hind Hlen]|(earlier & ids & j & Hind & Hnew & Hlen & Hlt)].
  + by left.
  + right. exists earlier, ids, j. unfold batch_size in Hlen, Hlt.
    split; [done|]. split; [done|]. split; [lia|].
    split; [unfold set_completed; cbn [chunk_count]; lia|].
    intros ->. unfold set_completed. cbn [vector_ids].
    by rewrite Hids, Hnew.
- destruct (Hfail eq_refl) as [-> Hv].
  exists (set_failed (default "" (result_error res)) (set_processing "processing" row)), [].
  split; [apply lookup_insert_eq|]. split; [exact He|]. split; [by right|].
  split; [by intros ?%elem_of_nil|]. split; [done|]. by intros [=].
Qed.

End Claims_C4.
(** ** The progress store *)

Section ProgressFacts.

Context (env : Environment).

Lemma after_updates_refl doc_id w0 : after_updates doc_id w0 [] w0.
Proof. unfold after_updates. simpl. by rewrite app_nil_r. Qed.

Lemma after_updates_frame doc_id w0 ps w w' :
progress_part w' = progress_part w →
after_updates doc_id w0 ps w → after_updates doc_id w0 ps w'.
Proof.
unfold progress_part, after_updates. intros [= -> -> ->]. done.
Qed.

Lemma after_updates_write doc_id w0 ps w p :
after_updates doc_id w0 ps w →
after_updates doc_id w0 (ps ++ [p]) (write_progress doc_id (progress_record p) w).
Proof.
intros (Hc & Hw & Hs). unfold after_updates. simpl.
split; [done|]. split.
- by rewrite Hw, map_app, <- app_assoc.
- by rewrite lookup_insert_eq, last_snoc.
Qed.

Lemma after_updates_step doc_id w0 ps w p :
doc_id ∈ progress_callbacks w0 →
after_updates doc_id w0 ps w →
after_updates doc_id w0 (ps ++ [p]) (progress_step doc_id p w).
Proof.
intros Hreg H. unfold progress_step.
destruct H as (Hc & Hw & Hs).
rewrite bool_decide_true by (by rewrite Hc).
by apply after_updates_write.
Qed.

Lemma index_batches_progress_part doc_id n total starts vector_ids :
∀ w, progress_callbacks (index_batches env doc_id n total starts vector_ids w).2
     = progress_callbacks w.
Proof.
revert vector_ids. induction starts as [|batch_idx starts IH]; intros vector_ids w;
  [done|].
cbn [index_batches].
pose proof (attempt_batch_progress_part env (batch_ids_of doc_id n batch_idx) 0
              max_retries w) as Hp.
destruct (attempt_batch_returns env (batch_ids_of doc_id n batch_idx) 0 max_retries w)
  as [b Hb].
destruct (attempt_batch env _ 0 max_retries w) as [r wa] eqn:Hab.
cbn [fst snd] in Hp, Hb. subst r.
erewrite bind_ok by exact Hab. erewrite bind_ok by done.
unfold progress_part in Hp. injection Hp as Hc _ _.
destruct (negb b && negb (vectorstore wa)); [done|].
erewrite bind_ok by apply update_progress_eq.
by rewrite IH, progress_step_callbacks.
Qed.

(** The batch loop from batch [k] on: the percentages it writes climb
  from [lo] and stay below 90. *)
Lemma index_batches_climbs doc_id n total w0 :
batch_share_bounded env → batch_share_monotone env →
doc_id ∈ progress_callbacks w0 →
∀ m k vector_ids ps w lo,
  (k + m ≤ total)%nat →
  50 ≤ lo ≤ 90 →
  (∀ j, (k < j ≤ total)%nat → lo ≤ 50 + batch_share env j total) →
  after_updates doc_id w0 ps w →
  ∃ bs,
    after_updates doc_id w0 (ps ++ bs)
      (index_batches env doc_id n total
         (map (λ k, k * batch_size)%nat (seq k m)) vector_ids w).2
    ∧ StronglySorted Z.le bs
    ∧ Forall (λ p, lo ≤ p ≤ 90) bs.
Proof.
intros Hbound Hmono Hreg.
induction m as [|m IH]; intros k vector_ids ps w lo Hkm Hlo Hnext Hafter.
- exists []. rewrite app_nil_r. simpl. split; [done|]. split; constructor.
- cbn [seq map index_batches].
  pose proof (attempt_batch_progress_part env (batch_ids_of doc_id n (k * batch_size)) 0
                max_retries w) as Hp.
  destruct (attempt_batch_returns env (batch_ids_of doc_id n (k * batch_size)) 0
              max_retries w) as [b Hb].
  destruct (attempt_batch env _ 0 max_retries w) as [r wa] eqn:Hab.
  cbn [fst snd] in Hp, Hb. subst r.
  erewrite bind_ok by exact Hab. erewrite bind_ok by done.
  apply (after_updates_frame _ _ _ _ wa) in Hafter; [|done].
  destruct (negb b && negb (vectorstore wa)).
  { exists []. rewrite app_nil_r. simpl. split; [done|]. split; constructor. }
  erewrite bind_ok by apply update_progress_eq.
  replace (k * batch_size / batch_size + 1)%nat with (S k)
    by (rewrite Nat.div_mul by done; lia).
  set (p := 50 + batch_share env (S k) total).
  assert (lo ≤ p) as Hlop by (apply Hnext; lia).
  assert (p ≤ 90) as Hp90.
  { pose proof (Hbound (S k) total ltac:(lia)). subst p. lia. }
  destruct (IH (S k) (if b then vector_ids ++ batch_ids_of doc_id n (k * batch_size)
                      else vector_ids)
              (ps ++ [p]) (progress_step doc_id p wa) p) as (bs & Hbs & Hsorted & Hall).
  + lia.
  + lia.
  + intros j Hj. subst p. pose proof (Hmono (S k) j total ltac:(lia) ltac:(lia)). lia.
  + by apply after_updates_step.
  + exists (p :: bs). rewrite <- app_assoc in Hbs. split; [exact Hbs|].
    split.
    * constructor; [done|]. eapply Forall_impl; [exact Hall|]. simpl. lia.
    * constructor; [lia|]. eapply Forall_impl; [exact Hall|]. simpl. lia.
Qed.

Lemma store_embeddings_climbs doc_id n w0 ps w :
batch_share_bounded env → batch_share_monotone env →
doc_id ∈ progress_callbacks w0 →
after_updates doc_id w0 ps w →
∃ bs,
  after_updates doc_id w0 (ps ++ bs) (store_embeddings env doc_id n w).2
  ∧ StronglySorted Z.le bs
  ∧ Forall (λ p, 50 ≤ p ≤ 90) bs.
Proof.
intros Hbound Hmono Hreg Hafter.
unfold store_embeddings. erewrite bind_ok by done.
destruct (vectorstore w && embeddings w).
2: { exists []. rewrite app_nil_r. simpl. split; [done|]. split; constructor. }
unfold try_except.
destruct (index_batches_climbs doc_id n ((n + batch_size - 1) / batch_size) w0
            Hbound Hmono Hreg ((n + batch_size - 1) / batch_size) 0 [] ps w 50)
  as (bs & Hbs & Hsorted & Hall); [lia|lia| |done|].
{ intros j Hj.
  pose proof (Hbound j ((n + batch_size - 1) / batch_size)%nat ltac:(lia)). lia. }
destruct (index_batches_returns env doc_id n ((n + batch_size - 1) / batch_size)
            (batch_starts n) [] w) as [vector_ids Hv].
unfold batch_starts in *.
destruct (index_batches env doc_id n _ _ [] w) as [r w']. simpl in Hv, Hbs. subst r.
by exists bs.
Qed.

End ProgressFacts.
Section JobTrace.

Context (env : Environment).

(** What the pipeline writes for a registered job: the percentages
  climb; a successful run ends on 100, a failed one stays at or below
  40. *)
Lemma process_document_climbs file_content filename file_type doc_id w0 ps0 w :
batch_share_bounded env → batch_share_monotone env →
doc_id ∈ progress_callbacks w0 →
after_updates doc_id w0 ps0 w →
∃ res w' ps,
  process_document env file_content filename file_type doc_id w = (Ok res, w')
  ∧ after_updates doc_id w0 (ps0 ++ ps) w'
  ∧ StronglySorted Z.le ps
  ∧ (success res = true → Forall (λ p, 5 ≤ p ≤ 100) ps ∧ last ps = Some 100)
  ∧ (success res = false →
       Forall (λ p, 5 ≤ p ≤ 40) ps ∧ ps ≠ [] ∧ ∃ e, result_error res = Some e).
Proof.
intros Hbound Hmono Hreg Hafter.
rewrite process_document_eq. cbv zeta.
pose proof (after_updates_step doc_id w0 _ _ 5 Hreg Hafter) as H5.
destruct (extracted env file_content file_type) as [text_content|e].
2: { exists (failure_result e), (progress_step doc_id 5 w), [5].
     split; [done|]. split; [done|]. split; [repeat constructor|].
     split; [done|]. intros _. split; [repeat constructor; lia|]. split; [done|].
     by eexists. }
pose proof (after_updates_step doc_id w0 _ _ 25 Hreg H5) as H25.
destruct (String.eqb (Py.strip text_content) "").
{ eexists _, _, [5; 25]. split; [done|].
  split; [by rewrite <- app_assoc in H25|].
  split; [repeat constructor; lia|].
  split; [done|]. intros _. split; [repeat constructor; lia|]. split; [done|].
  by eexists. }
pose proof (after_updates_step doc_id w0 _ _ 30 Hreg H25) as H30.
pose proof (after_updates_step doc_id w0 _ _ 40 Hreg H30) as H40.
destruct (split_text env text_content) as [|chunk chunks].
{ eexists _, _, [5; 25; 30; 40]. split; [done|].
  split; [by rewrite <- !app_assoc in H40|].
  split; [repeat constructor; lia|].
  split; [done|]. intros _. split; [repeat constructor; lia|]. split; [done|].
  by eexists. }
pose proof (after_updates_step doc_id w0 _ _ 50 Hreg H40) as H50.
destruct (store_embeddings_climbs env doc_id (length (chunk :: chunks)) w0 _ _
            Hbound Hmono Hreg H50) as (bs & Hbs & Hsorted & Hall).
destruct (store_embeddings_returns env doc_id (length (chunk :: chunks))
            (progress_step doc_id 50
               (progress_step doc_id 40
                  (progress_step doc_id 30
                     (progress_step doc_id 25 (progress_step doc_id 5 w))))))
  as [vector_ids Hv].
destruct (store_embeddings env doc_id _ _) as [r w6]. cbn [fst snd] in Hv, Hbs. subst r.
pose proof (after_updates_step doc_id w0 _ _ 95 Hreg Hbs) as H95.
pose proof (after_updates_step doc_id w0 _ _ 100 Hreg H95) as H100.
eexists _, _, ([5; 25; 30; 40; 50] ++ bs ++ [95; 100]).
split; [done|].
split.
{ rewrite <- !app_assoc in H100. exact H100. }
split.
{ rewrite Forall_forall in Hall.
  apply StronglySorted_app_2.
  - intros x1 x2 H1 H2.
    assert (x1 ≤ 50) by (repeat (apply elem_of_cons in H1 as [->|H1]; [lia|]);
                         by apply elem_of_nil in H1).
    apply elem_of_app in H2 as [H2|H2].
    + specialize (Hall x2 H2). simpl in Hall. lia.
    + apply elem_of_cons in H2 as [->|H2]; [lia|].
      apply list_elem_of_singleton in H2 as ->. lia.
  - repeat constructor; lia.
  - apply StronglySorted_app_2; [|done|repeat constructor; lia].
    intros x1 x2 H1 H2. specialize (Hall x1 H1). simpl in Hall.
    apply elem_of_cons in H2 as [->|H2]; [lia|].
      apply list_elem_of_singleton in H2 as ->. lia. }
split; [|done]. intros _. split.
- apply Forall_app. split; [repeat constructor; lia|].
  apply Forall_app. split; [|repeat constructor; lia].
  eapply Forall_impl; [exact Hall|]. simpl. lia.
- rewrite app_assoc. change [95; 100] with ([95] ++ [100]).
  by rewrite app_assoc, last_snoc.
Qed.

End JobTrace.
Section Claims_C6.

Context (env : Environment).

Lemma progress_record_completed p :
p ≤ 100 → (progress (progress_record p) = 100 ↔ status (progress_record p) = "completed").
Proof.
intros Hp. simpl. destruct (p <? 100) eqn:Hlt.
- apply Z.ltb_lt in Hlt. split; [lia|done].
- apply Z.ltb_ge in Hlt. split; [done|lia].
Qed.

Lemma progress_record_processing p :
p < 100 → status (progress_record p) = "processing".
Proof. intros Hp. simpl. by rewrite (proj2 (Z.ltb_lt _ _) Hp). Qed.

(** The properties of a job's trace follow from its shape: the pending
  record, climbing percentages, and at most a final failure. *)
Lemma job_trace_properties name qs tail :
StronglySorted Z.le qs → Forall (λ p, 1 ≤ p ≤ 100) qs →
tail = [] ∨ (∃ e, tail = [failed_record e]) →
let trace := pending_record name :: map progress_record qs ++ tail in
StronglySorted keeps_climbing trace
∧ (∀ r, r ∈ trace → (progress r = 100 ↔ status r = "completed")).
Proof.
intros Hsorted Hall Htail trace. split.
- constructor.
  + apply StronglySorted_app_2.
    * intros x1 x2 _ H2. destruct Htail as [->|[e ->]].
      -- by apply elem_of_nil in H2.
      -- apply list_elem_of_singleton in H2 as ->. by intros ?.
    * change (StronglySorted keeps_climbing (progress_record <$> qs)).
      eapply StronglySorted_fmap; [|exact Hsorted]. by intros x y Hxy _.
    * destruct Htail as [->|[e ->]]; repeat constructor.
  + apply Forall_app. split.
    * change (Forall (keeps_climbing (pending_record name)) (progress_record <$> qs)).
      apply Forall_fmap. eapply Forall_impl; [exact Hall|].
      intros p Hp. cbv beta in Hp. unfold compose, keeps_climbing. cbn. intros _. lia.
    * destruct Htail as [->|[e ->]]; repeat constructor. by intros ?.
- intros r Hr. subst trace.
  apply elem_of_cons in Hr as [->|Hr]; [by split|].
  apply elem_of_app in Hr as [Hr|Hr].
  + apply list_elem_of_fmap in Hr as (p & -> & Hp).
    rewrite Forall_forall in Hall. apply progress_record_completed.
    by apply Hall in Hp as [_ ?].
  + destruct Htail as [->|[e ->]]; [by apply elem_of_nil in Hr|].
    apply list_elem_of_singleton in Hr as ->. by split.
Qed.

Lemma fresh_id_is_fresh (table : gmap Z DocumentModel) : table !! fresh_id table = None.
Proof.
apply not_elem_of_dom. intros Hin. apply elem_of_elements in Hin.
assert (∀ (l : list Z) x, x ∈ l → x ≤ foldr Z.max 0 l) as Hmax.
{ induction l as [|y l IH]; intros x Hx; [by apply elem_of_nil in Hx|].
  simpl. apply elem_of_cons in Hx as [->|Hx]; [lia|]. specialize (IH x Hx). lia. }
specialize (Hmax _ _ Hin). unfold fresh_id in Hmax. lia.
Qed.

(** What an upload does: it is refused and changes nothing, or it
  registers the job. *)
Lemma upload_file_outcome file w :
(∃ e, upload_file env file w = (Raise e, w))
∨ (∃ name response w1 row,
     upload_filename file = Some name
     ∧ upload_file env file w = (Ok response, w1)
     ∧ document_id response = fresh_id (documents_table w)
     ∧ response_filename response = name
     ∧ documents_table w1 = <[document_id response := row]> (documents_table w)
     ∧ progress_writes w1
       = progress_writes w ++ [(document_id response, pending_record name)]
     ∧ progress_store w1 !! document_id response = Some (pending_record name)
     ∧ document_id response ∈ progress_callbacks w1).
Proof.
unfold upload_file, try_except.
destruct (upload_filename file) as [[|c name]|] eqn:Hname; [left; by eexists| |left; by eexists].
destruct (negb (bool_decide _)); [left; by eexists|].
destruct (max_size <? _); [left; by eexists|].
right. eexists _, _, _, _. split; [done|].
unfold db_add.
erewrite bind_ok; [|erewrite bind_ok by done; erewrite bind_ok by done; reflexivity].
erewrite bind_ok by done. erewrite bind_ok by done. erewrite bind_ok by done.
split; [reflexivity|].
split; [reflexivity|]. split; [reflexivity|]. split; [reflexivity|].
split; [reflexivity|].
split; [apply lookup_insert_eq|].
apply elem_of_union_l, elem_of_singleton. reflexivity.
Qed.

(** C6: over a job's life, from its upload to its terminal state, the
  records written to the progress store never show a lower percentage
  in a later record that is still processing than in any earlier
  record; a record shows 100 exactly when its status is completed; the
  last record is completed or failed, agrees with the job's row, and
  when it is failed its percentage is 0, written right after a
  processing record whose percentage was neither 0 nor 100.  A refused
  upload changes nothing. *)
Theorem C6_progress_trace file w :
batch_share_bounded env → batch_share_monotone env →
match job_lifecycle env file w with
| (Ok doc_id, w') =>
    ∃ trace final row,
      progress_writes w' = progress_writes w ++ map (λ r, (doc_id, r)) trace
      ∧ StronglySorted keeps_climbing trace
      ∧ (∀ r, r ∈ trace → (progress r = 100 ↔ status r = "completed"))
      ∧ last trace = Some final
      ∧ progress_store w' !! doc_id = Some final
      ∧ documents_table w' !! doc_id = Some row
      ∧ processing_status row = status final
      ∧ (status final = "completed" ∨ status final = "failed")
      ∧ (status final = "failed" →
           progress final = 0
           ∧ ∃ before r, trace = before ++ [r; final]
                         ∧ status r = "processing" ∧ 0 < progress r < 100)
| (Raise _, w') => w' = w
end.
Proof.
intros Hbound Hmono. unfold job_lifecycle.
destruct (upload_file_outcome file w)
  as [[e Hup]|(name & response & w1 & row0 & Hname & Hup & Hid & Hrname & Htable & Hwrites
               & Hstore & Hreg)].
{ by erewrite bind_raise by exact Hup. }
erewrite bind_ok by exact Hup.
set (doc_id := document_id response) in *.
assert (documents_table w1 !! doc_id = Some row0) as Hrow
  by (by rewrite Htable, lookup_insert_eq).
destruct (process_document_background_eq env (upload_content file)
            (response_filename response) (type response) doc_id w1 row0 Hrow)
  as (res & w2 & Hrun & Hbg).
cbv zeta in Hrun.
set (wa := write_progress doc_id (progress_record 1)
             (set_documents_table
                (λ t, <[doc_id := set_processing "processing" row0]> t) w1)) in *.
assert (after_updates doc_id w1 [1] wa) as Hafter.
{ apply (after_updates_write doc_id w1 [] _ 1).
  eapply after_updates_frame; [|apply after_updates_refl]. done. }
destruct (process_document_climbs env (upload_content file) (response_filename response)
            (type response) doc_id w1 [1] wa Hbound Hmono Hreg Hafter)
  as (res' & w2' & ps & Hrun' & Hafter2 & Hsorted & Hsucc & Hfail).
rewrite Hrun in Hrun'. injection Hrun' as <- <-.
erewrite bind_ok by exact Hbg. unfold mret, M_ret. cbv beta iota.
destruct (success res) eqn:Hs.
- destruct (Hsucc eq_refl) as [Hall Hlast].
  set (w' := write_progress doc_id (progress_record 100) _).
  assert (after_updates doc_id w1 (([1] ++ ps) ++ [100]) w') as (_ & Hw' & Hs').
  { apply after_updates_write. eapply after_updates_frame; [|exact Hafter2]. done. }
  destruct (job_trace_properties name (([1] ++ ps) ++ [100]) [])
    as [Hclimb Hhundred]; [| |by left|].
  { apply StronglySorted_app_2; [| |repeat constructor].
    - intros x1 x2 H1 H2. apply list_elem_of_singleton in H2 as ->.
      apply elem_of_cons in H1 as [->|H1]; [lia|].
      rewrite Forall_forall in Hall. by apply Hall in H1 as [_ ?].
    - constructor; [done|]. eapply Forall_impl; [exact Hall|]. simpl. lia. }
  { apply Forall_app. split; [|repeat constructor; lia].
    constructor; [lia|]. eapply Forall_impl; [exact Hall|]. simpl. lia. }
  rewrite app_nil_r in Hclimb, Hhundred.
  exists (pending_record name :: map progress_record (([1] ++ ps) ++ [100])),
         (progress_record 100).
  eexists.
  split.
  { rewrite Hw', Hwrites, <- app_assoc. simpl. by rewrite map_map. }
  split; [exact Hclimb|]. split; [exact Hhundred|].
  split. { rewrite fmap_app. simpl. by rewrite app_comm_cons, last_snoc. }
  split. { by rewrite Hs', last_snoc. }
  split. { subst w'. simpl. by rewrite lookup_insert_eq. }
  split; [done|]. split; [by left|]. done.
- destruct (Hfail eq_refl) as (Hall & Hne & err & Herr).
  rewrite Herr. simpl.
  destruct Hafter2 as (_ & Hw2 & _).
  destruct (job_trace_properties name ([1] ++ ps) [failed_record err])
    as [Hclimb Hhundred]; [| |right; by eexists|].
  { constructor; [done|]. eapply Forall_impl; [exact Hall|]. simpl. lia. }
  { constructor; [lia|]. eapply Forall_impl; [exact Hall|]. simpl. lia. }
  exists (pending_record name :: map progress_record ([1] ++ ps) ++ [failed_record err]),
         (failed_record err).
  eexists.
  split.
  { rewrite Hw2, Hwrites, <- !app_assoc. f_equal.
    rewrite map_cons, (map_app (λ r : ProgressRecord, (doc_id, r))), map_map.
    reflexivity. }
  split; [exact Hclimb|]. split; [exact Hhundred|].
  split. { by rewrite app_comm_cons, last_snoc. }
  split; [by rewrite lookup_insert_eq|].
  split; [by rewrite lookup_insert_eq|].
  split; [done|]. split; [by right|].
  intros _. split; [done|].
  destruct (exists_last Hne) as (ps' & q & ->).
  exists (pending_record name :: map progress_record (1 :: ps')), (progress_record q).
  apply Forall_app in Hall as [_ Hq]. apply Forall_inv in Hq. simpl in Hq.
  split.
  { simpl. rewrite map_app. simpl. by rewrite <- app_assoc. }
  split; [apply progress_record_processing; lia|]. simpl. lia.
Qed.

End Claims_C6.
(** ** Uploads *)

Section Claims_C5.

Context (env : Environment).

(** Every refusal of [upload_file] leaves as a 500: the handler around
  the whole body catches the [HTTPException] raised with status 400
  and raises a new one with status 500, whose detail is the text of
  the first; nothing is stored. *)
Lemma upload_refusal_is_500 file name w :
upload_filename file = Some name → name ≠ "" →
Py.lower (List.last (Py.split "." name) "") ∉ allowed_types
∨ max_size < Z.of_nat (length (upload_content file)) →
∃ detail,
  upload_file env file w = (Raise (HTTPException 500 ("400: " +:+ detail)), w).
Proof.
intros Hname Hne Hbad. unfold upload_file, try_except. rewrite Hname.
destruct name as [|c name]; [done|].
destruct (bool_decide _) eqn:Hext; simpl; [|by eexists].
apply bool_decide_eq_true in Hext.
destruct Hbad as [Hbad|Hbig]; [done|].
apply Z.ltb_lt in Hbig. rewrite Hbig. by eexists.
Qed.

End Claims_C5.

(** C5 fails on the code: the upload of [malware.exe] is refused with
    status 500, not with a 400-class status; the detail is the text of
    the inner 400 error, and no row is created. *)
Theorem C5_exe_upload_answers_500 :
  upload_file (answering "ok") exe_upload initial_world
  = (Raise (HTTPException 500
              "400: File type 'exe' not supported. Allowed: ['pdf', 'docx', 'doc', 'txt', 'csv', 'xlsx']"),
     initial_world).
Proof. vm_compute. reflexivity. Qed.

(** An accepted upload, for comparison: the job is registered. *)
Example notes_upload_is_accepted :
  returned (upload_file (answering "ok") notes_upload initial_world) (λ response w',
    document_id response = 1
    ∧ type response = "txt"
    ∧ response_status response = "processing"
    ∧ estimated_time response = "< 10 seconds"
    ∧ progress_store w' !! 1 = Some (pending_record "notes.txt")
    ∧ processing_status <$> documents_table w' !! 1 = Some "pending").
Proof. vm_compute. done. Qed.

(** ** Scenarios of the ingestion pipeline *)

(** C4 as stated fails: the first batch of five chunks is indexed, the
    second batch exhausts its two attempts; the job completes with six
    chunks and five vector ids, and its metadata says nothing of the
    degraded completion. *)
Lemma C4_counterexample :
  returned (process_document_background index_failing_after_first [] "notes.txt" "txt" 7
              indexing_world)
    (λ _ w',
       index_events w'
       = [AddDocuments ["7_0"; "7_1"; "7_2"; "7_3"; "7_4"] true;
          AddDocuments ["7_5"] false; AddDocuments ["7_5"] false; IndexDisabled]
       ∧ match documents_table w' !! 7 with
         | Some row =>
             processing_status row = "completed"
             ∧ chunk_count row = 6
             ∧ vector_ids row = Some ["7_0"; "7_1"; "7_2"; "7_3"; "7_4"]
             ∧ doc_metadata row
               = Some {[ "text_length" := VInt 9; "processed_at" := VElapsed;
                         "processing_time" := VElapsed ]}
         | None => False
         end).
Proof. vm_compute. repeat split. Qed.

(** C4 where the index rejects every add. *)
Lemma C4_witness :
  documents_table indexing_world !! 7 = Some pending_row
  ∧ returned (process_document_background index_rejecting [] "notes.txt" "txt" 7
                indexing_world)
      (λ _ w',
         ∃ row' new,
           documents_table w' !! 7 = Some row'
           ∧ index_events w' = index_events indexing_world ++ new
           ∧ (processing_status row' = "completed" ∨ processing_status row' = "failed")
           ∧ (IndexDisabled ∈ new → processing_status row' = "completed")
           ∧ (processing_status row' = "failed" →
                new = [] ∧ vector_ids row' = vector_ids pending_row
                ∧ chunk_count row' = chunk_count pending_row)
           ∧ (processing_status row' = "completed" →
                0 < chunk_count row'
                ∧ progress_store w' !! 7 = Some (progress_record 100)
                ∧ (∃ n, doc_metadata row'
                        = Some {[ "text_length" := VInt n; "processed_at" := VElapsed;
                                  "processing_time" := VElapsed ]})
                ∧ vector_ids row' = Some (accepted_ids new)
                ∧ (vectorstore indexing_world && embeddings indexing_world = false →
                     new = [])
                ∧ (vectorstore indexing_world && embeddings indexing_world = true →
                     batches_indexed new
                     ∧ Z.of_nat (length (accepted_ids new)) = chunk_count row'
                     ∨ ∃ earlier ids j,
                         batches_indexed earlier
                         ∧ new = earlier
                                 ++ [AddDocuments ids false; AddDocuments ids false;
                                     IndexDisabled]
                         ∧ length (accepted_ids new) = (5 * j)%nat
                         ∧ 5 * Z.of_nat j < chunk_count row'
                         ∧ (earlier = [] → vector_ids row' = Some [])))).
Proof.
  split; [reflexivity|].
  apply (C4_degraded_completion index_rejecting [] "notes.txt" "txt" 7 pending_row
           indexing_world).
  reflexivity.
Defined.

(** The first batch is rejected at both attempts by an index that would
    accept the later adds: the job completes without vector ids, and
    the second batch is not attempted. *)
Example first_batch_exhausted :
  returned (process_document_background index_accepting_late [] "notes.txt" "txt" 7
              indexing_world)
    (λ _ w',
       index_events w'
       = [AddDocuments ["7_0"; "7_1"; "7_2"; "7_3"; "7_4"] false;
          AddDocuments ["7_0"; "7_1"; "7_2"; "7_3"; "7_4"] false; IndexDisabled]
       ∧ (processing_status <$> documents_table w' !! 7) = Some "completed"
       ∧ (chunk_count <$> documents_table w' !! 7) = Some 6
       ∧ (vector_ids <$> documents_table w' !! 7) = Some (Some [])).
Proof. vm_compute. done. Qed.

(** Every batch is rejected once and accepted at its second attempt:
    every chunk has its vector id. *)
Example batches_accepted_at_second_attempt :
  returned (process_document_background index_accepting_retries [] "notes.txt" "txt" 7
              indexing_world)
    (λ _ w',
       index_events w'
       = [AddDocuments ["7_0"; "7_1"; "7_2"; "7_3"; "7_4"] false;
          AddDocuments ["7_0"; "7_1"; "7_2"; "7_3"; "7_4"] true;
          AddDocuments ["7_5"] false; AddDocuments ["7_5"] true]
       ∧ vectorstore w' = true
       ∧ (chunk_count <$> documents_table w' !! 7) = Some 6
       ∧ (vector_ids <$> documents_table w' !! 7)
         = Some (Some ["7_0"; "7_1"; "7_2"; "7_3"; "7_4"; "7_5"])).
Proof. vm_compute. done. Qed.

(** The run behind [C4_witness]: both attempts at the first batch fail,
    the job completes without vector ids. *)
Example rejected_job_completes :
  returned (process_document_background index_rejecting [] "notes.txt" "txt" 7
              indexing_world)
    (λ _ w',
       index_events w'
       = [AddDocuments ["7_0"; "7_1"; "7_2"; "7_3"; "7_4"] false;
          AddDocuments ["7_0"; "7_1"; "7_2"; "7_3"; "7_4"] false; IndexDisabled]
       ∧ vectorstore w' = false
       ∧ progress_store w' !! 7 = Some (progress_record 100)
       ∧ map (λ kv, progress kv.2) (progress_writes w')
         = [0; 1; 5; 25; 30; 40; 50; 95; 100; 100]
       ∧ (vector_ids <$> documents_table w' !! 7) = Some (Some [])).
Proof. vm_compute. done. Qed.

Lemma exact_share_bounded api add_ok text chunks :
  batch_share_bounded (scenario api add_ok text chunks).
Proof.
  intros cb total [H1 H2]. simpl. split.
  - apply Z.div_pos; lia.
  - apply Z.div_le_upper_bound; lia.
Qed.

Lemma exact_share_monotone api add_ok text chunks :
  batch_share_monotone (scenario api add_ok text chunks).
Proof.
  intros cb cb' total [H1 H2] H3. simpl.
  apply Z.div_le_mono; lia.
Qed.

(** C6 on the life of an accepted upload. *)
Lemma C6_witness :
  batch_share_bounded (answering "ok")
  ∧ batch_share_monotone (answering "ok")
  ∧ match job_lifecycle (answering "ok") notes_upload initial_world with
    | (Ok doc_id, w') =>
        ∃ trace final row,
          progress_writes w' = progress_writes initial_world ++ map (λ r, (doc_id, r)) trace
          ∧ StronglySorted keeps_climbing trace
          ∧ (∀ r, r ∈ trace → (progress r = 100 ↔ status r = "completed"))
          ∧ last trace = Some final
          ∧ progress_store w' !! doc_id = Some final
          ∧ documents_table w' !! doc_id = Some row
          ∧ processing_status row = status final
          ∧ (status final = "completed" ∨ status final = "failed")
          ∧ (status final = "failed" →
               progress final = 0
               ∧ ∃ before r, trace = before ++ [r; final]
                             ∧ status r = "processing" ∧ 0 < progress r < 100)
    | (Raise _, w') => w' = initial_world
    end.
Proof.
  split; [apply exact_share_bounded|]. split; [apply exact_share_monotone|].
  apply (C6_progress_trace (answering "ok") notes_upload initial_world).
  - apply exact_share_bounded.
  - apply exact_share_monotone.
Defined.

(** A job whose text cannot be extracted: the store shows 5, then the
    failure at 0. *)
Example failed_job_trace :
  let env := scenario (λ _ _, Response 200 (Completion "ok")) (λ _ _, true)
               (Raise (Error "UnicodeDecodeError" "invalid start byte")) [] in
  returned (job_lifecycle env notes_upload initial_world) (λ doc_id w',
    map (λ kv, (progress kv.2, status kv.2)) (progress_writes w')
    = [(0, "pending"); (1, "processing"); (5, "processing"); (0, "failed")]
    ∧ (processing_status <$> documents_table w' !! doc_id) = Some "failed").
Proof. vm_compute. done. Qed.

(** * Further properties of the code *)

(** ** Retrieval *)

Section RetrievalFacts.

Context (env : Environment).



End RetrievalFacts.

(** ** The answer engine *)

Section AnswerFacts.

Context (env : Environment).






End AnswerFacts.

(** ** Strategies and modes of the answer engine *)

Section StrategyFacts.

Context (env : Environment).








End StrategyFacts.





(** ** The query endpoint *)

Section QueryFacts.

Context (env : Environment).













End QueryFacts.






(** ** The endpoints that read or remove a job *)

Section EndpointFacts.

Context (env : Environment).













End EndpointFacts.




